(** * ecs-init/cache: the on-disk cache of the ECS Agent image

    A shallow embedding of [ecs-init/cache/cache.go] (package [cache]) and
    the properties of its download-and-verify, presence-check, region
    memoisation and desired-image resolution.

    Go [string] is [string]; [[]byte] is [list byte]; Go [int] is [Z].
    The [Downloader]'s three capabilities ([httpGetter], [fileSystem],
    [instanceMetadata]) are interfaces in the source; they are embedded as
    an environment of oracles together with an in-memory disk of regular
    files. The methods of the package run in a state monad over the
    [region] field of the [Downloader], the disk and the list of
    capability calls made.

    A [Downloader] is taken to have a metadata client. [NewDownloader]
    builds one without it only when no session can be made, and then
    presets [region] to the default, so that [getRegion] returns before
    the metadata call. *)

From Stdlib Require Import ZArith Lia Ascii DecimalString.
From Stdlib Require Import Strings.Byte.
From stdpp Require Import base list strings gmap fin_maps.

Open Scope Z_scope.

(** ** The Go standard library functions the package calls *)

Module utf8.

Definition RuneError : Z := 65533.
Definition RuneSelf : Z := 128.
Definition UTFMax : nat := 4.

(** The value of a byte of a Go string. *)
Definition code (c : ascii) : Z := Z.of_N (N_of_ascii c).

Definition inRange (lo hi x : Z) : bool := (lo <=? x) && (x <=? hi).

(** Continuation bytes are 0x80..0xBF ([locb], [hicb]). *)
Definition isCont (x : Z) : bool := inRange 128 191 x.

(** [utf8.RuneStart]: [b&0xC0 != 0x80]. *)
Definition RuneStart (c : ascii) : bool :=
  negb (Z.land (code c) 192 =? 128).

(** The [first] table of package utf8 together with [acceptRanges]: for a
    leading byte, the length of the sequence and the range allowed for
    its second byte; [None] for ASCII and for invalid leading bytes. *)
Definition leading (s0 : Z) : option (nat * Z * Z) :=
  if inRange 194 223 s0 then Some (2%nat, 128, 191)
  else if s0 =? 224 then Some (3%nat, 160, 191)
  else if inRange 225 236 s0 then Some (3%nat, 128, 191)
  else if s0 =? 237 then Some (3%nat, 128, 159)
  else if inRange 238 239 s0 then Some (3%nat, 128, 191)
  else if s0 =? 240 then Some (4%nat, 144, 191)
  else if inRange 241 243 s0 then Some (4%nat, 128, 191)
  else if s0 =? 244 then Some (4%nat, 128, 143)
  else None.

(** [utf8.DecodeRuneInString]: the first rune of [s] and its width in
    bytes; [(RuneError, 0)] on the empty string and [(RuneError, 1)] on
    an invalid encoding. *)
Definition DecodeRuneInString (s : list ascii) : Z * nat :=
  match s with
  | [] => (RuneError, 0%nat)
  | c0 :: t =>
    let s0 := code c0 in
    match leading s0 with
    | None => if s0 <? RuneSelf then (s0, 1%nat) else (RuneError, 1%nat)
    | Some (sz, lo, hi) =>
      if (length s <? sz)%nat then (RuneError, 1%nat) else
      match t with
      | [] => (RuneError, 1%nat)
      | c1 :: t1 =>
        let s1 := code c1 in
        if negb (inRange lo hi s1) then (RuneError, 1%nat) else
        if (sz <=? 2)%nat
        then (Z.lor (Z.shiftl (Z.land s0 31) 6) (Z.land s1 63), 2%nat) else
        match t1 with
        | [] => (RuneError, 1%nat)
        | c2 :: t2 =>
          let s2 := code c2 in
          if negb (isCont s2) then (RuneError, 1%nat) else
          if (sz <=? 3)%nat
          then (Z.lor (Z.lor (Z.shiftl (Z.land s0 15) 12)
                             (Z.shiftl (Z.land s1 63) 6))
                      (Z.land s2 63), 3%nat) else
          match t2 with
          | [] => (RuneError, 1%nat)
          | c3 :: _ =>
            let s3 := code c3 in
            if negb (isCont s3) then (RuneError, 1%nat) else
            (Z.lor (Z.lor (Z.lor (Z.shiftl (Z.land s0 7) 18)
                                 (Z.shiftl (Z.land s1 63) 12))
                          (Z.shiftl (Z.land s2 63) 6))
                   (Z.land s3 63), 4%nat)
          end
        end
      end
    end
  end.

(** The backwards scan of [DecodeLastRuneInString] over the reversed
    string: [before] holds the bytes that precede the last one, nearest
    first; the result is how many of them belong to the window that is
    decoded, given that [budget] of them may still be examined. *)
Fixpoint scanStart (budget : nat) (before : list ascii) : nat :=
  match budget, before with
  | O, [] => 0%nat
  | O, _ :: _ => 1%nat
  | S b, [] => 0%nat
  | S b, c :: rest => if RuneStart c then 1%nat else S (scanStart b rest)
  end.

(** [utf8.DecodeLastRuneInString], on the reversed string [rs] (last byte
    first): the last rune and its width. *)
Definition DecodeLastRuneInString (rs : list ascii) : Z * nat :=
  match rs with
  | [] => (RuneError, 0%nat)
  | c :: before =>
    let r := code c in
    if r <? RuneSelf then (r, 1%nat) else
    let k := scanStart (UTFMax - 1) before in
    let window := rev (take (S k) rs) in
    let '(r', size) := DecodeRuneInString window in
    if negb (size =? length window)%nat then (RuneError, 1%nat)
    else (r', size)
  end.

End utf8.

Module unicode.

Definition MaxLatin1 : Z := 255.

(** [unicode.IsSpace]: the Latin-1 spaces, and beyond Latin-1 the
    [White_Space] range table. *)
Definition IsSpace (r : Z) : bool :=
  if r <=? MaxLatin1 then
    utf8.inRange 9 13 r || (r =? 32) || (r =? 133) || (r =? 160)
  else
    (r =? 5760) || utf8.inRange 8192 8202 r || utf8.inRange 8232 8233 r
    || (r =? 8239) || (r =? 8287) || (r =? 12288).

End unicode.

Module strings.

(** [strings.indexFunc s f false], as the string that is left once the
    leading runes satisfying [f] are dropped ([s[i:]], or the empty
    string when every rune satisfies [f]). [n] bounds the number of runes. *)
Fixpoint dropRunes (f : Z -> bool) (n : nat) (s : list ascii) : list ascii :=
  match n, s with
  | S n', _ :: _ =>
    let '(r, size) := utf8.DecodeRuneInString s in
    if f r then dropRunes f n' (drop size s) else s
  | _, _ => []
  end.

(** [strings.TrimLeftFunc]. *)
Definition TrimLeftFunc (s : list ascii) (f : Z -> bool) : list ascii :=
  dropRunes f (length s) s.

(** [strings.lastIndexFunc s f false] on the reversed string: what is
    left of it (still reversed) at the last rune that does not satisfy
    [f], that is [s[0:i+size]] for the index [i] it returns; the empty
    string for [-1]. *)
Fixpoint dropLastRunes (f : Z -> bool) (n : nat) (rs : list ascii) : list ascii :=
  match n, rs with
  | S n', _ :: _ =>
    let '(r, size) := utf8.DecodeLastRuneInString rs in
    if f r then dropLastRunes f n' (drop size rs) else rs
  | _, _ => []
  end.

(** [strings.TrimRightFunc]: with [i] from [lastIndexFunc], the result
    is [s[0:i+wid]] where [wid] is the width of the rune decoded forwards
    at [i] when [s[i]] is not ASCII, and [s[0:i+1]] otherwise. *)
Definition TrimRightFunc (s : list ascii) (f : Z -> bool) : list ascii :=
  let rs := rev s in
  let kept := dropLastRunes f (length rs) rs in
  match kept with
  | [] => []
  | _ :: _ =>
    let size := snd (utf8.DecodeLastRuneInString kept) in
    let i := (length kept - size)%nat in
    let wid :=
      match drop i s with
      | c :: _ =>
        if utf8.RuneSelf <=? utf8.code c
        then snd (utf8.DecodeRuneInString (drop i s)) else 1%nat
      | [] => 1%nat
      end in
    take (i + wid) s
  end.

(** [strings.TrimFunc]. *)
Definition TrimFunc (s : list ascii) (f : Z -> bool) : list ascii :=
  TrimRightFunc (TrimLeftFunc s f) f.

(** [strings.TrimSpace]: [s] without its leading and trailing white
    space, as defined by Unicode. *)
Definition TrimSpace (s : string) : string :=
  String.string_of_list_ascii (TrimFunc (String.list_ascii_of_string s) unicode.IsSpace).

End strings.

Module filepath.

Definition Separator : ascii := "/"%char.

Definition IsPathSeparator (c : ascii) : bool := Ascii.eqb c Separator.

(** The loop [for len(path) > 0 && IsPathSeparator(path[len(path)-1])]
    on the reversed path. *)
Fixpoint stripSeparators (rpath : list ascii) : list ascii :=
  match rpath with
  | c :: rest => if IsPathSeparator c then stripSeparators rest else rpath
  | [] => []
  end.

(** The loop [for i >= 0 && !IsPathSeparator(path[i])] on the reversed
    path: the bytes after the last separator, reversed. *)
Fixpoint lastElement (rpath : list ascii) : list ascii :=
  match rpath with
  | c :: rest => if IsPathSeparator c then [] else c :: lastElement rest
  | [] => []
  end.

(** [filepath.Base] on Unix (no volume name): the last element of
    [path]; trailing separators are removed first; [.] for the empty
    path and [/] for a path of separators only. *)
Definition Base (path : string) : string :=
  match path with
  | EmptyString => "."
  | _ =>
    let stripped := stripSeparators (rev (String.list_ascii_of_string path)) in
    match rev (lastElement stripped) with
    | [] => String Separator EmptyString
    | e => String.string_of_list_ascii e
    end
  end.

End filepath.

Module md5.

Definition Size : nat := 16.
Definition BlockSize : nat := 64.

Definition mask32 : Z := 4294967295.
Definition add32 (a b : Z) : Z := Z.land (a + b) mask32.
Definition not32 (a : Z) : Z := Z.lxor a mask32.
(** [bits.RotateLeft32]. *)
Definition rotl32 (x : Z) (n : Z) : Z :=
  Z.land (Z.lor (Z.shiftl x n) (Z.shiftr x (32 - n))) mask32.

(** The per-round shift amounts. *)
Definition shifts : list Z :=
  [ 7; 12; 17; 22; 7; 12; 17; 22; 7; 12; 17; 22; 7; 12; 17; 22;
    5; 9; 14; 20; 5; 9; 14; 20; 5; 9; 14; 20; 5; 9; 14; 20;
    4; 11; 16; 23; 4; 11; 16; 23; 4; 11; 16; 23; 4; 11; 16; 23;
    6; 10; 15; 21; 6; 10; 15; 21; 6; 10; 15; 21; 6; 10; 15; 21 ].

(** The sine table: [floor (2^32 * |sin (i + 1)|)]. *)
Definition table : list Z :=
  [ 3614090360; 3905402710; 606105819; 3250441966;
    4118548399; 1200080426; 2821735955; 4249261313;
    1770035416; 2336552879; 4294925233; 2304563134;
    1804603682; 4254626195; 2792965006; 1236535329;
    4129170786; 3225465664; 643717713; 3921069994;
    3593408605; 38016083; 3634488961; 3889429448;
    568446438; 3275163606; 4107603335; 1163531501;
    2850285829; 4243563512; 1735328473; 2368359562;
    4294588738; 2272392833; 1839030562; 4259657740;
    2763975236; 1272893353; 4139469664; 3200236656;
    681279174; 3936430074; 3572445317; 76029189;
    3654602809; 3873151461; 530742520; 3299628645;
    4096336452; 1126891415; 2878612391; 4237533241;
    1700485571; 2399980690; 4293915773; 2240044497;
    1873313359; 4264355552; 2734768916; 1309151649;
    4149444226; 3174756917; 718787259; 3951481745 ].

Definition init : Z * Z * Z * Z :=
  (1732584193, 4023233417, 2562383102, 271733878).

Definition byteZ (b : byte) : Z := Z.of_N (Byte.to_N b).

Definition Zbyte (z : Z) : byte :=
  match Byte.of_N (Z.to_N (Z.land z 255)) with
  | Some b => b
  | None => x00
  end.

(** A little-endian 32-bit word from four bytes. *)
Definition word (b0 b1 b2 b3 : byte) : Z :=
  Z.lor (Z.lor (byteZ b0) (Z.shiftl (byteZ b1) 8))
        (Z.lor (Z.shiftl (byteZ b2) 16) (Z.shiftl (byteZ b3) 24)).

Fixpoint words (p : list byte) : list Z :=
  match p with
  | b0 :: b1 :: b2 :: b3 :: rest => word b0 b1 b2 b3 :: words rest
  | _ => []
  end.

(** One of the 64 steps of a block. *)
Definition step (m : list Z) (s : Z * Z * Z * Z) (i : nat) : Z * Z * Z * Z :=
  let '(a, b, c, d) := s in
  let iz := Z.of_nat i in
  let '(f, g) :=
    if (i <? 16)%nat then
      (Z.lor (Z.land b c) (Z.land (not32 b) d), iz)
    else if (i <? 32)%nat then
      (Z.lor (Z.land d b) (Z.land (not32 d) c), (5 * iz + 1) mod 16)
    else if (i <? 48)%nat then
      (Z.lxor (Z.lxor b c) d, (3 * iz + 5) mod 16)
    else
      (Z.lxor c (Z.lor b (not32 d)), (7 * iz) mod 16) in
  let f' := add32 (add32 (add32 f a) (nth i table 0)) (nth (Z.to_nat g) m 0) in
  (d, add32 b (rotl32 f' (nth i shifts 0)), b, c).

(** [blockGeneric] on one 64-byte block. *)
Definition block (s : Z * Z * Z * Z) (p : list byte) : Z * Z * Z * Z :=
  let '(a0, b0, c0, d0) := s in
  let '(a, b, c, d) := fold_left (step (words p)) (seq 0 64) s in
  (add32 a0 a, add32 b0 b, add32 c0 c, add32 d0 d).

Fixpoint blocks (n : nat) (s : Z * Z * Z * Z) (p : list byte) : Z * Z * Z * Z :=
  match n with
  | O => s
  | S n' =>
    match p with
    | [] => s
    | _ => blocks n' (block s (take BlockSize p)) (drop BlockSize p)
    end
  end.

(** [n] as [k] little-endian bytes. *)
Fixpoint putLE (k : nat) (n : Z) : list byte :=
  match k with
  | O => []
  | S k' => Zbyte n :: putLE k' (Z.shiftr n 8)
  end.

(** The padding of [checkSum]: 0x80, zeros up to 56 mod 64, and the
    length in bits as 64 little-endian bits. *)
Definition padding (len : Z) : list byte :=
  x80 :: repeat x00 (Z.to_nat ((55 - len) mod 64)) ++ putLE 8 (Z.shiftl len 3).

(** [md5.Sum]: the MD5 checksum of the data. *)
Definition Sum (data : list byte) : list byte :=
  let p := data ++ padding (Z.of_nat (length data)) in
  let '(a, b, c, d) := blocks (length p) init p in
  putLE 4 a ++ putLE 4 b ++ putLE 4 c ++ putLE 4 d.

(** The running hash returned by [md5.New]: [Write] never fails and
    [Sum(nil)] is the checksum of all bytes written. *)
Record digest : Type := { written : list byte }.

Definition New : digest := {| written := [] |}.
Definition Write (h : digest) (p : list byte) : digest :=
  {| written := written h ++ p |}.
Definition digestSum (h : digest) : list byte := Sum (written h).

End md5.

Module fmt.

Definition hexDigit (n : Z) : ascii :=
  if n <? 10 then ascii_of_N (Z.to_N (48 + n)) else ascii_of_N (Z.to_N (87 + n)).

(** [fmt.Sprintf("%x", b)] for a byte slice [b]: two lower-case
    hexadecimal digits per byte. *)
Fixpoint Sprintf_x (b : list byte) : string :=
  match b with
  | [] => ""
  | c :: rest =>
    let n := md5.byteZ c in
    String (hexDigit (Z.shiftr n 4)) (String (hexDigit (Z.land n 15)) (Sprintf_x rest))
  end.

(** [fmt.Sprintf("%d", n)]. *)
Definition Sprintf_d (n : Z) : string :=
  DecimalString.NilZero.string_of_int (Z.to_int n).

End fmt.

Module bufio.

(** The bytes of [p] up to and including the first [delim], if any. *)
Fixpoint upTo (delim : byte) (p : list byte) : option (list byte) :=
  match p with
  | [] => None
  | b :: rest =>
    if Byte.eqb b delim then Some [b]
    else match upTo delim rest with
         | Some l => Some (b :: l)
         | None => None
         end
  end.

End bufio.

(** ** Errors, streams and files *)

(** Go's [error] values: [nil] is [None] of [option error]. *)
Inductive error : Type :=
| errorString (msg : string)            (* errors.New, fmt.Errorf *)
| EOF                                   (* io.EOF *)
| PathError (op path msg : string)      (* *os.PathError *)
| LinkError (op oldpath newpath msg : string). (* *os.LinkError *)

(** A Go result pair [(v, err)]: the value is meaningful when [err == nil]. *)
Inductive result (A : Type) : Type :=
| Ok (a : A)
| Err (e : error).
Arguments Ok {A} a.
Arguments Err {A} e.

(** An [io.Reader] that is read to its end: the bytes it delivers, and how
    it ends, with [io.EOF] ([None]) or with a read error. *)
Record Reader : Type := { rdata : list byte; rerr : option error }.

(** [*http.Response], the fields the package uses. *)
Record Response : Type := { StatusCode : Z; Body : Reader }.

(** [os.FileInfo], the method the package uses. *)
Record FileInfo : Type := { Size : Z }.

(** A regular file of the disk. *)
Record File : Type := { data : list byte; mode : Z }.

(** [io.TeeReader(r, w)] for a hash [w]: what is read from [r] is written
    to [w]. *)
Record teeReader : Type := { tee_r : Reader; tee_w : md5.digest }.

Module http.
Definition StatusOK : Z := 200.
End http.

Module os.
Definition ModeDir : Z := Z.shiftl 1 31.
Definition ENOENT : string := "no such file or directory".
Definition EEXIST : string := "file exists".
End os.

(** ** The capabilities of a [Downloader] *)

(** Every call through [d.getter], [d.fs] and [d.metadata], in the order
    made. *)
Inductive event : Type :=
| CallRegion
| CallGet (url : string)
| CallStat (name : string)
| CallMkdirAll (path : string) (perm : Z)
| CallTempFile (dir pattern : string)
| CallTeeReader
| CallCopy (dst : string)
| CallRename (oldpath newpath : string)
| CallRemove (name : string)
| CallReadAll
| CallWriteFile (name : string) (content : list byte) (perm : Z)
| CallOpen (name : string)
| CallBase (path : string).

(** Modelled from the spec: the three capabilities a [Downloader] is given
    (the interfaces [httpGetter], [fileSystem] and [instanceMetadata] and
    their standard implementations are declared outside [cache.go]). The
    environment holds what the package does not decide: the answers of the
    metadata service and of the remote store, the failures of the
    filesystem, and the names it draws for temporary files. Each may
    depend on the calls made so far (most recent first). *)
Record Env : Type := {
  (** [d.metadata.Region()] *)
  metadata_Region : list event -> result string;
  (** [d.getter.Get(url)] *)
  getter_Get : list event -> string -> result Response;
  (** the failure, if any, of a filesystem call (permission, device, ...) *)
  fs_fault : list event -> event -> option error;
  (** how many bytes reach the file before a failing [Copy] fails *)
  fs_progress : list event -> nat;
  (** the [i]-th name [TempFile(dir, pattern)] tries *)
  fs_tempname : list event -> string -> string -> nat -> string;
  (** the process's umask *)
  fs_umask : Z
}.

(** Modelled from the spec: package [config], the fixed filesystem layout
    and the naming convention for remote resources, both functions of the
    region. Its values are parameters of the development. *)
Record Config : Type := {
  CacheDirectory : string;
  CacheState : string;
  AgentTarball : string;
  DesiredImageLocatorFile : string;
  DefaultRegionName : string;
  AgentRemoteTarball : string -> string;
  AgentRemoteTarballMD5 : string -> string
}.

(** The mutable state: the [region] field of the [Downloader], the regular
    files of the disk by path, and the calls made (most recent first). *)
Record State : Type := {
  region : string;
  disk : gmap string File;
  calls : list event
}.

(** ** A state monad for the package's methods *)

Definition M (A : Type) : Type := State -> A * State.

Definition ret {A : Type} (a : A) : M A := fun st => (a, st).

Definition bind {A B : Type} (m : M A) (k : A -> M B) : M B :=
  fun st => let '(a, st') := m st in k a st'.

Notation "x <~ m ;; k" := (bind m (fun x => k))
  (at level 100, m at next level, right associativity).

Definition setRegion (r : string) : M unit :=
  fun st => (tt, {| region := r; disk := disk st; calls := calls st |}).

Definition setDisk (f : gmap string File -> gmap string File) : M unit :=
  fun st => (tt, {| region := region st; disk := f (disk st); calls := calls st |}).

Definition getDisk : M (gmap string File) := fun st => (disk st, st).

Definition getField : M string := fun st => (region st, st).

(** Record the call [ev] and return the calls made before it. *)
Definition call (ev : event) : M (list event) :=
  fun st => (calls st,
             {| region := region st; disk := disk st; calls := ev :: calls st |}).

Definition orwPerm : Z := 448. (* 0700 *)

(** [TempFile] gives up after this many names that exist already. *)
Definition tempAttempts : nat := Z.to_nat 10000.
Opaque tempAttempts.

Section Cache.

Variable env : Env.
Variable config : Config.

(** *** [fileSystem], [httpGetter] and [instanceMetadata] *)

(** Modelled from the spec: the region-resolution capability,
    [d.metadata.Region()]. *)
Definition metadata_call : M (result string) :=
  h <~ call CallRegion ;;
  ret (metadata_Region env h).

(** Modelled from the spec: the remote-fetch capability,
    [d.getter.Get(url)]; a response with a non-success status is no
    error of [Get]. *)
Definition Get (url : string) : M (result Response) :=
  h <~ call (CallGet url) ;;
  ret (getter_Get env h url).

(** Modelled from the spec: stat-by-path (size and existence),
    [d.fs.Stat]. *)
Definition Stat (name : string) : M (result FileInfo) :=
  h <~ call (CallStat name) ;;
  dk <~ getDisk ;;
  match fs_fault env h (CallStat name) with
  | Some e => ret (Err e)
  | None =>
    match dk !! name with
    | Some f => ret (Ok {| Size := Z.of_nat (length (data f)) |})
    | None => ret (Err (PathError "stat" name os.ENOENT))
    end
  end.

(** Modelled from the spec: create-directory-recursive, [d.fs.MkdirAll];
    directories are not part of the disk, so the call only succeeds or
    fails. *)
Definition MkdirAll (path : string) (perm : Z) : M (option error) :=
  h <~ call (CallMkdirAll path perm) ;;
  ret (fs_fault env h (CallMkdirAll path perm)).

(** The first of the names [name i], [name (i+1)], ... ([n] of them)
    that is not on the disk: [TempFile] opens with [O_CREATE|O_EXCL] and
    tries again on [os.IsExist]. *)
Fixpoint firstFree (dk : gmap string File) (name : nat -> string)
    (n i : nat) : option string :=
  match n with
  | O => None
  | S n' =>
    match dk !! name i with
    | None => Some (name i)
    | Some _ => firstFree dk name n' (S i)
    end
  end.


(** Modelled from the spec: create-temp-file-in-directory,
    [d.fs.TempFile(dir, pattern)]: a new, empty file with mode 0600 less
    the umask; the handle is identified with its [Name()]. *)
Definition TempFile (dir pattern : string) : M (result string) :=
  h <~ call (CallTempFile dir pattern) ;;
  dk <~ getDisk ;;
  match fs_fault env h (CallTempFile dir pattern) with
  | Some e => ret (Err e)
  | None =>
    match firstFree dk (fs_tempname env h dir pattern) tempAttempts 0 with
    | None => ret (Err (PathError "open" dir os.EEXIST))
    | Some name =>
      _ <~ setDisk (insert name {| data := []; mode := Z.ldiff 384 (fs_umask env) |}) ;;
      ret (Ok name)
    end
  end.

(** Modelled from the spec: the tee of copy-with-tee, [d.fs.TeeReader]. *)
Definition TeeReader (r : Reader) (w : md5.digest) : M teeReader :=
  _ <~ call CallTeeReader ;;
  ret {| tee_r := r; tee_w := w |}.

Definition appendTo (p : list byte) (f : File) : File :=
  {| data := data f ++ p; mode := mode f |}.

(** Modelled from the spec: copy-with-tee, [d.fs.Copy(dst, src)] for the
    open file [dst] and a tee reader: the bytes read go to the hash and to
    the file. It returns the number of bytes written, the first error
    met, and the hash as it then is. A failing write leaves a prefix of
    the stream in the file. *)
Definition Copy (dst : string) (src : teeReader)
  : M (Z * option error * md5.digest) :=
  h <~ call (CallCopy dst) ;;
  match fs_fault env h (CallCopy dst) with
  | Some e =>
    let p := take (fs_progress env h) (rdata (tee_r src)) in
    _ <~ setDisk (alter (appendTo p) dst) ;;
    ret (Z.of_nat (length p), Some e, md5.Write (tee_w src) p)
  | None =>
    let p := rdata (tee_r src) in
    _ <~ setDisk (alter (appendTo p) dst) ;;
    ret (Z.of_nat (length p), rerr (tee_r src), md5.Write (tee_w src) p)
  end.

(** Modelled from the spec: rename-path, [d.fs.Rename]: atomic, a failed
    rename changes nothing. *)
Definition Rename (oldpath newpath : string) : M (option error) :=
  h <~ call (CallRename oldpath newpath) ;;
  dk <~ getDisk ;;
  match fs_fault env h (CallRename oldpath newpath) with
  | Some e => ret (Some e)
  | None =>
    match dk !! oldpath with
    | None => ret (Some (LinkError "rename" oldpath newpath os.ENOENT))
    | Some f =>
      _ <~ setDisk (fun dk => <[newpath := f]> (delete oldpath dk)) ;;
      ret None
    end
  end.

(** Modelled from the spec: remove-path, [d.fs.Remove]. *)
Definition Remove (name : string) : M (option error) :=
  h <~ call (CallRemove name) ;;
  dk <~ getDisk ;;
  match fs_fault env h (CallRemove name) with
  | Some e => ret (Some e)
  | None =>
    match dk !! name with
    | None => ret (Some (PathError "remove" name os.ENOENT))
    | Some _ => _ <~ setDisk (delete name) ;; ret None
    end
  end.

(** Modelled from the spec: read-entire-stream-to-bytes, [d.fs.ReadAll]. *)
Definition ReadAll (r : Reader) : M (result (list byte)) :=
  _ <~ call CallReadAll ;;
  match rerr r with
  | Some e => ret (Err e)
  | None => ret (Ok (rdata r))
  end.

(** Modelled from the spec: write-whole-file-with-permissions,
    [d.fs.WriteFile(name, data, perm)]: the file is created with [perm]
    (less the umask) when absent, and truncated otherwise; an injected
    failure is a failure to open it. *)
Definition WriteFile (name : string) (content : list byte) (perm : Z)
  : M (option error) :=
  h <~ call (CallWriteFile name content perm) ;;
  dk <~ getDisk ;;
  match fs_fault env h (CallWriteFile name content perm) with
  | Some e => ret (Some e)
  | None =>
    let m := match dk !! name with
             | Some f => mode f
             | None => Z.ldiff perm (fs_umask env)
             end in
    _ <~ setDisk (insert name {| data := content; mode := m |}) ;;
    ret None
  end.

(** Modelled from the spec: open-for-read, [d.fs.Open]; a regular file
    that is open is read without error. *)
Definition Open (name : string) : M (result Reader) :=
  h <~ call (CallOpen name) ;;
  dk <~ getDisk ;;
  match fs_fault env h (CallOpen name) with
  | Some e => ret (Err e)
  | None =>
    match dk !! name with
    | None => ret (Err (PathError "open" name os.ENOENT))
    | Some f => ret (Ok {| rdata := data f; rerr := None |})
    end
  end.

(** Modelled from the spec: extract-base-name-from-path, [d.fs.Base],
    which is [filepath.Base]. *)
Definition Base (path : string) : M string :=
  _ <~ call (CallBase path) ;;
  ret (filepath.Base path).

(** [bufio.NewReader(file).ReadString(delim)]: the line up to and
    including the first [delim]; when the input ends before one is
    found, the error that ended it (often [io.EOF]). *)
Definition ReadString (file : Reader) (delim : byte) : result string :=
  match bufio.upTo delim (rdata file) with
  | Some line => Ok (String.string_of_list_byte line)
  | None => Err (match rerr file with Some e => e | None => EOF end)
  end.

(** *** Package [cache] *)

Definition fileNotEmpty (filename : string) : M bool :=
  r <~ Stat filename ;;
  match r with
  | Err _ => ret false
  | Ok fileinfo => ret (0 <? Size fileinfo)
  end.

(** [IsAgentCached]; [&&] does not evaluate its right operand when the
    left one is false. *)
Definition IsAgentCached : M bool :=
  stateNotEmpty <~ fileNotEmpty (CacheState config) ;;
  if stateNotEmpty then fileNotEmpty (AgentTarball config) else ret false.

Definition getRegion : M string :=
  cached <~ getField ;;
  if negb (String.eqb cached "") then ret cached else
  r <~ metadata_call ;;
  let region :=
    match r with
    | Ok region => region
    | Err _ => DefaultRegionName config
    end in
  _ <~ setRegion region ;;
  getField.

Definition getPublishedMd5Sum : M (result string) :=
  region <~ getRegion ;;
  let agentRemoteTarballMD5 := AgentRemoteTarballMD5 config region in
  r <~ Get agentRemoteTarballMD5 ;;
  match r with
  | Err e => ret (Err e)
  | Ok resp =>
    b <~ ReadAll (Body resp) ;;
    match b with
    | Err e => ret (Err e)
    | Ok body => ret (Ok (strings.TrimSpace (String.string_of_list_byte body)))
    end
  end.

Definition getPublishedTarball : M (result Reader) :=
  region <~ getRegion ;;
  let agentRemoteTarball := AgentRemoteTarball config region in
  r <~ Get agentRemoteTarball ;;
  match r with
  | Err e => ret (Err e)
  | Ok resp =>
    if negb (StatusCode resp =? http.StatusOK)
    then ret (Err (errorString
                ("unexpected response code " +:+ fmt.Sprintf_d (StatusCode resp))))
    else ret (Ok (Body resp))
  end.

(** The part of [DownloadAgent] that runs once the temporary file is
    open. It returns the value returned by the function together with
    the final value of its local variable [err], which the deferred
    closure reads. *)
Definition downloadBody (publishedMd5Sum : string)
    (publishedTarballReader : Reader) (tempFile : string)
  : M (option error * option error) :=
  let md5hash := md5.New in
  teeReader <~ TeeReader publishedTarballReader md5hash ;;
  c <~ Copy tempFile teeReader ;;
  let '(_, err, md5hash) := c in
  match err with
  | Some e => ret (Some e, Some e)
  | None =>
    let calculatedMd5Sum := md5.digestSum md5hash in
    let calculatedMd5SumString := fmt.Sprintf_x calculatedMd5Sum in
    region <~ getRegion ;;
    let agentRemoteTarball := AgentRemoteTarball config region in
    if negb (String.eqb publishedMd5Sum calculatedMd5SumString)
    then
      let err := errorString
                   ("mismatched md5sum while downloading " +:+ agentRemoteTarball) in
      ret (Some err, Some err)
    else
      r <~ Rename tempFile (AgentTarball config) ;;
      ret (r, None)
  end.

Definition DownloadAgent : M (option error) :=
  err <~ MkdirAll (CacheDirectory config) (Z.lor os.ModeDir orwPerm) ;;
  match err with
  | Some e => ret (Some e)
  | None =>
    r <~ getPublishedMd5Sum ;;
    match r with
    | Err e => ret (Some e)
    | Ok publishedMd5Sum =>
      r <~ getPublishedTarball ;;
      match r with
      | Err e => ret (Some e)
      | Ok publishedTarballReader =>
        t <~ TempFile (CacheDirectory config) "ecs-agent.tar" ;;
        match t with
        | Err e => ret (Some e)
        | Ok tempFile =>
          b <~ downloadBody publishedMd5Sum publishedTarballReader tempFile ;;
          let '(returned, err) := b in
          (* deferred: tempFile.Close(), then the cleanup closure *)
          _ <~ match err with
               | Some _ => _ <~ Remove tempFile ;; ret tt
               | None => ret tt
               end ;;
          ret returned
        end
      end
    end
  end.

Definition LoadCachedAgent : M (result Reader) :=
  Open (AgentTarball config).

Definition RecordCachedAgent : M (option error) :=
  let data := String.list_byte_of_string "1" in
  WriteFile (CacheState config) data orwPerm.

Definition getDesiredImageFile : M (result string) :=
  f <~ Open (DesiredImageLocatorFile config) ;;
  match f with
  | Err e => ret (Err e)
  | Ok file =>
    match ReadString file x0a with
    | Err e => ret (Err e)
    | Ok desiredImageString =>
      base <~ Base desiredImageString ;;
      let desiredImageFile :=
        strings.TrimSpace (CacheDirectory config +:+ "/" +:+ base) in
      ret (Ok desiredImageFile)
    end
  end.

Definition LoadDesiredAgent : M (result Reader) :=
  r <~ getDesiredImageFile ;;
  match r with
  | Err e => ret (Err e)
  | Ok desiredImageFile => Open desiredImageFile
  end.

End Cache.

(** [NewDownloader]: the state of a new [Downloader] over the disk [dk],
    given the outcome [session] of [session.NewSession()]. When no
    session can be made the region is preset to the default; otherwise
    it is left empty and a metadata client is attached. *)
Definition NewDownloader (config : Config) (session : result unit)
    (dk : gmap string File) : State :=
  {| region := match session with
               | Err _ => DefaultRegionName config
               | Ok _ => ""
               end;
     disk := dk;
     calls := [] |}.

(** ** Reasoning about runs *)

(** [post m st Q]: running [m] from [st] yields a result and a state
    related by [Q]. *)
Definition post {A : Type} (m : M A) (st : State) (Q : A -> State -> Prop) : Prop :=
  Q (fst (m st)) (snd (m st)).

(** [extends P st st']: [st'] has the calls of [st] and, after them, new
    calls that all satisfy [P]. *)
Definition extends (P : event -> Prop) (st st' : State) : Prop :=
  exists new, calls st' = new ++ calls st /\ Forall P new.

(** Calls that neither remove nor write a named file. *)
Definition benign (ev : event) : Prop :=
  match ev with
  | CallRemove _ | CallWriteFile _ _ _ => False
  | _ => True
  end.

Definition notWriteFile (ev : event) : Prop :=
  match ev with
  | CallWriteFile _ _ _ => False
  | _ => True
  end.

Definition notRemove (ev : event) : Prop :=
  match ev with
  | CallRemove _ => False
  | _ => True
  end.

Definition notRename (ev : event) : Prop :=
  match ev with
  | CallRename _ _ => False
  | _ => True
  end.

(** The error of a checksum mismatch for the artifact of region [r]. *)
Definition mismatch (config : Config) (r : string) : error :=
  errorString ("mismatched md5sum while downloading " +:+ AgentRemoteTarball config r).

(** Desired-image resolution in the words of the specification: trim the
    first line, strip it down to its base name, and join the cache
    directory with it. *)
Definition specDesiredImageFile (config : Config) (line : string) : string :=
  CacheDirectory config +:+ "/" +:+ filepath.Base (strings.TrimSpace line).

(** The downloader's region resolves to [r]: it is already set to [r], or
    it is unset and the metadata service (or, when that fails, the
    configured default) gives [r]. *)
Definition resolvesTo (env : Env) (config : Config) (st : State) (r : string) : Prop :=
  (region st = r /\ r <> "") \/
  (region st = "" /\
   forall h, match metadata_Region env h with
             | Ok x => x
             | Err _ => DefaultRegionName config
             end = r).

(** The remote store serves [manifest] at the checksum URL of region [r]
    (with any status code) and [bytes], with status 200, at the artifact
    URL; both bodies are read to their end without error. *)
Definition serves (env : Env) (config : Config) (r : string)
    (manifest bytes : list byte) : Prop :=
  (forall h, exists code,
      getter_Get env h (AgentRemoteTarballMD5 config r)
      = Ok {| StatusCode := code; Body := {| rdata := manifest; rerr := None |} |}) /\
  (forall h,
      getter_Get env h (AgentRemoteTarball config r)
      = Ok {| StatusCode := http.StatusOK;
              Body := {| rdata := bytes; rerr := None |} |}).

(** No filesystem call fails for a reason outside the disk's contents. *)
Definition noFault (env : Env) : Prop :=
  forall h ev, fs_fault env h ev = None.

(** One of the names [TempFile] tries in the cache directory is free. *)
Definition tempAvailable (env : Env) (config : Config) (st : State) : Prop :=
  forall h, exists i,
    (i < tempAttempts)%nat /\
    disk st !! fs_tempname env h (CacheDirectory config) "ecs-agent.tar" i = None.

(** The state after the call [ev] when the call changes nothing else. *)
Definition logged (ev : event) (st : State) : State :=
  {| region := region st; disk := disk st; calls := ev :: calls st |}.

(** An ASCII white-space byte: tab, newline, vertical tab, form feed,
    carriage return or space. *)
Definition asciiSpace (c : ascii) : bool :=
  (utf8.code c <? utf8.RuneSelf) && unicode.IsSpace (utf8.code c).

Definition asciiSpaces (s : string) : bool :=
  forallb asciiSpace (String.list_ascii_of_string s).

(** A byte sequence that is the encoding of exactly one white-space
    rune. *)
Definition spaceRune (enc : list ascii) : bool :=
  let '(r, size) := utf8.DecodeRuneInString enc in
  unicode.IsSpace r && (size =? length enc)%nat.

(** Every rune of [s], read from the left as [strings.TrimSpace] reads
    them, is white space; [n] bounds the number of runes. *)
Fixpoint allSpace (n : nat) (s : list ascii) : bool :=
  match n, s with
  | _, [] => true
  | O, _ :: _ => false
  | S n', _ :: _ =>
    let '(r, size) := utf8.DecodeRuneInString s in
    unicode.IsSpace r && allSpace n' (drop size s)
  end.

(** A string of white space, ASCII or not: spaces, tabs, carriage
    returns, no-break spaces and the like. *)
Definition whiteSpace (s : string) : bool :=
  allSpace (String.length s) (String.list_ascii_of_string s).

(** A sequence of encodings of white-space runes. *)
Definition spaces (l : list ascii) : Prop :=
  exists encs, l = concat encs /\ Forall (fun e => spaceRune e = true) encs.

(** The first and the last rune of a string, as [strings.TrimSpace]
    decodes them, and its last byte. *)
Definition firstRune (s : string) : Z :=
  fst (utf8.DecodeRuneInString (String.list_ascii_of_string s)).

Definition lastRune (s : string) : Z :=
  fst (utf8.DecodeLastRuneInString (rev (String.list_ascii_of_string s))).

Definition lastByte (s : string) : option ascii :=
  last (String.list_ascii_of_string s).

(** The bytes of a path after its last separator. *)
Definition lastPart (l : list ascii) : list ascii :=
  rev (filepath.lastElement (rev l)).

(** *** A concrete layout and concrete environments *)

Definition newline : string := String "010"%char "".

Definition exampleConfig : Config := {|
  CacheDirectory := "/var/cache/ecs";
  CacheState := "/var/cache/ecs/state";
  AgentTarball := "/var/cache/ecs/ecs-agent.tar";
  DesiredImageLocatorFile := "/var/cache/ecs/desired-image";
  DefaultRegionName := "us-east-1";
  AgentRemoteTarball := fun region =>
    "https://s3." +:+ region +:+ ".amazonaws.com/amazon-ecs-agent-" +:+ region
    +:+ "/ecs-agent-latest.tar";
  AgentRemoteTarballMD5 := fun region =>
    "https://s3." +:+ region +:+ ".amazonaws.com/amazon-ecs-agent-" +:+ region
    +:+ "/ecs-agent-latest.tar.md5"
|}.

(** An environment in which the metadata service answers [us-west-2], the
    store serves [manifest] with status [code] at the checksum URL and
    [bytes] with status 200 elsewhere, and the filesystem call [ev] fails
    when [faulty ev] gives an error. *)
Definition exampleEnv (code : Z) (manifest bytes : list byte)
    (faulty : event -> option error) : Env := {|
  metadata_Region := fun _ => Ok "us-west-2";
  getter_Get := fun _ url =>
    if String.eqb url (AgentRemoteTarballMD5 exampleConfig "us-west-2")
    then Ok {| StatusCode := code; Body := {| rdata := manifest; rerr := None |} |}
    else Ok {| StatusCode := http.StatusOK;
               Body := {| rdata := bytes; rerr := None |} |};
  fs_fault := fun _ ev => faulty ev;
  fs_progress := fun _ => 0%nat;
  fs_tempname := fun _ dir pattern i =>
    dir +:+ "/" +:+ pattern +:+ fmt.Sprintf_d (Z.of_nat i);
  fs_umask := 18
|}.

Definition neverFails (ev : event) : option error := None.

Definition renameFails (ev : event) : option error :=
  match ev with
  | CallRename oldpath newpath =>
    Some (LinkError "rename" oldpath newpath "permission denied")
  | _ => None
  end.

Definition helloAgent : list byte := String.list_byte_of_string "hello-agent".

Definition helloManifest : list byte :=
  String.list_byte_of_string ("55184970d69063e3bedc39abaf4a2f75" +:+ newline).

Definition wrongManifest : list byte :=
  String.list_byte_of_string ("d41d8cd98f00b204e9800998ecf8427e" +:+ newline).

(** A metadata service that answers with the empty region first and with
    [us-west-2] afterwards. *)
Definition emptyRegionEnv : Env := {|
  metadata_Region := fun h =>
    match h with
    | [] => Ok ""
    | _ => Ok "us-west-2"
    end;
  getter_Get := fun _ _ => Err (errorString "no route to host");
  fs_fault := fun _ _ => None;
  fs_progress := fun _ => 0%nat;
  fs_tempname := fun _ dir pattern i =>
    dir +:+ "/" +:+ pattern +:+ fmt.Sprintf_d (Z.of_nat i);
  fs_umask := 18
|}.

Definition emptyState : State := {| region := ""; disk := ∅; calls := [] |}.

Definition regularFile (content : string) : File :=
  {| data := String.list_byte_of_string content; mode := 420 |}.

(** A disk that holds only the desired-image locator file. *)
Definition locatorState (content : string) : State := {|
  region := "";
  disk := {[ DesiredImageLocatorFile exampleConfig := regularFile content ]};
  calls := []
|}.

(** A disk that holds a previously verified artifact. *)
Definition cachedState : State := {|
  region := "";
  disk := {[ AgentTarball exampleConfig := regularFile "old-agent" ]};
  calls := []
|}.

(** *** Further predicates on environments and calls *)

(** A lower-case hexadecimal digit, and a string of 32 of them. *)
Definition isLowerHex (c : ascii) : bool :=
  utf8.inRange 48 57 (utf8.code c) || utf8.inRange 97 102 (utf8.code c).

Definition hex32 (s : string) : bool :=
  (String.length s =? 32)%nat && forallb isLowerHex (String.list_ascii_of_string s).

(** The store serves [manifest] at the checksum URL of region [r], with
    any status code, and the body is read to its end without error. *)
Definition servesManifest (env : Env) (config : Config) (r : string)
    (manifest : list byte) : Prop :=
  forall h, exists code,
    getter_Get env h (AgentRemoteTarballMD5 config r)
    = Ok {| StatusCode := code; Body := {| rdata := manifest; rerr := None |} |}.

(** The store answers the artifact URL of region [r] with status [code]
    and the stream [body]. *)
Definition servesArtifact (env : Env) (config : Config) (r : string)
    (code : Z) (body : Reader) : Prop :=
  forall h,
    getter_Get env h (AgentRemoteTarball config r)
    = Ok {| StatusCode := code; Body := body |}.

(** A checksum that was served: some request for a checksum manifest was
    answered with a body that is read without error and trims to [sum]. *)
Definition publishedBy (env : Env) (config : Config) (sum : string) : Prop :=
  exists h r resp,
    getter_Get env h (AgentRemoteTarballMD5 config r) = Ok resp /\
    rerr (Body resp) = None /\
    sum = strings.TrimSpace (String.string_of_list_byte (rdata (Body resp))).

(** An artifact that was served: some request for an artifact was
    answered with status 200 and the stream [body]. *)
Definition deliveredBy (env : Env) (config : Config) (body : Reader) : Prop :=
  exists h r resp,
    getter_Get env h (AgentRemoteTarball config r) = Ok resp /\
    StatusCode resp = http.StatusOK /\
    body = Body resp.

(** The number of calls to the metadata service among [l]. *)
Fixpoint metadataCalls (l : list event) : nat :=
  match l with
  | [] => 0%nat
  | CallRegion :: rest => S (metadataCalls rest)
  | _ :: rest => metadataCalls rest
  end.

(** A call that, if it is a request to the store, asks for the checksum
    or the artifact of region [r]. *)
Definition requestsFor (config : Config) (r : string) (ev : event) : Prop :=
  match ev with
  | CallGet url =>
    url = AgentRemoteTarballMD5 config r \/ url = AgentRemoteTarball config r
  | _ => True
  end.

(** Between [st0] and [st] every request was for region [r], and the
    metadata service was either not asked, the [region] field being as
    it was, or asked once, the field having been empty and now being
    [r]. *)
Definition regionKept (config : Config) (r : string) (st0 st : State) : Prop :=
  exists new,
    calls st = new ++ calls st0 /\
    Forall (requestsFor config r) new /\
    ((region st = region st0 /\ metadataCalls new = 0%nat) \/
     (region st0 = "" /\ region st = r /\ metadataCalls new = 1%nat)).

(** The calls of a download that ends at the checksum request for
    region [r]. *)
Definition manifestOnly (config : Config) (r : string) (ev : event) : Prop :=
  match ev with
  | CallRegion | CallMkdirAll _ _ | CallReadAll => True
  | CallGet url => url = AgentRemoteTarballMD5 config r
  | _ => False
  end.

(** *** Further concrete environments *)

(** An environment in which the metadata service answers [us-west-2],
    the store gives the response [manifest] at the checksum URL and the
    response [artifact] elsewhere, and the filesystem call [ev] fails
    when [faulty ev] gives an error. *)
Definition storeEnv (manifest artifact : result Response)
    (faulty : event -> option error) : Env := {|
  metadata_Region := fun _ => Ok "us-west-2";
  getter_Get := fun _ url =>
    if String.eqb url (AgentRemoteTarballMD5 exampleConfig "us-west-2")
    then manifest else artifact;
  fs_fault := fun _ ev => faulty ev;
  fs_progress := fun _ => 0%nat;
  fs_tempname := fun _ dir pattern i =>
    dir +:+ "/" +:+ pattern +:+ fmt.Sprintf_d (Z.of_nat i);
  fs_umask := 18
|}.

Definition removeFails (ev : event) : option error :=
  match ev with
  | CallRemove name => Some (PathError "remove" name "permission denied")
  | _ => None
  end.

Definition okResponse (code : Z) (body : list byte) : result Response :=
  Ok {| StatusCode := code; Body := {| rdata := body; rerr := None |} |}.

(** A manifest in the format of [md5sum]: the digest and the file name. *)
Definition md5sumManifest : list byte :=
  String.list_byte_of_string
    ("55184970d69063e3bedc39abaf4a2f75  ecs-agent-latest.tar" +:+ newline).

(** An artifact stream that breaks off after six bytes. *)
Definition brokenStream : Reader :=
  {| rdata := String.list_byte_of_string "hello-";
     rerr := Some (errorString "unexpected EOF") |}.

(** A downloader whose region is set already, on an empty disk. *)
Definition presetState : State :=
  {| region := "us-west-2"; disk := ∅; calls := [] |}.

(** A disk that holds the locator file and the image it names. *)
Definition imageState (content : string) : State := {|
  region := "";
  disk := <[ "/var/cache/ecs/myimage.tar" := regularFile "image-bytes" ]>
            {[ DesiredImageLocatorFile exampleConfig := regularFile content ]};
  calls := []
|}.

(** ** Properties *)

Lemma post_ret {A : Type} (a : A) st (Q : A -> State -> Prop) :
  Q a st -> post (ret a) st Q.
Proof. exact (fun H => H). Qed.

Lemma post_bind {A B : Type} (m : M A) (k : A -> M B) st (Q : B -> State -> Prop) :
  post m st (fun a st' => post (k a) st' Q) -> post (bind m k) st Q.
Proof. unfold post, bind. destruct (m st) as [a st']. exact (fun H => H). Qed.

Lemma post_mono {A : Type} (m : M A) st (Q Q' : A -> State -> Prop) :
  post m st Q -> (forall a st', Q a st' -> Q' a st') -> post m st Q'.
Proof. unfold post. auto. Qed.

Lemma post_eq {A : Type} (m : M A) st a st' (Q : A -> State -> Prop) :
  m st = (a, st') -> post m st Q -> Q a st'.
Proof. unfold post. intros ->. exact (fun H => H). Qed.

Lemma post_run {A : Type} (m : M A) st :
  post m st (fun a st' => m st = (a, st')).
Proof. unfold post. destruct (m st); reflexivity. Qed.

Lemma extends_refl P st : extends P st st.
Proof. exists []. split; [reflexivity | constructor]. Qed.

Lemma extends_trans P st1 st2 st3 :
  extends P st1 st2 -> extends P st2 st3 -> extends P st1 st3.
Proof.
  intros (n1 & E1 & F1) (n2 & E2 & F2). exists (n2 ++ n1). split.
  - rewrite E2, E1. apply app_assoc.
  - apply Forall_app. split; assumption.
Qed.

Lemma extends_impl (P P' : event -> Prop) st st' :
  (forall ev, P ev -> P' ev) -> extends P st st' -> extends P' st st'.
Proof.
  intros HP (new & E & F). exists new. split; [exact E |].
  eapply Forall_impl; [exact F | exact HP].
Qed.

Lemma extends_cons (P : event -> Prop) st st' ev :
  P ev -> calls st' = ev :: calls st -> extends P st st'.
Proof.
  intros HP E. exists [ev]. split; [exact E | repeat constructor; exact HP].
Qed.

Lemma benign_notWriteFile ev : benign ev -> notWriteFile ev.
Proof. destruct ev; simpl; tauto. Qed.

Lemma benign_notRemove ev : benign ev -> notRemove ev.
Proof. destruct ev; simpl; tauto. Qed.

Lemma upTo_None delim p : bufio.upTo delim p = None <-> delim ∉ p.
Proof.
  induction p as [| b p IH]; simpl.
  - split; [intros _ H; inversion H | reflexivity].
  - destruct (Byte.eqb b delim) eqn:E.
    + apply Byte.byte_dec_bl in E. subst b. split; [discriminate |].
      intros H. exfalso. apply H. left.
    + destruct (bufio.upTo delim p) as [l |] eqn:U.
      * split; [discriminate |]. intros H. exfalso.
        assert (delim ∉ p) as Hp by (intros Hin; apply H; right; exact Hin).
        apply IH in Hp. discriminate.
      * split; [| reflexivity]. intros _ Hin.
        apply elem_of_cons in Hin as [-> | Hin].
        -- rewrite Byte.byte_dec_lb in E by reflexivity. discriminate.
        -- destruct IH as [IH _]. exact (IH eq_refl Hin).
Qed.

Lemma leading_ascii x : x < 128 -> utf8.leading x = None.
Proof.
  intros H. unfold utf8.leading, utf8.inRange.
  repeat match goal with
  | |- context [?a <=? ?b] => destruct (Z.leb_spec a b); try lia; simpl
  | |- context [?a =? ?b] => destruct (Z.eqb_spec a b); try lia; simpl
  end; reflexivity.
Qed.

Lemma DecodeRune_ascii c t :
  utf8.code c < 128 -> utf8.DecodeRuneInString (c :: t) = (utf8.code c, 1%nat).
Proof.
  intros H. unfold utf8.DecodeRuneInString. rewrite leading_ascii by exact H.
  unfold utf8.RuneSelf. destruct (Z.ltb_spec (utf8.code c) 128); [reflexivity | lia].
Qed.

Lemma DecodeLastRune_ascii c t :
  utf8.code c < 128 -> utf8.DecodeLastRuneInString (c :: t) = (utf8.code c, 1%nat).
Proof.
  intros H. unfold utf8.DecodeLastRuneInString, utf8.RuneSelf.
  destruct (Z.ltb_spec (utf8.code c) 128); [reflexivity | lia].
Qed.

Lemma leading_Some x sz lo hi :
  utf8.leading x = Some (sz, lo, hi) ->
  (sz = 2 \/ sz = 3 \/ sz = 4)%nat /\ 128 <= lo /\ 128 <= x.
Proof.
  unfold utf8.leading, utf8.inRange. intros H.
  repeat match type of H with
  | (if ?b then _ else _) = _ => destruct b eqn:?
  end; inversion H; subst;
  repeat match goal with
  | E : (_ && _) = true |- _ => apply andb_true_iff in E as [? ?]
  | E : (_ <=? _) = true |- _ => apply Z.leb_le in E
  | E : (_ =? _) = true |- _ => apply Z.eqb_eq in E
  end; (split; [auto | lia]).
Qed.

Lemma DecodeRune_single c :
  snd (utf8.DecodeRuneInString [c]) = 1%nat.
Proof.
  unfold utf8.DecodeRuneInString.
  destruct (utf8.leading (utf8.code c)) as [[[sz lo] hi] |] eqn:L.
  - apply leading_Some in L as ([-> | [-> | ->]] & _); reflexivity.
  - destruct (utf8.code c <? utf8.RuneSelf); reflexivity.
Qed.

Lemma DecodeRune_app_ascii (x : list ascii) (a : ascii) (y : list ascii) :
  x <> [] -> utf8.code a < 128 ->
  utf8.DecodeRuneInString (x ++ a :: y) = utf8.DecodeRuneInString x.
Proof.
  intros Hx Ha. destruct x as [| c0 x1]; [contradiction |].
  unfold utf8.DecodeRuneInString. cbn [app].
  destruct (utf8.leading (utf8.code c0)) as [[[sz lo] hi] |] eqn:L; [| reflexivity].
  apply leading_Some in L as (Hsz & Hlo & _).
  assert (utf8.inRange lo hi (utf8.code a) = false) as Ra.
  { unfold utf8.inRange. apply andb_false_iff. left. apply Z.leb_gt. lia. }
  assert (utf8.isCont (utf8.code a) = false) as Ca.
  { unfold utf8.isCont, utf8.inRange. apply andb_false_iff. left. apply Z.leb_gt. lia. }
  destruct Hsz as [-> | [-> | ->]];
    destruct x1 as [| c1 [| c2 [| c3 x4]]]; cbn [app length Nat.ltb Nat.leb negb];
    rewrite ?Ra, ?Ca; cbn [negb];
    repeat match goal with
    | |- context [if ?b then _ else _] => destruct b eqn:?; try reflexivity
    end; reflexivity.
Qed.

(** Bytes that do not start a rune are continuation bytes. *)
Lemma RuneStart_false c :
  utf8.RuneStart c = false -> 128 <= utf8.code c <= 191.
Proof.
  destruct c as [[] [] [] [] [] [] [] []]; intros H;
    try (vm_compute in H; discriminate H); vm_compute; split; discriminate.
Qed.

Lemma RuneStart_ascii c : utf8.code c < 128 -> utf8.RuneStart c = true.
Proof.
  intros H. destruct (utf8.RuneStart c) eqn:E; [reflexivity |].
  apply RuneStart_false in E. lia.
Qed.

Lemma DecodeRune_cont c l :
  utf8.RuneStart c = false -> utf8.DecodeRuneInString (c :: l) = (utf8.RuneError, 1%nat).
Proof.
  intros H. apply RuneStart_false in H. unfold utf8.DecodeRuneInString.
  destruct (utf8.leading (utf8.code c)) as [[[sz lo] hi] |] eqn:L.
  - exfalso. unfold utf8.leading, utf8.inRange in L.
    repeat match type of L with
    | (if ?b then _ else _) = _ => destruct b eqn:?
    end; try discriminate;
    repeat match goal with
    | E : (_ && _) = true |- _ => apply andb_true_iff in E as [? ?]
    | E : (_ <=? _) = true |- _ => apply Z.leb_le in E
    | E : (_ =? _) = true |- _ => apply Z.eqb_eq in E
    end; lia.
  - unfold utf8.RuneSelf. destruct (Z.ltb_spec (utf8.code c) 128); [lia | reflexivity].
Qed.


Lemma DecodeRune_lone c :
  128 <= utf8.code c -> utf8.DecodeRuneInString [c] = (utf8.RuneError, 1%nat).
Proof.
  intros H. unfold utf8.DecodeRuneInString.
  destruct (utf8.leading (utf8.code c)) as [[[sz lo] hi] |] eqn:L.
  - apply leading_Some in L as ([-> | [-> | ->]] & _); reflexivity.
  - unfold utf8.RuneSelf. destruct (Z.ltb_spec (utf8.code c) 128); [lia | reflexivity].
Qed.

Lemma DecodeLast_app_ascii (rt : list ascii) (a : ascii) (z : list ascii) :
  rt <> [] -> utf8.code a < 128 ->
  utf8.DecodeLastRuneInString (rt ++ a :: z) = utf8.DecodeLastRuneInString rt.
Proof.
  intros Hrt Ha. destruct rt as [| c before]; [contradiction |].
  unfold utf8.DecodeLastRuneInString. cbn [app].
  unfold utf8.RuneSelf.
  destruct (Z.ltb_spec (utf8.code c) 128) as [Hc | Hc]; [reflexivity |].
  change (utf8.UTFMax - 1)%nat with 3%nat.
  pose proof (RuneStart_ascii a Ha) as Ha'.
  pose proof (DecodeRune_lone c Hc) as Hlone.
  destruct before as [| b1 [| b2 [| b3 [| b4 rest]]]]; cbn [app utf8.scanStart];
    rewrite ?Ha';
    repeat (match goal with
            | |- context [if utf8.RuneStart ?b then _ else _] =>
              destruct (utf8.RuneStart b) eqn:?
            end; cbn [utf8.scanStart]; rewrite ?Ha');
    cbn [take rev app length]; rewrite ?take_0; cbn [rev app length];
    try reflexivity;
    rewrite ?Hlone, ?(DecodeRune_ascii a) by exact Ha;
    repeat match goal with
    | H : utf8.RuneStart ?b = false |- _ =>
      rewrite (DecodeRune_cont b) by exact H
    end;
    try reflexivity.
  all: idtac.
Qed.

Lemma TrimLeftFunc_id (x : list ascii) (f : Z -> bool) :
  f (fst (utf8.DecodeRuneInString x)) = false -> strings.TrimLeftFunc x f = x.
Proof.
  intros H. unfold strings.TrimLeftFunc. destruct x as [| c x]; [reflexivity |].
  cbn [length strings.dropRunes].
  destruct (utf8.DecodeRuneInString (c :: x)) as [r size]. simpl in H.
  rewrite H. reflexivity.
Qed.

(** The rune [DecodeLastRuneInString] finds is the one decoded forwards
    at the index it gives. *)
Lemma DecodeLast_forward (x : list ascii) :
  x <> [] ->
  let size := snd (utf8.DecodeLastRuneInString (rev x)) in
  (1 <= size <= length x)%nat /\
  exists c w, drop (length x - size) x = c :: w /\
    (if utf8.RuneSelf <=? utf8.code c
     then snd (utf8.DecodeRuneInString (c :: w)) else 1%nat) = size.
Proof.
  intros Hx.
  assert (exists c before, rev x = c :: before) as (c & before & E).
  { destruct (rev x) as [| c before] eqn:E; [| eauto].
    exfalso. apply Hx. rewrite <- (rev_involutive x), E. reflexivity. }
  assert (length x = S (length before)) as Hlen
    by (rewrite <- length_rev, E; reflexivity).
  assert (forall n, (n <= length x)%nat ->
            drop (length x - n) x = rev (take n (rev x))) as Hdrop.
  { intros n Hn. rewrite firstn_rev, rev_involutive. reflexivity. }
  cbn zeta. rewrite E. unfold utf8.DecodeLastRuneInString, utf8.RuneSelf.
  destruct (Z.ltb_spec (utf8.code c) 128) as [Hc | Hc].
  - cbn [snd]. split; [lia |]. exists c, []. split.
    + rewrite Hdrop by lia. rewrite E. reflexivity.
    + destruct (Z.leb_spec 128 (utf8.code c)); [lia | reflexivity].
  - set (k := utf8.scanStart (utf8.UTFMax - 1) before).
    set (window := rev (take (S k) (c :: before))).
    destruct (utf8.DecodeRuneInString window) as [r' sz'] eqn:D.
    destruct (Nat.eqb_spec sz' (length window)) as [Hsz | Hsz]; cbn [negb snd].
    + assert (length window <= length x)%nat as Hw.
      { subst window. rewrite length_rev, length_take. cbn [length]. lia. }
      assert (1 <= length window)%nat as Hw1.
      { subst window. rewrite length_rev, length_take. cbn [length]. lia. }
      split; [lia |].
      assert (drop (length x - sz') x = window) as Hd.
      { rewrite Hdrop by lia. rewrite E. unfold window. f_equal.
        rewrite Hsz. unfold window. rewrite length_rev, length_take.
        destruct (le_lt_dec (S k) (length (c :: before))) as [Hle | Hgt].
        - f_equal. lia.
        - rewrite Nat.min_r by lia. rewrite firstn_all.
          symmetry. apply take_ge. lia. }
      destruct window as [| c' w'] eqn:W; [simpl in Hw1; lia |].
      exists c', w'. split; [exact Hd |].
      destruct (Z.leb_spec 128 (utf8.code c')) as [Hc' | Hc'].
      * rewrite D. reflexivity.
      * rewrite DecodeRune_ascii in D by exact Hc'. inversion D. reflexivity.
    + split; [lia |]. exists c, []. split.
      * rewrite Hdrop by lia. rewrite E. reflexivity.
      * destruct (Z.leb_spec 128 (utf8.code c)); [| lia].
        apply DecodeRune_single.
Qed.

Lemma asciiSpace_spec c :
  asciiSpace c = true ->
  utf8.code c < 128 /\ unicode.IsSpace (utf8.code c) = true /\
  filepath.IsPathSeparator c = false.
Proof.
  unfold asciiSpace, utf8.RuneSelf. intros H.
  apply andb_true_iff in H as [H1 H2]. apply Z.ltb_lt in H1.
  split; [exact H1 |]. split; [exact H2 |].
  apply Ascii.eqb_neq. intros ->. vm_compute in H2. discriminate.
Qed.

Lemma dropLastRunes_spaces (ws rx : list ascii) (n : nat) :
  forallb asciiSpace ws = true ->
  strings.dropLastRunes unicode.IsSpace (length ws + n) (ws ++ rx)
  = strings.dropLastRunes unicode.IsSpace n rx.
Proof.
  induction ws as [| c ws IH]; [reflexivity |]. cbn [forallb]. intros H.
  apply andb_true_iff in H as [Hc Hws].
  apply asciiSpace_spec in Hc as (Hc1 & Hc2 & _).
  cbn [length app Nat.add strings.dropLastRunes].
  rewrite DecodeLastRune_ascii by exact Hc1. rewrite Hc2.
  cbn [drop]. rewrite drop_0. apply IH. exact Hws.
Qed.

Lemma TrimRightFunc_trailing (x ws : list ascii) :
  x <> [] ->
  unicode.IsSpace (fst (utf8.DecodeLastRuneInString (rev x))) = false ->
  forallb asciiSpace ws = true ->
  strings.TrimRightFunc (x ++ ws) unicode.IsSpace = x.
Proof.
  intros Hx Hlast Hws. unfold strings.TrimRightFunc.
  rewrite rev_app_distr, length_app, length_rev.
  rewrite <- (length_rev ws), dropLastRunes_spaces
    by (rewrite forallb_forall in *; intros c Hc; apply Hws, in_rev; exact Hc).
  destruct (DecodeLast_forward x Hx) as (Hsize & c & w & Hd & Hwid).
  destruct (rev x) as [| c0 before] eqn:E.
  { exfalso. apply Hx. rewrite <- (rev_involutive x), E. reflexivity. }
  cbn [length strings.dropLastRunes].
  destruct (utf8.DecodeLastRuneInString (c0 :: before)) as [r size] eqn:D.
  cbn [fst snd] in *. rewrite Hlast. rewrite D. cbn [snd].
  assert (length (c0 :: before) = length x) as Hlen
    by (rewrite <- E; apply length_rev).
  rewrite Hlen.
  rewrite drop_app_le by lia. rewrite Hd. cbn [app].
  assert ((if utf8.RuneSelf <=? utf8.code c
           then snd (utf8.DecodeRuneInString (c :: w ++ ws))
           else 1%nat) = size) as ->.
  { rewrite <- Hwid. destruct (utf8.RuneSelf <=? utf8.code c); [| reflexivity].
    destruct ws as [| a ws']; [rewrite app_nil_r; reflexivity |].
    cbn [forallb] in Hws. apply andb_true_iff in Hws as [Ha _].
    apply asciiSpace_spec in Ha as (Ha & _).
    change (c :: w ++ a :: ws') with ((c :: w) ++ a :: ws').
    rewrite DecodeRune_app_ascii; [reflexivity | discriminate | exact Ha]. }
  replace (length x - size + size)%nat with (length x) by lia.
  apply take_app_length.
Qed.

Lemma TrimFunc_trailing (x ws : list ascii) :
  x <> [] ->
  unicode.IsSpace (fst (utf8.DecodeRuneInString x)) = false ->
  unicode.IsSpace (fst (utf8.DecodeLastRuneInString (rev x))) = false ->
  forallb asciiSpace ws = true ->
  strings.TrimFunc (x ++ ws) unicode.IsSpace = x.
Proof.
  intros Hx Hfirst Hlast Hws. unfold strings.TrimFunc.
  rewrite TrimLeftFunc_id.
  - apply TrimRightFunc_trailing; assumption.
  - destruct ws as [| a ws']; [rewrite app_nil_r; exact Hfirst |].
    cbn [forallb] in Hws. apply andb_true_iff in Hws as [Ha _].
    apply asciiSpace_spec in Ha as (Ha & _).
    rewrite DecodeRune_app_ascii; [exact Hfirst | exact Hx | exact Ha].
Qed.

Lemma list_ascii_app (a b : string) :
  String.list_ascii_of_string (a +:+ b)
  = String.list_ascii_of_string a ++ String.list_ascii_of_string b.
Proof. induction a as [| c a IH]; simpl; [reflexivity | rewrite IH; reflexivity]. Qed.

Lemma string_of_app (a b : list ascii) :
  String.string_of_list_ascii (a ++ b)
  = String.string_of_list_ascii a +:+ String.string_of_list_ascii b.
Proof. induction a as [| c a IH]; simpl; [reflexivity | rewrite IH; reflexivity]. Qed.

Lemma string_of_bytes_line (s : string) :
  String.string_of_list_byte (String.list_byte_of_string s ++ [x0a]) = s +:+ newline.
Proof.
  unfold String.string_of_list_byte, String.list_byte_of_string.
  rewrite map_app, map_map, string_of_app.
  rewrite (map_ext _ (fun c => c)) by (intros c; apply ascii_of_byte_of_ascii).
  rewrite map_id, String.string_of_list_ascii_of_string. reflexivity.
Qed.

Lemma lastPart_snoc l c :
  filepath.IsPathSeparator c = false -> lastPart (l ++ [c]) = lastPart l ++ [c].
Proof.
  intros H. unfold lastPart. rewrite rev_app_distr. simpl. rewrite H. reflexivity.
Qed.

Lemma Base_snoc (l : list ascii) (c : ascii) :
  filepath.IsPathSeparator c = false ->
  filepath.Base (String.string_of_list_ascii (l ++ [c]))
  = String.string_of_list_ascii (lastPart l ++ [c]).
Proof.
  intros H. unfold filepath.Base.
  destruct (String.string_of_list_ascii (l ++ [c])) as [| a s] eqn:E.
  { destruct l; discriminate. }
  rewrite <- E, String.list_ascii_of_string_of_list_ascii.
  rewrite rev_app_distr. cbn [rev app filepath.stripSeparators]. rewrite H.
  cbn [filepath.lastElement]. rewrite H. cbn [rev]. fold (lastPart l).
  destruct (lastPart l ++ [c]) eqn:E2; [| reflexivity].
  destruct (lastPart l); discriminate.
Qed.

Lemma lastElement_app a b :
  Forall (fun c => filepath.IsPathSeparator c = false) a ->
  filepath.lastElement (a ++ b) = a ++ filepath.lastElement b.
Proof.
  induction 1 as [| c a Hc Ha IH]; simpl; [reflexivity |].
  rewrite Hc, IH. reflexivity.
Qed.

Lemma lastPart_split dirs name :
  (dirs = [] \/ last dirs = Some filepath.Separator) ->
  filepath.Separator ∉ name ->
  lastPart (dirs ++ name) = name.
Proof.
  intros Hd Hn. unfold lastPart. rewrite rev_app_distr, lastElement_app.
  - replace (filepath.lastElement (rev dirs)) with (@nil ascii).
    + rewrite app_nil_r. apply rev_involutive.
    + destruct Hd as [-> | Hd]; [reflexivity |].
      apply last_Some in Hd as [d' ->]. rewrite rev_app_distr. reflexivity.
  - apply Forall_forall. intros c Hc. unfold filepath.IsPathSeparator.
    apply Ascii.eqb_neq. intros ->. apply Hn. apply list_elem_of_In.
    apply in_rev. apply list_elem_of_In. exact Hc.
Qed.

Lemma string_app_assoc (a b c : string) : (a +:+ b) +:+ c = a +:+ b +:+ c.
Proof.
  induction a as [| x a IH]; [reflexivity |].
  change (String x ((a +:+ b) +:+ c) = String x (a +:+ b +:+ c)).
  f_equal. exact IH.
Qed.

Lemma lastByte_app (a b : string) (d : ascii) :
  lastByte b = Some d -> lastByte (a +:+ b) = Some d.
Proof.
  unfold lastByte. rewrite list_ascii_app. intros H.
  apply last_Some in H as [l ->]. rewrite app_assoc. apply last_snoc.
Qed.

Lemma lastPart_trailing (l ws : list ascii) :
  forallb asciiSpace ws = true -> lastPart (l ++ ws) = lastPart l ++ ws.
Proof.
  intros Hws. unfold lastPart. rewrite rev_app_distr, lastElement_app.
  - rewrite rev_app_distr, rev_involutive. reflexivity.
  - apply Forall_forall. intros c Hc.
    rewrite forallb_forall in Hws.
    apply list_elem_of_In, in_rev, Hws, asciiSpace_spec in Hc. apply Hc.
Qed.

Lemma string_app_empty_r (s : string) : s +:+ "" = s.
Proof.
  induction s as [| c s IH]; [reflexivity |].
  change (String c (s +:+ "") = String c s). f_equal. exact IH.
Qed.

Lemma Base_lastPart (l : list ascii) (c : ascii) :
  last l = Some c ->
  filepath.IsPathSeparator c = false ->
  filepath.Base (String.string_of_list_ascii l)
  = String.string_of_list_ascii (lastPart l).
Proof.
  intros Hl Hc. apply last_Some in Hl as [l0 ->].
  rewrite (Base_snoc _ _ Hc), (lastPart_snoc _ _ Hc). reflexivity.
Qed.

(** White space after a path whose last byte is no separator stays at the
    end of the base name. *)
Lemma Base_trailing (body ws : string) (d : ascii) :
  lastByte body = Some d ->
  d <> filepath.Separator ->
  asciiSpaces ws = true ->
  filepath.Base (body +:+ ws) = filepath.Base body +:+ ws /\
  lastByte (filepath.Base body) = Some d /\
  filepath.Base body
  = String.string_of_list_ascii (lastPart (String.list_ascii_of_string body)).
Proof.
  intros Hd Hsep Hws. unfold lastByte in Hd.
  assert (filepath.IsPathSeparator d = false) as Hd'
    by (apply Ascii.eqb_neq; exact Hsep).
  assert (filepath.Base body
          = String.string_of_list_ascii (lastPart (String.list_ascii_of_string body)))
    as Hb.
  { rewrite <- (Base_lastPart _ d Hd Hd'), String.string_of_list_ascii_of_string.
    reflexivity. }
  split; [| split; [| exact Hb]].
  - unfold asciiSpaces in Hws.
    assert (exists c, last (String.list_ascii_of_string (body +:+ ws)) = Some c /\
                      filepath.IsPathSeparator c = false) as (c & Hc & Hc').
    { rewrite list_ascii_app, last_app.
      destruct (last (String.list_ascii_of_string ws)) as [c |] eqn:Lw.
      - exists c. split; [reflexivity |].
        apply last_Some in Lw as [w Ew]. rewrite Ew, forallb_app in Hws.
        apply andb_true_iff in Hws as [_ Ha]. cbn [forallb] in Ha.
        rewrite andb_true_r in Ha. apply (asciiSpace_spec c Ha).
      - exists d. split; assumption. }
    rewrite <- (String.string_of_list_ascii_of_string (body +:+ ws)).
    rewrite (Base_lastPart _ c Hc Hc'), list_ascii_app.
    rewrite lastPart_trailing by exact Hws.
    rewrite string_of_app, <- Hb, String.string_of_list_ascii_of_string. reflexivity.
  - rewrite Hb. unfold lastByte. rewrite String.list_ascii_of_string_of_list_ascii.
    apply last_Some in Hd as [l0 ->]. rewrite (lastPart_snoc _ _ Hd').
    apply last_snoc.
Qed.

Lemma TrimSpace_trailing (s ws : string) :
  s <> "" ->
  unicode.IsSpace (firstRune s) = false ->
  unicode.IsSpace (lastRune s) = false ->
  asciiSpaces ws = true ->
  strings.TrimSpace (s +:+ ws) = s.
Proof.
  unfold firstRune, lastRune, asciiSpaces. intros Hs Hfirst Hlast Hws.
  unfold strings.TrimSpace. rewrite list_ascii_app.
  rewrite TrimFunc_trailing; try assumption.
  - apply String.string_of_list_ascii_of_string.
  - destruct s; [contradiction | discriminate].
Qed.

Lemma asciiSpaces_app (a b : string) :
  asciiSpaces a = true -> asciiSpaces b = true -> asciiSpaces (a +:+ b) = true.
Proof.
  unfold asciiSpaces. rewrite list_ascii_app, forallb_app. intros -> ->. reflexivity.
Qed.

Lemma firstRune_joined (dir name : string) :
  firstRune (dir +:+ "/" +:+ name) = firstRune (dir +:+ "/").
Proof.
  unfold firstRune. rewrite !list_ascii_app.
  change (String.list_ascii_of_string "/") with ["/"%char].
  destruct (String.list_ascii_of_string dir) as [| c l]; cbn [app].
  - rewrite !DecodeRune_ascii by (vm_compute; reflexivity). reflexivity.
  - change (c :: l ++ "/"%char :: String.list_ascii_of_string name)
      with ((c :: l) ++ "/"%char :: String.list_ascii_of_string name).
    change (c :: l ++ ["/"%char]) with ((c :: l) ++ "/"%char :: []).
    assert (utf8.code "/"%char < 128) as Hsep by reflexivity.
    rewrite (DecodeRune_app_ascii (c :: l) "/"%char _ ltac:(discriminate) Hsep).
    rewrite (DecodeRune_app_ascii (c :: l) "/"%char [] ltac:(discriminate) Hsep).
    reflexivity.
Qed.

(** What precedes a separator does not change the last rune of what
    follows it. *)
Lemma lastRune_after_separator (before after : list ascii) :
  after <> [] ->
  utf8.DecodeLastRuneInString (rev (before ++ filepath.Separator :: after))
  = utf8.DecodeLastRuneInString (rev after).
Proof.
  intros H. rewrite rev_app_distr. cbn [rev]. rewrite <- app_assoc. cbn [app].
  apply DecodeLast_app_ascii; [| vm_compute; reflexivity].
  intros E. apply H. rewrite <- (rev_involutive after), E. reflexivity.
Qed.

Lemma lastElement_split (r : list ascii) :
  exists rest,
    r = filepath.lastElement r ++ rest /\
    (rest = [] \/ exists rest', rest = filepath.Separator :: rest').
Proof.
  induction r as [| c r (rest & E & Hrest)]; cbn [filepath.lastElement].
  - exists []. split; [reflexivity | left; reflexivity].
  - destruct (filepath.IsPathSeparator c) eqn:S.
    + apply Ascii.eqb_eq in S. subst c. exists (filepath.Separator :: r).
      split; [reflexivity | right; eauto].
    + exists rest. split; [cbn [app]; f_equal; exact E | exact Hrest].
Qed.

(** A path is its directory part, empty or ending in a separator, followed
    by its last part. *)
Lemma lastPart_decompose (l : list ascii) :
  exists dirs,
    l = dirs ++ lastPart l /\
    (dirs = [] \/ exists dirs', dirs = dirs' ++ [filepath.Separator]).
Proof.
  destruct (lastElement_split (rev l)) as (rest & E & Hrest).
  exists (rev rest). split.
  - unfold lastPart. rewrite <- rev_app_distr, <- E. symmetry. apply rev_involutive.
  - destruct Hrest as [-> | [rest' ->]]; [left; reflexivity |].
    right. exists (rev rest'). reflexivity.
Qed.

Lemma lastRune_Base (content : string) (d : ascii) :
  lastByte content = Some d ->
  d <> filepath.Separator ->
  lastRune (filepath.Base content) = lastRune content.
Proof.
  intros Hd Hsep.
  destruct (Base_trailing content "" d Hd Hsep eq_refl) as (_ & Hbl & Hb).
  unfold lastRune. rewrite Hb, String.list_ascii_of_string_of_list_ascii.
  destruct (lastPart_decompose (String.list_ascii_of_string content))
    as (dirs & E & Hdirs).
  assert (lastPart (String.list_ascii_of_string content) <> []) as Hne.
  { intros Hnil. unfold lastByte in Hbl.
    rewrite Hb, String.list_ascii_of_string_of_list_ascii, Hnil in Hbl.
    discriminate. }
  destruct Hdirs as [-> | [dirs' ->]].
  - rewrite E at 2. reflexivity.
  - rewrite E at 2. rewrite <- app_assoc. cbn [app].
    rewrite lastRune_after_separator by exact Hne. reflexivity.
Qed.

(** The final trim of the joined path removes the white space that ends
    the line and nothing else, when neither the cache directory begins
    nor the name ends with white space. *)
Lemma joined_trim (dir name ws : string) :
  name <> "" ->
  unicode.IsSpace (firstRune (dir +:+ "/")) = false ->
  unicode.IsSpace (lastRune name) = false ->
  asciiSpaces ws = true ->
  strings.TrimSpace (dir +:+ "/" +:+ name +:+ ws) = dir +:+ "/" +:+ name.
Proof.
  intros Hname Hfirst Hlast Hws.
  replace (dir +:+ "/" +:+ name +:+ ws)
    with ((dir +:+ "/" +:+ name) +:+ ws)
    by (rewrite !string_app_assoc; reflexivity).
  apply TrimSpace_trailing.
  - destruct dir; discriminate.
  - rewrite firstRune_joined. exact Hfirst.
  - unfold lastRune. rewrite !list_ascii_app.
    change (String.list_ascii_of_string "/") with ["/"%char]. cbn [app].
    rewrite lastRune_after_separator; [exact Hlast |].
    destruct name; [contradiction | discriminate].
  - exact Hws.
Qed.

Lemma upTo_first delim p rest :
  delim ∉ p -> bufio.upTo delim (p ++ delim :: rest) = Some (p ++ [delim]).
Proof.
  induction p as [| b p IH]; simpl; intros H.
  - rewrite Byte.byte_dec_lb by reflexivity. reflexivity.
  - destruct (Byte.eqb b delim) eqn:E.
    + apply Byte.byte_dec_bl in E. subst b. exfalso. apply H. left.
    + rewrite IH; [reflexivity |]. intros Hin. apply H. right. exact Hin.
Qed.

(** *** Trimming a joined path *)

Lemma leading_bounds x sz lo hi :
  utf8.leading x = Some (sz, lo, hi) -> 128 <= lo /\ hi <= 191.
Proof.
  unfold utf8.leading. intros H.
  repeat match type of H with
  | (if ?b then _ else _) = _ => destruct b
  end; inversion H; subst; lia.
Qed.

Lemma RuneStart_not_cont c :
  utf8.RuneStart c = true -> utf8.isCont (utf8.code c) = false.
Proof.
  destruct c as [[] [] [] [] [] [] [] []]; intros H;
    try (vm_compute in H; discriminate H); vm_compute; reflexivity.
Qed.

(** A byte that is no continuation byte ends the decoding of what
    precedes it. *)
Lemma DecodeRune_app_start (x : list ascii) (a : ascii) (y : list ascii) :
  x <> [] -> utf8.isCont (utf8.code a) = false ->
  utf8.DecodeRuneInString (x ++ a :: y) = utf8.DecodeRuneInString x.
Proof.
  intros Hx Ca. destruct x as [| c0 x1]; [contradiction |].
  unfold utf8.DecodeRuneInString. cbn [app].
  destruct (utf8.leading (utf8.code c0)) as [[[sz lo] hi] |] eqn:L; [| reflexivity].
  pose proof (leading_bounds _ _ _ _ L) as [Hlo Hhi].
  apply leading_Some in L as (Hsz & _ & _).
  assert (utf8.inRange lo hi (utf8.code a) = false) as Ra.
  { destruct (utf8.inRange lo hi (utf8.code a)) eqn:R; [| reflexivity].
    unfold utf8.inRange in R. apply andb_true_iff in R as [R1 R2].
    apply Z.leb_le in R1. apply Z.leb_le in R2.
    unfold utf8.isCont, utf8.inRange in Ca. apply andb_false_iff in Ca as [C | C];
      apply Z.leb_gt in C; lia. }
  destruct Hsz as [-> | [-> | ->]];
    destruct x1 as [| c1 [| c2 [| c3 x4]]]; cbn [app length Nat.ltb Nat.leb negb];
    rewrite ?Ra, ?Ca; cbn [negb];
    repeat match goal with
    | |- context [if ?b then _ else _] => destruct b eqn:?; try reflexivity
    end; reflexivity.
Qed.

(** A white-space rune found by [DecodeLastRuneInString] begins with a
    byte that is no continuation byte. *)
Lemma DecodeLast_space_start (x : list ascii) :
  x <> [] ->
  unicode.IsSpace (fst (utf8.DecodeLastRuneInString (rev x))) = true ->
  exists c w,
    drop (length x - snd (utf8.DecodeLastRuneInString (rev x))) x = c :: w /\
    utf8.isCont (utf8.code c) = false.
Proof.
  intros Hx.
  assert (exists c before, rev x = c :: before) as (c & before & E).
  { destruct (rev x) as [| c before] eqn:E; [| eauto].
    exfalso. apply Hx. rewrite <- (rev_involutive x), E. reflexivity. }
  assert (length x = S (length before)) as Hlen
    by (rewrite <- length_rev, E; reflexivity).
  assert (forall n, (n <= length x)%nat ->
            drop (length x - n) x = rev (take n (rev x))) as Hdrop.
  { intros n Hn. rewrite firstn_rev, rev_involutive. reflexivity. }
  rewrite E. unfold utf8.DecodeLastRuneInString, utf8.RuneSelf.
  destruct (Z.ltb_spec (utf8.code c) 128) as [Hc | Hc].
  - cbn [fst snd]. intros _. exists c, []. split.
    + rewrite Hdrop by lia. rewrite E. reflexivity.
    + unfold utf8.isCont, utf8.inRange. apply andb_false_iff. left.
      apply Z.leb_gt. exact Hc.
  - set (k := utf8.scanStart (utf8.UTFMax - 1) before).
    set (window := rev (take (S k) (c :: before))).
    destruct (utf8.DecodeRuneInString window) as [r' sz'] eqn:D.
    destruct (Nat.eqb_spec sz' (length window)) as [Hsz | Hsz]; cbn [negb fst snd].
    2:{ intros H. vm_compute in H. discriminate. }
    intros Hsp.
    assert (length window <= length x)%nat as Hw.
    { subst window. rewrite length_rev, length_take. cbn [length]. lia. }
    assert (1 <= length window)%nat as Hw1.
    { subst window. rewrite length_rev, length_take. cbn [length]. lia. }
    assert (drop (length x - sz') x = window) as Hd.
    { rewrite Hdrop by lia. rewrite E. unfold window. f_equal.
      rewrite Hsz. unfold window. rewrite length_rev, length_take.
      destruct (le_lt_dec (S k) (length (c :: before))) as [Hle | Hgt].
      - f_equal. lia.
      - rewrite Nat.min_r by lia. rewrite firstn_all.
        symmetry. apply take_ge. lia. }
    destruct window as [| c' w'] eqn:W; [simpl in Hw1; lia |].
    exists c', w'. split; [exact Hd |].
    destruct (utf8.RuneStart c') eqn:S; [apply RuneStart_not_cont; exact S |].
    rewrite (DecodeRune_cont c' w' S) in D. inversion D; subst r'.
    vm_compute in Hsp. discriminate.
Qed.

(** Trimming from the right stops at a separator at the latest; what it
    drops begins, if it is not empty, with a byte that starts a rune. *)
Lemma dropLastRunes_stops (n : nat) (re rd : list ascii) :
  (length re < n)%nat ->
  exists k, (k <= length re)%nat /\
    strings.dropLastRunes unicode.IsSpace n (re ++ filepath.Separator :: rd)
    = drop k re ++ filepath.Separator :: rd /\
    forall a, last (take k re) = Some a -> utf8.isCont (utf8.code a) = false.
Proof.
  revert re. induction n as [| n IH]; intros re Hn; [lia |].
  destruct re as [| c re'].
  - exists 0%nat. split; [lia |]. split; [reflexivity | discriminate].
  - assert (utf8.code filepath.Separator < 128) as Hsep by reflexivity.
    change ((c :: re') ++ filepath.Separator :: rd)
      with (c :: (re' ++ filepath.Separator :: rd)).
    cbn [strings.dropLastRunes].
    change (c :: (re' ++ filepath.Separator :: rd))
      with ((c :: re') ++ filepath.Separator :: rd).
    rewrite (DecodeLast_app_ascii (c :: re') _ rd ltac:(discriminate) Hsep).
    set (re := c :: re') in *.
    assert (rev re <> []) as Hx.
    { intros H. apply (f_equal (@length ascii)) in H. rewrite length_rev in H.
      discriminate H. }
    pose proof (DecodeLast_forward (rev re) Hx) as Hfw.
    pose proof (DecodeLast_space_start (rev re) Hx) as Hst.
    cbn zeta in Hfw. rewrite rev_involutive, length_rev in Hfw, Hst.
    destruct (utf8.DecodeLastRuneInString re) as [r size] eqn:D.
    cbn [fst snd] in Hfw, Hst. destruct Hfw as [Hsize _].
    destruct (unicode.IsSpace r) eqn:Sp.
    + destruct (Hst eq_refl) as (c' & w' & Hd & Hc').
      rewrite drop_app_le by lia.
      destruct (IH (drop size re)) as (k2 & Hk2 & Hrun & Htail).
      { rewrite length_drop. lia. }
      rewrite length_drop in Hk2.
      exists (size + k2)%nat. split; [lia |]. split.
      * rewrite Hrun, drop_drop. reflexivity.
      * intros a Ha. rewrite <- take_take_drop, last_app in Ha.
        destruct (last (take k2 (drop size re))) as [b |] eqn:Lb.
        -- inversion Ha; subst b. apply Htail. reflexivity.
        -- rewrite skipn_rev in Hd.
           replace (length re - (length re - size))%nat with size in Hd by lia.
           apply (f_equal (@rev ascii)) in Hd. rewrite rev_involutive in Hd.
           rewrite Hd in Ha. cbn [rev] in Ha. rewrite last_snoc in Ha.
           inversion Ha; subst a. exact Hc'.
    + exists 0%nat. split; [lia |]. split; [reflexivity | discriminate].
Qed.

(** [TrimRightFunc] returns what its backwards scan keeps, when what
    the scan drops begins with a byte that starts a rune. *)
Lemma TrimRightFunc_kept (x tail : list ascii) (f : Z -> bool) :
  x <> [] ->
  strings.dropLastRunes f (length (x ++ tail)) (rev (x ++ tail)) = rev x ->
  (forall a, head tail = Some a -> utf8.isCont (utf8.code a) = false) ->
  strings.TrimRightFunc (x ++ tail) f = x.
Proof.
  intros Hx Hkept Htail. unfold strings.TrimRightFunc.
  rewrite length_rev, Hkept.
  destruct (DecodeLast_forward x Hx) as (Hsize & c & w & Hd & Hwid).
  destruct (rev x) as [| c0 before] eqn:E.
  { exfalso. apply Hx. rewrite <- (rev_involutive x), E. reflexivity. }
  destruct (utf8.DecodeLastRuneInString (c0 :: before)) as [r size] eqn:D.
  cbn [fst snd] in *.
  assert (length (c0 :: before) = length x) as Hlen
    by (rewrite <- E; apply length_rev).
  rewrite Hlen.
  rewrite drop_app_le by lia. rewrite Hd. cbn [app].
  assert ((if utf8.RuneSelf <=? utf8.code c
           then snd (utf8.DecodeRuneInString (c :: w ++ tail))
           else 1%nat) = size) as ->.
  { rewrite <- Hwid. destruct (utf8.RuneSelf <=? utf8.code c); [| reflexivity].
    destruct tail as [| a tail']; [rewrite app_nil_r; reflexivity |].
    change (c :: w ++ a :: tail') with ((c :: w) ++ a :: tail').
    rewrite DecodeRune_app_start; [reflexivity | discriminate |].
    apply Htail. reflexivity. }
  replace (length x - size + size)%nat with (length x) by lia.
  apply take_app_length.
Qed.

(** Trimming a path on the right never goes past its last separator:
    of what follows the separator, a prefix is kept, and what is
    dropped begins with a byte that starts a rune. *)
Lemma TrimRightFunc_keeps_prefix (dir e ws : list ascii) :
  forallb asciiSpace ws = true ->
  exists k, (k <= length e)%nat /\
    strings.TrimRightFunc (dir ++ filepath.Separator :: e ++ ws) unicode.IsSpace
    = dir ++ filepath.Separator :: take k e /\
    forall a, head (drop k e ++ ws) = Some a -> utf8.isCont (utf8.code a) = false.
Proof.
  intros Hws.
  destruct (dropLastRunes_stops (length e + 1 + length dir) (rev e) (rev dir))
    as (j & Hj & Hrun & Hstart).
  { rewrite length_rev. lia. }
  rewrite length_rev in Hj.
  exists (length e - j)%nat. split; [lia |].
  set (x := dir ++ filepath.Separator :: take (length e - j) e).
  assert (dir ++ filepath.Separator :: e ++ ws
          = x ++ (drop (length e - j) e ++ ws)) as Hs.
  { unfold x. rewrite <- app_assoc. cbn [app]. rewrite app_assoc, take_drop.
    reflexivity. }
  assert (forall a, head (drop (length e - j) e ++ ws) = Some a ->
                    utf8.isCont (utf8.code a) = false) as Hhead.
  { intros a Ha.
    destruct (drop (length e - j) e) as [| b t] eqn:Ed.
    - cbn [app] in Ha. destruct ws as [| b ws']; [discriminate |].
      cbn [head] in Ha. inversion Ha; subst b.
      cbn [forallb] in Hws. apply andb_true_iff in Hws as [Hb _].
      apply asciiSpace_spec in Hb as (Hb & _).
      unfold utf8.isCont, utf8.inRange. apply andb_false_iff. left.
      apply Z.leb_gt. exact Hb.
    - cbn [app head] in Ha. inversion Ha; subst b.
      apply Hstart.
      rewrite <- (rev_involutive e) in Ed at 2. rewrite skipn_rev in Ed.
      rewrite length_rev in Ed.
      replace (length e - (length e - j))%nat with j in Ed by lia.
      apply (f_equal (@rev ascii)) in Ed. rewrite rev_involutive in Ed.
      rewrite Ed. cbn [rev]. apply last_snoc. }
  split; [| exact Hhead].
  rewrite Hs. apply TrimRightFunc_kept.
  - unfold x. destruct dir; discriminate.
  - rewrite <- Hs.
    assert (rev (dir ++ filepath.Separator :: e ++ ws)
            = rev ws ++ (rev e ++ filepath.Separator :: rev dir)) as ->.
    { rewrite rev_app_distr. cbn [rev]. rewrite rev_app_distr, <- !app_assoc.
      reflexivity. }
    assert (length (dir ++ filepath.Separator :: e ++ ws)
            = (length (rev ws) + (length e + 1 + length dir))%nat) as ->.
    { rewrite length_app. cbn [length]. rewrite length_app, length_rev. lia. }
    rewrite dropLastRunes_spaces.
    2:{ rewrite forallb_forall in *. intros c Hc. apply Hws, in_rev. exact Hc. }
    rewrite Hrun. unfold x. rewrite rev_app_distr. cbn [rev].
    rewrite <- app_assoc. cbn [app]. f_equal.
    rewrite skipn_rev. reflexivity.
  - exact Hhead.
Qed.

Lemma TrimRightFunc_after_separator (dir e ws : list ascii) :
  forallb asciiSpace ws = true ->
  exists k, (k <= length e)%nat /\
    strings.TrimRightFunc (dir ++ filepath.Separator :: e ++ ws) unicode.IsSpace
    = dir ++ filepath.Separator :: take k e.
Proof.
  intros Hws. destruct (TrimRightFunc_keeps_prefix dir e ws Hws) as (k & Hk & H & _).
  exists k. split; assumption.
Qed.

Lemma lastElement_no_separator (r : list ascii) :
  filepath.Separator ∉ filepath.lastElement r.
Proof.
  induction r as [| c r IH]; cbn [filepath.lastElement]; [apply not_elem_of_nil |].
  destruct (filepath.IsPathSeparator c) eqn:S; [apply not_elem_of_nil |].
  apply not_elem_of_cons. split; [| exact IH].
  intros <-. unfold filepath.IsPathSeparator in S.
  rewrite Ascii.eqb_refl in S. discriminate.
Qed.

Lemma lastPart_no_separator (l : list ascii) : filepath.Separator ∉ lastPart l.
Proof.
  unfold lastPart. intros H. apply list_elem_of_In, in_rev, list_elem_of_In in H.
  exact (lastElement_no_separator _ H).
Qed.

(** The path that a line of the locator file resolves to: the cache
    directory, a separator, and a prefix of the last element of the
    line. *)
Lemma joined_confined (dir content : string) :
  unicode.IsSpace (firstRune (dir +:+ "/")) = false ->
  exists k,
    strings.TrimSpace (dir +:+ "/" +:+ filepath.Base (content +:+ newline))
    = dir +:+ "/"
      +:+ String.string_of_list_ascii
            (take k (lastPart (String.list_ascii_of_string content))).
Proof.
  intros Hfirst.
  set (lp := lastPart (String.list_ascii_of_string content)).
  assert (filepath.Base (content +:+ newline)
          = String.string_of_list_ascii (lp ++ ["010"%char])) as ->.
  { rewrite <- (String.string_of_list_ascii_of_string (content +:+ newline)).
    rewrite list_ascii_app. change (String.list_ascii_of_string newline) with ["010"%char].
    rewrite (Base_lastPart _ "010"%char); [| apply last_snoc | reflexivity].
    rewrite lastPart_snoc by reflexivity. reflexivity. }
  destruct (TrimRightFunc_after_separator (String.list_ascii_of_string dir) lp
              ["010"%char] eq_refl) as (k & _ & Htrim).
  exists k. unfold strings.TrimSpace, strings.TrimFunc.
  rewrite TrimLeftFunc_id.
  2:{ fold (firstRune (dir +:+ "/" +:+ String.string_of_list_ascii (lp ++ ["010"%char]))).
      rewrite firstRune_joined. exact Hfirst. }
  rewrite !list_ascii_app, String.list_ascii_of_string_of_list_ascii.
  change (String.list_ascii_of_string "/") with [filepath.Separator]. cbn [app].
  rewrite Htrim.
  change (String.list_ascii_of_string dir ++ filepath.Separator :: take k lp)
    with (String.list_ascii_of_string dir ++ [filepath.Separator] ++ take k lp).
  rewrite !string_of_app, String.string_of_list_ascii_of_string. reflexivity.
Qed.

(** *** White space in UTF-8 *)

Lemma cont_not_start c : utf8.isCont (utf8.code c) = true -> utf8.RuneStart c = false.
Proof.
  destruct c as [[] [] [] [] [] [] [] []]; intros H;
    try (vm_compute in H; discriminate H); vm_compute; reflexivity.
Qed.

Lemma leading_start c : utf8.leading (utf8.code c) <> None -> utf8.RuneStart c = true.
Proof.
  destruct c as [[] [] [] [] [] [] [] []]; intros H;
    try (vm_compute; reflexivity); exfalso; apply H; vm_compute; reflexivity.
Qed.

Lemma inRange_cont lo hi x :
  128 <= lo -> hi <= 191 -> utf8.inRange lo hi x = true -> utf8.isCont x = true.
Proof.
  unfold utf8.isCont, utf8.inRange. intros Hlo Hhi H.
  apply andb_true_iff in H as [H1 H2]. apply Z.leb_le in H1. apply Z.leb_le in H2.
  apply andb_true_iff. split; apply Z.leb_le; lia.
Qed.

Lemma IsSpace_RuneError : unicode.IsSpace utf8.RuneError = false.
Proof. reflexivity. Qed.

Lemma IsSpace_separator : unicode.IsSpace (utf8.code filepath.Separator) = false.
Proof. reflexivity. Qed.

(** The shapes of the encoding of a white-space rune: one ASCII byte,
    or a leading byte followed by one to three continuation bytes. *)
Lemma spaceRune_shape (enc : list ascii) :
  spaceRune enc = true ->
  (exists c, enc = [c] /\ utf8.code c < 128 /\
             utf8.DecodeRuneInString enc = (utf8.code c, 1%nat)) \/
  (exists c0 t, enc = c0 :: t /\ t <> [] /\ (length enc <= 4)%nat /\
                utf8.leading (utf8.code c0) <> None /\
                Forall (fun c => utf8.isCont (utf8.code c) = true) t).
Proof.
  unfold spaceRune. destruct enc as [| c0 t]; [intros H; discriminate H |].
  unfold utf8.DecodeRuneInString.
  destruct (utf8.leading (utf8.code c0)) as [[[sz lo] hi] |] eqn:L.
  2:{ unfold utf8.RuneSelf.
      destruct (Z.ltb_spec (utf8.code c0) 128) as [Hc | Hc]; [| intros H; discriminate H].
      intros H. apply andb_true_iff in H as [_ H]. apply Nat.eqb_eq in H.
      destruct t; [| discriminate H]. left. exists c0. auto. }
  pose proof (leading_bounds _ _ _ _ L) as [Hlo Hhi].
  pose proof (leading_Some _ _ _ _ L) as (Hsz & _ & _).
  assert (utf8.leading (utf8.code c0) <> None) as Hlead by (rewrite L; discriminate).
  intros H. right. exists c0, t. split; [reflexivity |].
  destruct Hsz as [-> | [-> | ->]];
    destruct t as [| c1 [| c2 [| c3 [| c4 t4]]]]; cbn [length Nat.ltb Nat.leb] in H;
    try discriminate H;
    repeat match type of H with
    | context [if negb ?b then _ else _] =>
      let E := fresh "E" in destruct b eqn:E; cbn [negb] in H; try discriminate H
    end;
    cbn [Nat.leb] in H;
    try (apply andb_true_iff in H as [_ H]; apply Nat.eqb_eq in H);
    try discriminate H;
    (split; [discriminate |]; split; [cbn [length]; lia |]; split; [exact Hlead |]);
    repeat constructor;
    try (eapply inRange_cont; [exact Hlo | exact Hhi | eassumption]);
    assumption.
Qed.

(** Decoding the encoding of a white-space rune does not look at what
    follows it. *)
Lemma spaceRune_decode (enc y : list ascii) :
  spaceRune enc = true ->
  utf8.DecodeRuneInString (enc ++ y) = utf8.DecodeRuneInString enc.
Proof.
  unfold spaceRune. destruct enc as [| c0 t]; [intros H; discriminate H |].
  unfold utf8.DecodeRuneInString. cbn [app].
  destruct (utf8.leading (utf8.code c0)) as [[[sz lo] hi] |] eqn:L; [| reflexivity].
  pose proof (leading_Some _ _ _ _ L) as (Hsz & _ & _).
  intros H.
  destruct Hsz as [-> | [-> | ->]];
    destruct t as [| c1 [| c2 [| c3 [| c4 t4]]]];
    cbn [app length Nat.ltb Nat.leb] in *;
    try discriminate H;
    repeat match type of H with
    | context [if negb ?b then _ else _] =>
      let E := fresh "E" in destruct b eqn:E; cbn [negb] in H |- *; try discriminate H
    end;
    cbn [Nat.leb] in *;
    try (apply andb_true_iff in H as [_ H]; apply Nat.eqb_eq in H);
    try discriminate H; reflexivity.
Qed.

Lemma cont_not_ascii x : utf8.isCont x = true -> (x <? utf8.RuneSelf) = false.
Proof.
  unfold utf8.isCont, utf8.inRange, utf8.RuneSelf. intros H.
  apply andb_true_iff in H as [H _]. apply Z.leb_le in H. apply Z.ltb_ge. lia.
Qed.

(** Decoding backwards finds the encoding of a white-space rune that
    ends the string, whatever precedes it. *)
Lemma spaceRune_decode_last (enc before : list ascii) :
  spaceRune enc = true ->
  utf8.DecodeLastRuneInString (rev enc ++ before) = utf8.DecodeRuneInString enc.
Proof.
  intros H. destruct (spaceRune_shape enc H)
    as [(c & -> & Hc & Hdec) | (c0 & t & -> & Ht & Hlen & Hlead & Hcont)].
  - rewrite Hdec. cbn [rev app]. apply DecodeLastRune_ascii. exact Hc.
  - apply leading_start in Hlead.
    unfold spaceRune in H.
    destruct (utf8.DecodeRuneInString (c0 :: t)) as [r size] eqn:D.
    apply andb_true_iff in H as [_ Hsize]. apply Nat.eqb_eq in Hsize.
    change (utf8.UTFMax - 1)%nat with 3%nat.
    destruct t as [| c1 [| c2 [| c3 [| c4 t4]]]]; [contradiction | | | |
      cbn [length] in Hlen; lia].
    + apply Forall_cons in Hcont as [H1 _].
      cbn [rev app]. unfold utf8.DecodeLastRuneInString.
      rewrite (cont_not_ascii _ H1). change (utf8.UTFMax - 1)%nat with 3%nat.
      cbn [utf8.scanStart]. rewrite Hlead.
      cbn [take rev app]. rewrite take_0. cbn [rev app length].
      rewrite D, Hsize. reflexivity.
    + apply Forall_cons in Hcont as [H1 Hcont].
      apply Forall_cons in Hcont as [H2 _].
      cbn [rev app]. unfold utf8.DecodeLastRuneInString.
      rewrite (cont_not_ascii _ H2). change (utf8.UTFMax - 1)%nat with 3%nat.
      cbn [utf8.scanStart]. rewrite (cont_not_start _ H1), Hlead.
      cbn [take rev app]. rewrite take_0. cbn [rev app length].
      rewrite D, Hsize. reflexivity.
    + apply Forall_cons in Hcont as [H1 Hcont].
      apply Forall_cons in Hcont as [H2 Hcont].
      apply Forall_cons in Hcont as [H3 _].
      cbn [rev app]. unfold utf8.DecodeLastRuneInString.
      rewrite (cont_not_ascii _ H3). change (utf8.UTFMax - 1)%nat with 3%nat.
      cbn [utf8.scanStart]. rewrite (cont_not_start _ H2), (cont_not_start _ H1), Hlead.
      cbn [take rev app]. rewrite take_0. cbn [rev app length].
      rewrite D, Hsize. reflexivity.
Qed.

Lemma spaceRune_head (enc : list ascii) :
  spaceRune enc = true ->
  exists c t, enc = c :: t /\ utf8.isCont (utf8.code c) = false.
Proof.
  intros H. destruct (spaceRune_shape enc H)
    as [(c & -> & Hc & _) | (c0 & t & -> & _ & _ & Hlead & _)].
  - exists c, []. split; [reflexivity |].
    unfold utf8.isCont, utf8.inRange. apply andb_false_iff. left. apply Z.leb_gt. exact Hc.
  - exists c0, t. split; [reflexivity |].
    apply RuneStart_not_cont, leading_start. exact Hlead.
Qed.

Lemma spaceRune_no_separator (enc : list ascii) :
  spaceRune enc = true -> filepath.Separator ∉ enc.
Proof.
  intros H. pose proof H as H0.
  destruct (spaceRune_shape enc H)
    as [(c & -> & Hc & Hdec) | (c0 & t & -> & _ & _ & Hlead & Hcont)].
  - unfold spaceRune in H0. rewrite Hdec in H0. apply andb_true_iff in H0 as [H0 _].
    intros Hin. apply elem_of_cons in Hin as [E | Hin]; [| inversion Hin]. subst c.
    rewrite IsSpace_separator in H0. discriminate.
  - intros Hin. apply elem_of_cons in Hin as [E | Hin].
    + subst c0. apply Hlead. reflexivity.
    + rewrite Forall_forall in Hcont. apply Hcont in Hin. discriminate Hin.
Qed.

Lemma spaceRune_IsSpace (enc : list ascii) :
  spaceRune enc = true ->
  unicode.IsSpace (fst (utf8.DecodeRuneInString enc)) = true /\
  snd (utf8.DecodeRuneInString enc) = length enc /\ enc <> [].
Proof.
  unfold spaceRune. destruct enc as [| c t]; [intros H; discriminate H |].
  destruct (utf8.DecodeRuneInString (c :: t)) as [r size]. intros H.
  apply andb_true_iff in H as [H1 H2]. apply Nat.eqb_eq in H2.
  split; [exact H1 |]. split; [exact H2 | discriminate].
Qed.

(** The first rune of a string, when it is white space, is encoded by
    the bytes it is decoded from. *)
Lemma decode_spaceRune (s : list ascii) :
  unicode.IsSpace (fst (utf8.DecodeRuneInString s)) = true ->
  (1 <= snd (utf8.DecodeRuneInString s) <= length s)%nat /\
  spaceRune (take (snd (utf8.DecodeRuneInString s)) s) = true.
Proof.
  unfold spaceRune. destruct s as [| c0 t]; [intros H; discriminate H |].
  unfold utf8.DecodeRuneInString.
  destruct (utf8.leading (utf8.code c0)) as [[[sz lo] hi] |] eqn:L.
  2:{ unfold utf8.RuneSelf.
      destruct (Z.ltb_spec (utf8.code c0) 128) as [Hc | Hc]; [| intros H; discriminate H].
      cbn [fst snd take length]. rewrite take_0, L.
      destruct (Z.ltb_spec (utf8.code c0) 128); [| lia].
      intros ->. split; [lia | reflexivity]. }
  pose proof (leading_Some _ _ _ _ L) as (Hsz & _ & _).
  intros H.
  destruct Hsz as [-> | [-> | ->]];
    destruct t as [| c1 [| c2 [| c3 [| c4 t4]]]];
    cbn [length Nat.ltb Nat.leb] in *;
    try discriminate H;
    repeat match type of H with
    | context [if negb ?b then _ else _] =>
      let E := fresh "E" in destruct b eqn:E; cbn [negb] in H |- *; try discriminate H
    end;
    cbn [Nat.leb fst snd] in *; try discriminate H;
    cbn [take length]; rewrite ?take_0, L; cbn [length Nat.ltb Nat.leb];
    rewrite ?E, ?E0, ?E1; cbn [negb Nat.leb];
    (split; [lia |]); rewrite H; reflexivity.
Qed.

Lemma DecodeRune_size (s : list ascii) :
  s <> [] -> (1 <= snd (utf8.DecodeRuneInString s))%nat.
Proof.
  destruct s as [| c0 t]; [contradiction |]. intros _.
  unfold utf8.DecodeRuneInString.
  destruct (utf8.leading (utf8.code c0)) as [[[sz lo] hi] |] eqn:L.
  - repeat match goal with
    | |- context [if ?b then _ else _] => destruct b
    | |- context [match ?l with [] => _ | _ :: _ => _ end] => destruct l
    end; cbn [snd]; lia.
  - destruct (utf8.code c0 <? utf8.RuneSelf); cbn [snd]; lia.
Qed.

(** More fuel than the length of the string changes nothing. *)
Lemma dropRunes_enough (f : Z -> bool) (n : nat) (s : list ascii) :
  (length s <= n)%nat -> strings.dropRunes f n s = strings.TrimLeftFunc s f.
Proof.
  unfold strings.TrimLeftFunc.
  assert (forall n m s, (length s <= n)%nat -> (length s <= m)%nat ->
            strings.dropRunes f n s = strings.dropRunes f m s) as H.
  { clear n s. induction n as [| n IH]; intros m s Hn Hm.
    - destruct s; [| cbn [length] in Hn; lia]. destruct m; reflexivity.
    - destruct s as [| c s']; [destruct m; reflexivity |].
      destruct m as [| m]; [cbn [length] in Hm; lia |].
      cbn [strings.dropRunes].
      pose proof (DecodeRune_size (c :: s') ltac:(discriminate)) as Hsize.
      destruct (utf8.DecodeRuneInString (c :: s')) as [r size]. cbn [snd] in Hsize.
      destruct (f r); [| reflexivity].
      apply IH; rewrite length_drop; cbn [length] in *; lia. }
  intros Hn. apply H; [exact Hn | lia].
Qed.

Lemma dropLastRunes_enough (f : Z -> bool) (n : nat) (s : list ascii) :
  (length s <= n)%nat ->
  strings.dropLastRunes f n (rev s) = strings.dropLastRunes f (length s) (rev s).
Proof.
  assert (forall n m rs, (length rs <= n)%nat -> (length rs <= m)%nat ->
            strings.dropLastRunes f n rs = strings.dropLastRunes f m rs) as H.
  { clear n s. induction n as [| n IH]; intros m rs Hn Hm.
    - destruct rs; [| cbn [length] in Hn; lia]. destruct m; reflexivity.
    - destruct rs as [| c rs']; [destruct m; reflexivity |].
      destruct m as [| m]; [cbn [length] in Hm; lia |].
      cbn [strings.dropLastRunes].
      assert (rev (c :: rs') <> []) as Hx.
      { intros E. apply (f_equal (@length ascii)) in E. rewrite length_rev in E.
        discriminate E. }
      pose proof (DecodeLast_forward (rev (c :: rs')) Hx) as Hfw. cbn zeta in Hfw.
      rewrite rev_involutive in Hfw. destruct Hfw as [Hsize _].
      destruct (utf8.DecodeLastRuneInString (c :: rs')) as [r size]. cbn [snd] in Hsize.
      destruct (f r); [| reflexivity].
      apply IH; rewrite length_drop; cbn [length] in *; lia. }
  intros Hn. apply H; rewrite length_rev; [exact Hn | lia].
Qed.

(** White space read from the left is a sequence of encodings of
    white-space runes. *)
Lemma allSpace_encs (n : nat) (s : list ascii) :
  allSpace n s = true ->
  exists encs, s = concat encs /\ Forall (fun e => spaceRune e = true) encs.
Proof.
  revert s. induction n as [| n IH]; intros s H.
  - destruct s; [| discriminate H]. exists []. split; [reflexivity | constructor].
  - destruct s as [| c s']; [exists []; split; [reflexivity | constructor] |].
    cbn [allSpace] in H.
    pose proof (decode_spaceRune (c :: s')) as Hd.
    destruct (utf8.DecodeRuneInString (c :: s')) as [r size]. cbn [fst snd] in Hd.
    apply andb_true_iff in H as [Hr Hrest].
    destruct (Hd Hr) as [_ Henc].
    destruct (IH _ Hrest) as (encs & E & Hencs).
    exists (take size (c :: s') :: encs). split.
    + cbn [concat]. rewrite <- E. symmetry. apply take_drop.
    + constructor; assumption.
Qed.

Lemma whiteSpace_encs (s : string) :
  whiteSpace s = true ->
  exists encs, String.list_ascii_of_string s = concat encs /\
               Forall (fun e => spaceRune e = true) encs.
Proof. apply allSpace_encs. Qed.

Lemma encs_no_separator (encs : list (list ascii)) :
  Forall (fun e => spaceRune e = true) encs -> filepath.Separator ∉ concat encs.
Proof.
  induction 1 as [| e encs He _ IH]; cbn [concat]; [apply not_elem_of_nil |].
  intros Hin. apply elem_of_app in Hin as [Hin | Hin]; [| exact (IH Hin)].
  exact (spaceRune_no_separator e He Hin).
Qed.

Lemma encs_head (encs : list (list ascii)) (a : ascii) :
  Forall (fun e => spaceRune e = true) encs ->
  head (concat encs) = Some a -> utf8.isCont (utf8.code a) = false.
Proof.
  intros H. destruct H as [| e encs He _]; [discriminate |].
  destruct (spaceRune_head e He) as (c & t & -> & Hc).
  cbn [concat app head]. intros E. inversion E; subst a. exact Hc.
Qed.

(** [TrimLeftFunc] drops leading white space. *)
Lemma TrimLeftFunc_encs (encs : list (list ascii)) (x : list ascii) :
  Forall (fun e => spaceRune e = true) encs ->
  strings.TrimLeftFunc (concat encs ++ x) unicode.IsSpace
  = strings.TrimLeftFunc x unicode.IsSpace.
Proof.
  induction 1 as [| e encs He _ IH]; [reflexivity |].
  cbn [concat]. rewrite <- app_assoc.
  destruct (spaceRune_IsSpace e He) as (Hr & Hsize & Hne).
  pose proof (spaceRune_decode e (concat encs ++ x) He) as Hdec.
  rewrite <- IH. unfold strings.TrimLeftFunc at 1.
  destruct e as [| c t]; [contradiction |].
  cbn [app length strings.dropRunes].
  change (c :: t ++ concat encs ++ x) with ((c :: t) ++ concat encs ++ x).
  rewrite Hdec.
  destruct (utf8.DecodeRuneInString (c :: t)) as [r size]. cbn [fst snd] in Hr, Hsize.
  rewrite Hr, Hsize, drop_app_length.
  apply dropRunes_enough. rewrite !length_app. lia.
Qed.

(** The backwards scan of [TrimRightFunc] drops trailing white space. *)
Lemma dropLastRunes_encs (encs : list (list ascii)) (x : list ascii) :
  Forall (fun e => spaceRune e = true) encs ->
  strings.dropLastRunes unicode.IsSpace (length (x ++ concat encs))
                        (rev (x ++ concat encs))
  = strings.dropLastRunes unicode.IsSpace (length x) (rev x).
Proof.
  induction encs as [| e encs IH] using rev_ind; intros H.
  - cbn [concat]. rewrite app_nil_r. reflexivity.
  - apply Forall_app in H as [Hencs He]. apply Forall_cons in He as [He _].
    rewrite <- (IH Hencs).
    rewrite concat_app. cbn [concat]. rewrite app_nil_r, app_assoc.
    set (y := x ++ concat encs).
    destruct (spaceRune_IsSpace e He) as (Hr & Hsize & Hne).
    rewrite rev_app_distr.
    pose proof (spaceRune_decode_last e (rev y) He) as Hdec.
    destruct (rev e) as [| c t] eqn:E.
    { exfalso. apply Hne. rewrite <- (rev_involutive e), E. reflexivity. }
    assert (length e = S (length t)) as Hlen
      by (rewrite <- (length_rev e), E; reflexivity).
    rewrite length_app, Hlen, Nat.add_succ_r.
    cbn [app strings.dropLastRunes].
    change (c :: t ++ rev y) with ((c :: t) ++ rev y). rewrite Hdec.
    destruct (utf8.DecodeRuneInString e) as [r size]. cbn [fst snd] in Hr, Hsize.
    rewrite Hr, Hsize.
    replace (length e) with (length (c :: t)) by (rewrite <- E; apply length_rev).
    rewrite drop_app_length.
    apply dropLastRunes_enough. lia.
Qed.

(** White space after a string that does not end with white space is
    what [TrimRightFunc] removes. *)
Lemma TrimRightFunc_encs (x : list ascii) (encs : list (list ascii)) :
  x <> [] ->
  unicode.IsSpace (fst (utf8.DecodeLastRuneInString (rev x))) = false ->
  Forall (fun e => spaceRune e = true) encs ->
  strings.TrimRightFunc (x ++ concat encs) unicode.IsSpace = x.
Proof.
  intros Hx Hlast Hencs. apply TrimRightFunc_kept; [exact Hx | |].
  - rewrite dropLastRunes_encs by exact Hencs.
    destruct (rev x) as [| c before] eqn:E.
    { exfalso. apply Hx. rewrite <- (rev_involutive x), E. reflexivity. }
    assert (length x = S (length before)) as ->
      by (rewrite <- (length_rev x), E; reflexivity).
    cbn [strings.dropLastRunes].
    destruct (utf8.DecodeLastRuneInString (c :: before)) as [r size].
    cbn [fst] in Hlast. rewrite Hlast. reflexivity.
  - intros a. apply encs_head. exact Hencs.
Qed.

(** [TrimFunc] removes the white space on both sides of a string that
    neither begins nor ends with white space. *)
Lemma TrimFunc_encs (lead trail : list (list ascii)) (x : list ascii) :
  x <> [] ->
  unicode.IsSpace (fst (utf8.DecodeRuneInString x)) = false ->
  unicode.IsSpace (fst (utf8.DecodeLastRuneInString (rev x))) = false ->
  Forall (fun e => spaceRune e = true) lead ->
  Forall (fun e => spaceRune e = true) trail ->
  strings.TrimFunc (concat lead ++ x ++ concat trail) unicode.IsSpace = x.
Proof.
  intros Hx Hfirst Hlast Hlead Htrail. unfold strings.TrimFunc.
  rewrite TrimLeftFunc_encs by exact Hlead.
  rewrite TrimLeftFunc_id.
  - apply TrimRightFunc_encs; assumption.
  - destruct (concat trail) as [| a y] eqn:E; [rewrite app_nil_r; exact Hfirst |].
    rewrite DecodeRune_app_start; [exact Hfirst | exact Hx |].
    apply (encs_head trail a Htrail). rewrite E. reflexivity.
Qed.

Lemma whiteSpace_spaces (s : string) :
  whiteSpace s = true -> spaces (String.list_ascii_of_string s).
Proof. apply whiteSpace_encs. Qed.

Lemma spaces_app (a b : list ascii) : spaces a -> spaces b -> spaces (a ++ b).
Proof.
  intros (ea & -> & Ha) (eb & -> & Hb). exists (ea ++ eb).
  split; [symmetry; apply concat_app | apply Forall_app; split; assumption].
Qed.

Lemma spaces_newline : spaces ["010"%char].
Proof. exists [["010"%char]]. split; [reflexivity | repeat constructor]. Qed.

Lemma spaces_no_separator (w : list ascii) : spaces w -> filepath.Separator ∉ w.
Proof. intros (encs & -> & H). apply encs_no_separator. exact H. Qed.

(** [TrimSpace] removes the white space on both sides of a string that
    neither begins nor ends with white space. *)
Lemma TrimFunc_spaces (lead x trail : list ascii) :
  x <> [] ->
  unicode.IsSpace (fst (utf8.DecodeRuneInString x)) = false ->
  unicode.IsSpace (fst (utf8.DecodeLastRuneInString (rev x))) = false ->
  spaces lead -> spaces trail ->
  strings.TrimFunc (lead ++ x ++ trail) unicode.IsSpace = x.
Proof.
  intros Hx Hfirst Hlast (el & -> & Hl) (et & -> & Ht).
  apply TrimFunc_encs; assumption.
Qed.

Lemma lastPart_app (l w : list ascii) :
  filepath.Separator ∉ w -> lastPart (l ++ w) = lastPart l ++ w.
Proof.
  intros Hw. unfold lastPart. rewrite rev_app_distr, lastElement_app.
  - rewrite rev_app_distr, rev_involutive. reflexivity.
  - apply Forall_forall. intros c Hc. unfold filepath.IsPathSeparator.
    apply Ascii.eqb_neq. intros ->. apply Hw.
    apply list_elem_of_In, in_rev, list_elem_of_In. exact Hc.
Qed.

Lemma lastPart_after_separator (a b : list ascii) :
  filepath.Separator ∈ b -> lastPart (a ++ b) = lastPart b.
Proof.
  intros Hb. destruct (lastPart_decompose b) as (dirs & E & Hdirs).
  destruct Hdirs as [-> | [dirs' ->]].
  - exfalso. cbn [app] in E. rewrite E in Hb.
    exact (lastPart_no_separator b Hb).
  - rewrite E at 1. rewrite app_assoc.
    apply lastPart_split; [| apply lastPart_no_separator].
    right. rewrite app_assoc. apply last_snoc.
Qed.

Lemma string_app_inv_head (s a b : string) : s +:+ a = s +:+ b -> a = b.
Proof.
  induction s as [| c s IH]; [exact (fun H => H) |].
  intros H. injection H as H. exact (IH H).
Qed.

Lemma string_of_list_ascii_inj (a b : list ascii) :
  String.string_of_list_ascii a = String.string_of_list_ascii b -> a = b.
Proof.
  intros H. rewrite <- (String.list_ascii_of_string_of_list_ascii a),
    <- (String.list_ascii_of_string_of_list_ascii b), H. reflexivity.
Qed.

Lemma Base_not_empty (path : string) : filepath.Base path <> "".
Proof.
  unfold filepath.Base. destruct path as [| c p]; [discriminate |].
  destruct (rev (filepath.lastElement _)) as [| a l]; discriminate.
Qed.

Lemma lastPart_ends_separator (l : list ascii) :
  last l = Some filepath.Separator -> lastPart l = [].
Proof.
  intros H. apply last_Some in H as [l' ->]. unfold lastPart.
  rewrite rev_app_distr. reflexivity.
Qed.

Lemma lastPart_id (l : list ascii) : filepath.Separator ∉ l -> lastPart l = l.
Proof. intros H. exact (lastPart_app [] l H). Qed.

(** All of [TrimFunc] goes when there is nothing but white space. *)
Lemma TrimFunc_all_spaces (w : list ascii) :
  spaces w -> strings.TrimFunc w unicode.IsSpace = [].
Proof.
  intros (encs & -> & H). unfold strings.TrimFunc.
  rewrite <- (app_nil_r (concat encs)), TrimLeftFunc_encs by exact H. reflexivity.
Qed.

(** The cache directory and its separator, when white space follows. *)
Lemma TrimFunc_directory (dir w : list ascii) :
  unicode.IsSpace (fst (utf8.DecodeRuneInString (dir ++ [filepath.Separator]))) = false ->
  spaces w ->
  strings.TrimFunc (dir ++ filepath.Separator :: w) unicode.IsSpace
  = dir ++ [filepath.Separator].
Proof.
  intros Hdir (encs & -> & H). unfold strings.TrimFunc.
  rewrite TrimLeftFunc_id.
  - change (dir ++ filepath.Separator :: concat encs)
      with (dir ++ [filepath.Separator] ++ concat encs).
    rewrite app_assoc. apply TrimRightFunc_encs; [| | exact H].
    + destruct dir; discriminate.
    + rewrite rev_app_distr. reflexivity.
  - destruct (concat encs) as [| a y] eqn:E; [exact Hdir |].
    change (dir ++ filepath.Separator :: a :: y)
      with (dir ++ [filepath.Separator] ++ a :: y).
    rewrite app_assoc, DecodeRune_app_start; [exact Hdir | destruct dir; discriminate |].
    apply (encs_head encs a H). rewrite E. reflexivity.
Qed.

Section Claims.

Variable env : Env.
Variable config : Config.

(** C4. [IsAgentCached] answers [true] exactly when the stat of the
    state marker and the stat of the agent tarball both succeed and both
    files hold at least one byte; any stat error, injected or for a
    missing file, gives [false]. It is a total function to [bool] and
    changes neither the disk nor the downloader. *)
Theorem IsAgentCached_iff (st : State) :
  (fst (IsAgentCached env config st) = true <->
   (fs_fault env (calls st) (CallStat (CacheState config)) = None /\
    exists f, disk st !! CacheState config = Some f /\ (0 < length (data f))%nat) /\
   (fs_fault env (CallStat (CacheState config) :: calls st)
             (CallStat (AgentTarball config)) = None /\
    exists f, disk st !! AgentTarball config = Some f /\ (0 < length (data f))%nat))
  /\ disk (snd (IsAgentCached env config st)) = disk st
  /\ region (snd (IsAgentCached env config st)) = region st.
Proof.
  unfold IsAgentCached, fileNotEmpty, Stat, bind, call, getDisk, ret. simpl.
  destruct (fs_fault env (calls st) (CallStat (CacheState config))) as [e1 |]; simpl.
  { split; [| split; reflexivity]. split; [discriminate |].
    intros [[H _] _]. discriminate. }
  destruct (disk st !! CacheState config) as [f1 |] eqn:E1; simpl.
  2:{ split; [| split; reflexivity]. split; [discriminate |].
      intros [[_ (f & H & _)] _]. discriminate. }
  destruct (0 <? Z.of_nat (length (data f1))) eqn:L1; simpl.
  2:{ split; [| split; reflexivity]. split; [discriminate |].
      intros [[_ (f & H & Hl)] _]. inversion H; subst f.
      apply Z.ltb_ge in L1. lia. }
  apply Z.ltb_lt in L1.
  destruct (fs_fault env (CallStat (CacheState config) :: calls st)
              (CallStat (AgentTarball config))) as [e2 |]; simpl.
  { split; [| split; reflexivity]. split; [discriminate |].
    intros [_ [H _]]. discriminate. }
  destruct (disk st !! AgentTarball config) as [f2 |] eqn:E2; simpl.
  2:{ split; [| split; reflexivity]. split; [discriminate |].
      intros [_ [_ (f & H & _)]]. discriminate. }
  split; [| split; reflexivity].
  rewrite Z.ltb_lt. split.
  - intros L2. split; (split; [reflexivity |]); eexists; (split; [reflexivity | lia]).
  - intros [_ [_ (f & H & Hl)]]. inversion H; subst f. lia.
Qed.

(** [getRegion] returns the [region] field as it leaves it, touches no
    file, and makes at most the one metadata call. *)
Lemma getRegion_post (st : State) :
  post (getRegion env config) st (fun r st' =>
    r = region st' /\ disk st' = disk st /\ extends benign st st' /\
    (region st <> "" -> st' = st) /\
    forall x, resolvesTo env config st x -> r = x /\ resolvesTo env config st' x).
Proof.
  unfold post, getRegion, bind, getField, metadata_call, call, setRegion, ret.
  simpl. destruct (String.eqb (region st) "") eqn:E; simpl.
  - apply String.eqb_eq in E. split; [reflexivity |]. split; [reflexivity |].
    split; [apply (extends_cons benign _ _ CallRegion); [exact I | reflexivity] |].
    split; [intros H; contradiction |].
    intros x [[H1 H2] | [_ H]].
    + congruence.
    + split; [apply H |]. unfold resolvesTo. simpl. rewrite (H (calls st)).
      destruct (decide (x = "")) as [-> | Hx].
      * right. split; [reflexivity | exact H].
      * left. split; [reflexivity | exact Hx].
  - apply String.eqb_neq in E. split; [reflexivity |]. split; [reflexivity |].
    split; [apply extends_refl |]. split; [reflexivity |].
    intros x [[H1 H2] | [H _]]; [| contradiction].
    split; [exact H1 |]. left. split; assumption.
Qed.

(** C6 (amended). Once a call to [getRegion] has returned a non-empty
    string [r], whether from the metadata service or from the configured
    default, every later call on the same downloader (any state whose
    [region] field is still the one that call left) returns [r] and
    leaves the state, and with it the list of capability calls, as it
    was: the metadata service is not asked again, whatever it would
    answer. *)
Theorem getRegion_memoised (st st1 : State) (r : string) :
  getRegion env config st = (r, st1) ->
  r <> "" ->
  forall (env' : Env) (st2 : State),
    region st2 = region st1 ->
    getRegion env' config st2 = (r, st2).
Proof.
  intros Hrun Hr env' st2 Hreg.
  pose proof (getRegion_post st) as Hp.
  apply (post_eq _ _ _ _ _ Hrun) in Hp. destruct Hp as (Hr1 & _).
  unfold getRegion, bind, getField, ret.
  assert (region st2 = r) as E by congruence.
  rewrite E. destruct (String.eqb r "") eqn:B.
  - apply String.eqb_eq in B. contradiction.
  - reflexivity.
Qed.

(** C8. When the locator file cannot be opened (the open fails or the
    file is absent) or holds no newline byte, desired-image resolution
    returns an error, [LoadDesiredAgent] returns that same error, and
    the only call made is the [Open] of the locator file: no artifact
    file is opened. *)
Theorem LoadDesiredAgent_locator_error (st : State) :
  (fs_fault env (calls st) (CallOpen (DesiredImageLocatorFile config)) <> None \/
   disk st !! DesiredImageLocatorFile config = None \/
   exists f, disk st !! DesiredImageLocatorFile config = Some f /\ x0a ∉ data f) ->
  exists e,
    getDesiredImageFile env config st
    = (Err e, logged (CallOpen (DesiredImageLocatorFile config)) st) /\
    LoadDesiredAgent env config st
    = (Err e, logged (CallOpen (DesiredImageLocatorFile config)) st).
Proof.
  intros H.
  unfold LoadDesiredAgent, getDesiredImageFile, Open, ReadString, bind, call,
    getDisk, ret, logged. simpl.
  destruct (fs_fault env (calls st) (CallOpen (DesiredImageLocatorFile config)))
    as [e |] eqn:F.
  { exists e. split; reflexivity. }
  destruct H as [H | [H | (f & H & Hn)]]; [congruence | |].
  - rewrite H. eexists. split; reflexivity.
  - rewrite H. simpl. apply upTo_None in Hn. rewrite Hn.
    eexists. split; reflexivity.
Qed.

(** Resolution on a locator file whose first line is [content] followed
    by a newline: the base name is taken of the line as read, newline
    included, and white space is trimmed from the joined path. *)
Lemma getDesiredImageFile_line (st : State) (f : File) (content : string)
    (rest : list byte) :
  fs_fault env (calls st) (CallOpen (DesiredImageLocatorFile config)) = None ->
  disk st !! DesiredImageLocatorFile config = Some f ->
  data f = String.list_byte_of_string content ++ x0a :: rest ->
  x0a ∉ String.list_byte_of_string content ->
  getDesiredImageFile env config st
  = (Ok (strings.TrimSpace
           (CacheDirectory config +:+ "/" +:+ filepath.Base (content +:+ newline))),
     logged (CallBase (content +:+ newline))
            (logged (CallOpen (DesiredImageLocatorFile config)) st)).
Proof.
  intros Hf Hd Hdata Hnl.
  unfold getDesiredImageFile, Open, ReadString, Base, bind, call, getDisk, ret,
    logged. simpl.
  rewrite Hf, Hd. simpl. rewrite Hdata, (upTo_first _ _ _ Hnl).
  rewrite string_of_bytes_line. reflexivity.
Qed.

(** C7 (amended). Take a locator file whose first line is some white
    space (ASCII or not, possibly none), then a path [body] that neither
    begins nor ends with white space and does not end in a separator,
    then white space again and the newline; let the line either not
    begin with white space or have a separator in [body], and let the
    cache directory path not begin with white space. Then resolution
    returns the cache directory joined with the base name of the trimmed
    line, which is the last element of [body]: all directory components
    are discarded. *)
Theorem getDesiredImageFile_basename (st : State) (f : File)
    (lead body trail : string) (rest : list byte) (d : ascii) :
  fs_fault env (calls st) (CallOpen (DesiredImageLocatorFile config)) = None ->
  disk st !! DesiredImageLocatorFile config = Some f ->
  data f = String.list_byte_of_string (lead +:+ body +:+ trail) ++ x0a :: rest ->
  x0a ∉ String.list_byte_of_string (lead +:+ body +:+ trail) ->
  unicode.IsSpace (firstRune (CacheDirectory config +:+ "/")) = false ->
  whiteSpace lead = true ->
  whiteSpace trail = true ->
  unicode.IsSpace (firstRune body) = false ->
  unicode.IsSpace (lastRune body) = false ->
  lastByte body = Some d -> d <> filepath.Separator ->
  lead = "" \/ filepath.Separator ∈ String.list_ascii_of_string body ->
  fst (getDesiredImageFile env config st)
  = Ok (specDesiredImageFile config (lead +:+ body +:+ trail +:+ newline)) /\
  specDesiredImageFile config (lead +:+ body +:+ trail +:+ newline)
  = CacheDirectory config +:+ "/" +:+ filepath.Base body /\
  forall dirs name : string,
    body = dirs +:+ name ->
    dirs = "" \/ lastByte dirs = Some filepath.Separator ->
    filepath.Separator ∉ String.list_ascii_of_string name ->
    filepath.Base body = name.
Proof.
  intros Hf Hd Hdata Hnl Hdir Hlead Htrail Hfirst Hlast Hl Hsep Hpath.
  rewrite (getDesiredImageFile_line st f (lead +:+ body +:+ trail) rest
             Hf Hd Hdata Hnl).
  apply whiteSpace_spaces in Hlead, Htrail.
  set (L := String.list_ascii_of_string lead) in *.
  set (T := String.list_ascii_of_string trail) in *.
  set (B := String.list_ascii_of_string body).
  assert (spaces (T ++ ["010"%char])) as Htail
    by (apply spaces_app; [exact Htrail | exact spaces_newline]).
  destruct (Base_trailing body "" d Hl Hsep eq_refl) as (_ & Hbl & Hbp). fold B in Hbp.
  assert (B <> []) as HB.
  { unfold lastByte in Hl. fold B in Hl. intros E. rewrite E in Hl. discriminate. }
  assert (lastPart B <> []) as Hlp.
  { intros E. unfold lastByte in Hbl.
    rewrite Hbp, String.list_ascii_of_string_of_list_ascii, E in Hbl. discriminate. }
  (* the trimmed line is the body *)
  assert (strings.TrimSpace (lead +:+ body +:+ trail +:+ newline) = body) as Htrim.
  { unfold strings.TrimSpace. rewrite !list_ascii_app.
    change (String.list_ascii_of_string newline) with ["010"%char].
    fold L B T. rewrite (TrimFunc_spaces L B (T ++ ["010"%char])); try assumption.
    apply String.string_of_list_ascii_of_string. }
  (* the base name of the line as read *)
  assert (filepath.Base ((lead +:+ body +:+ trail) +:+ newline)
          = String.string_of_list_ascii (lastPart B ++ T ++ ["010"%char])) as Hbase.
  { rewrite <- (String.string_of_list_ascii_of_string
                  ((lead +:+ body +:+ trail) +:+ newline)).
    rewrite !list_ascii_app.
    change (String.list_ascii_of_string newline) with ["010"%char]. fold L B T.
    rewrite (Base_lastPart _ "010"%char);
      [| rewrite !app_assoc; apply last_snoc | reflexivity].
    f_equal.
    replace ((L ++ B ++ T) ++ ["010"%char]) with ((L ++ B) ++ (T ++ ["010"%char]))
      by (rewrite <- !app_assoc; reflexivity).
    rewrite lastPart_app by (apply spaces_no_separator; exact Htail).
    f_equal. destruct Hpath as [E | Hin].
    - unfold L. rewrite E. reflexivity.
    - apply lastPart_after_separator. exact Hin. }
  unfold specDesiredImageFile. rewrite Htrim.
  split; [| split; [reflexivity |]].
  - cbn [fst]. f_equal. rewrite Hbase, Hbp.
    unfold strings.TrimSpace, strings.TrimFunc.
    rewrite TrimLeftFunc_id.
    2:{ fold (firstRune (CacheDirectory config +:+ "/"
                         +:+ String.string_of_list_ascii
                               (lastPart B ++ T ++ ["010"%char]))).
        rewrite firstRune_joined. exact Hdir. }
    rewrite !list_ascii_app, !String.list_ascii_of_string_of_list_ascii.
    change (String.list_ascii_of_string "/") with [filepath.Separator]. cbn [app].
    set (D := String.list_ascii_of_string (CacheDirectory config)).
    destruct Htail as (encs & Eencs & Hencs).
    replace (D ++ filepath.Separator :: lastPart B ++ T ++ ["010"%char])
      with ((D ++ filepath.Separator :: lastPart B) ++ concat encs)
      by (rewrite <- Eencs, <- app_assoc; reflexivity).
    rewrite TrimRightFunc_encs; [| | | exact Hencs].
    + change (D ++ filepath.Separator :: lastPart B)
        with (D ++ [filepath.Separator] ++ lastPart B).
      rewrite !string_of_app. unfold D.
      rewrite String.string_of_list_ascii_of_string. reflexivity.
    + destruct D; discriminate.
    + rewrite lastRune_after_separator by exact Hlp.
      pose proof (lastRune_Base body d Hl Hsep) as Hr. unfold lastRune in Hr.
      rewrite Hbp, String.list_ascii_of_string_of_list_ascii in Hr. fold B in Hr.
      rewrite Hr. exact Hlast.
  - intros dirs name E Hdirs Hname. rewrite Hbp. unfold B. rewrite E, list_ascii_app.
    rewrite lastPart_split.
    + apply String.string_of_list_ascii_of_string.
    + destruct Hdirs as [-> | Hdirs]; [left; reflexivity | right; exact Hdirs].
    + exact Hname.
Qed.

(** Conversely, on every other line resolution does not return the
    base name of the trimmed line: when the line holds white space only,
    when the path on it ends in a separator, and when white space
    precedes a path without separator. *)
Lemma getDesiredImageFile_not_basename (st : State) (f : File)
    (lead body trail : string) (rest : list byte) :
  fs_fault env (calls st) (CallOpen (DesiredImageLocatorFile config)) = None ->
  disk st !! DesiredImageLocatorFile config = Some f ->
  data f = String.list_byte_of_string (lead +:+ body +:+ trail) ++ x0a :: rest ->
  x0a ∉ String.list_byte_of_string (lead +:+ body +:+ trail) ->
  unicode.IsSpace (firstRune (CacheDirectory config +:+ "/")) = false ->
  whiteSpace lead = true ->
  whiteSpace trail = true ->
  body = "" \/
  (unicode.IsSpace (firstRune body) = false /\
   unicode.IsSpace (lastRune body) = false /\
   (lastByte body = Some filepath.Separator \/
    (lead <> "" /\ body <> "" /\
     filepath.Separator ∉ String.list_ascii_of_string body))) ->
  fst (getDesiredImageFile env config st)
  <> Ok (specDesiredImageFile config (lead +:+ body +:+ trail +:+ newline)).
Proof.
  intros Hf Hd Hdata Hnl Hdir Hlead Htrail Hcase.
  rewrite (getDesiredImageFile_line st f (lead +:+ body +:+ trail) rest
             Hf Hd Hdata Hnl).
  cbn [fst]. intros Heq. injection Heq as Heq. revert Heq.
  apply whiteSpace_spaces in Hlead, Htrail.
  set (L := String.list_ascii_of_string lead) in *.
  set (T := String.list_ascii_of_string trail) in *.
  set (B := String.list_ascii_of_string body).
  set (D := String.list_ascii_of_string (CacheDirectory config)).
  assert (unicode.IsSpace (fst (utf8.DecodeRuneInString (D ++ [filepath.Separator])))
          = false) as HD.
  { unfold firstRune in Hdir. rewrite list_ascii_app in Hdir. exact Hdir. }
  assert (spaces (T ++ ["010"%char])) as Htail
    by (apply spaces_app; [exact Htrail | exact spaces_newline]).
  assert (filepath.Base ((lead +:+ body +:+ trail) +:+ newline)
          = String.string_of_list_ascii (lastPart (L ++ B) ++ T ++ ["010"%char])) as ->.
  { rewrite <- (String.string_of_list_ascii_of_string
                  ((lead +:+ body +:+ trail) +:+ newline)).
    rewrite !list_ascii_app.
    change (String.list_ascii_of_string newline) with ["010"%char]. fold L B T.
    rewrite (Base_lastPart _ "010"%char);
      [| rewrite !app_assoc; apply last_snoc | reflexivity].
    f_equal.
    replace ((L ++ B ++ T) ++ ["010"%char]) with ((L ++ B) ++ (T ++ ["010"%char]))
      by (rewrite <- !app_assoc; reflexivity).
    apply lastPart_app. apply spaces_no_separator. exact Htail. }
  unfold specDesiredImageFile, strings.TrimSpace.
  rewrite !list_ascii_app, String.list_ascii_of_string_of_list_ascii.
  change (String.list_ascii_of_string newline) with ["010"%char].
  change (String.list_ascii_of_string "/") with [filepath.Separator].
  fold L B T D.
  destruct Hcase as [E | (Hfirst & Hlast & [Hsep | (HL & HB & Hno)])].
  - (* nothing but white space *)
    assert (B = []) as EB by (unfold B; rewrite E; reflexivity).
    rewrite EB, app_nil_r. cbn [app].
    rewrite (lastPart_id L) by (apply spaces_no_separator; exact Hlead).
    rewrite (TrimFunc_directory D (L ++ T ++ ["010"%char]) HD)
      by (apply spaces_app; assumption).
    rewrite (TrimFunc_all_spaces (L ++ T ++ ["010"%char]))
      by (apply spaces_app; assumption).
    unfold D. rewrite string_of_app, String.string_of_list_ascii_of_string.
    intros H. apply string_app_inv_head in H. discriminate H.
  - (* the path ends in a separator *)
    assert (B <> []) as HB.
    { unfold lastByte in Hsep. fold B in Hsep. intros E. rewrite E in Hsep.
      discriminate. }
    rewrite (lastPart_ends_separator (L ++ B))
      by (unfold lastByte in Hsep; fold B in Hsep; rewrite last_app, Hsep; reflexivity).
    cbn [app]. rewrite (TrimFunc_directory D (T ++ ["010"%char]) HD Htail).
    rewrite (TrimFunc_spaces L B (T ++ ["010"%char])); try assumption.
    unfold D, B. rewrite string_of_app, !String.string_of_list_ascii_of_string.
    intros H. apply string_app_inv_head in H.
    change (String.string_of_list_ascii [filepath.Separator]) with ("/" +:+ "") in H.
    apply string_app_inv_head in H. symmetry in H.
    exact (Base_not_empty body H).
  - (* white space before a name without separator *)
    assert (B <> []) as HB'.
    { intros E. apply HB. rewrite <- (String.string_of_list_ascii_of_string body).
      fold B. rewrite E. reflexivity. }
    assert (L <> []) as HL'.
    { intros E. apply HL. rewrite <- (String.string_of_list_ascii_of_string lead).
      fold L. rewrite E. reflexivity. }
    assert (exists d, last B = Some d /\ filepath.IsPathSeparator d = false)
      as (d & Hd1 & Hd2).
    { destruct (last B) as [d |] eqn:El.
      - exists d. split; [reflexivity |]. apply Ascii.eqb_neq. intros ->.
        apply Hno. fold B. apply last_Some in El as [l' ->].
        apply elem_of_app. right. left.
      - apply last_None in El. contradiction. }
    assert (filepath.Separator ∉ L ++ B) as HLB.
    { intros Hin. apply elem_of_app in Hin as [Hin | Hin];
        [exact (spaces_no_separator L Hlead Hin) | exact (Hno Hin)]. }
    destruct Hlead as (encs & EL & Hencs).
    destruct encs as [| e1 encs']; [contradiction |].
    apply Forall_cons in Hencs as [He1 Hencs'].
    destruct (spaceRune_head e1 He1) as (c1 & t1 & Ee1 & Hc1).
    cbn [concat] in EL.
    set (R := concat encs' ++ B ++ T).
    assert ((L ++ B) ++ T = e1 ++ R) as ER
      by (unfold R; rewrite EL, <- !app_assoc; reflexivity).
    rewrite (TrimFunc_spaces L B (T ++ ["010"%char])); try assumption.
    2:{ exists (e1 :: encs'). split; [exact EL | constructor; assumption]. }
    rewrite (Base_lastPart B d Hd1 Hd2), (lastPart_id B Hno).
    rewrite (lastPart_id (L ++ B) HLB).
    replace (D ++ [filepath.Separator] ++ (L ++ B) ++ T ++ ["010"%char])
      with (D ++ filepath.Separator :: ((L ++ B) ++ T) ++ ["010"%char])
      by (rewrite <- !app_assoc; reflexivity).
    unfold strings.TrimFunc. rewrite TrimLeftFunc_id.
    2:{ rewrite ER, Ee1.
        change (D ++ filepath.Separator :: ((c1 :: t1) ++ R) ++ ["010"%char])
          with (D ++ [filepath.Separator] ++ c1 :: (t1 ++ R) ++ ["010"%char]).
        rewrite app_assoc, DecodeRune_app_start;
          [exact HD | destruct D; discriminate | exact Hc1]. }
    destruct (TrimRightFunc_keeps_prefix D ((L ++ B) ++ T) ["010"%char] eq_refl)
      as (k & Hk & Htrim & Hhead).
    rewrite Htrim.
    change (D ++ filepath.Separator :: take k ((L ++ B) ++ T))
      with (D ++ [filepath.Separator] ++ take k ((L ++ B) ++ T)).
    unfold D. rewrite !string_of_app, String.string_of_list_ascii_of_string.
    intros H. apply string_app_inv_head in H.
    apply string_app_inv_head in H. apply string_of_list_ascii_inj in H.
    (* [B] would be a prefix of the line, which begins with white space *)
    rewrite ER in H, Hhead.
    destruct (spaceRune_IsSpace e1 He1) as (Hsp & Hsize & Hne).
    assert (length B = k) as Hlen.
    { apply (f_equal (@length ascii)) in H. rewrite length_take in H.
      assert (length B < length (e1 ++ R))%nat.
      { unfold R. rewrite !length_app. destruct e1; [contradiction | cbn [length]; lia]. }
      lia. }
    destruct (le_lt_dec (length e1) k) as [Hle | Hlt].
    + (* the white-space rune would be the first rune of [B] *)
      rewrite take_app_ge in H by exact Hle.
      unfold firstRune in Hfirst. fold B in Hfirst.
      rewrite <- H, (spaceRune_decode e1 _ He1), Hsp in Hfirst. discriminate.
    + (* [B] would end inside the encoding of the white-space rune *)
      assert (1 <= k)%nat as Hk1 by (destruct B; [contradiction | cbn [length] in Hlen; lia]).
      destruct (spaceRune_shape e1 He1)
        as [(c & Ec & _) | (c0 & t & Ec & _ & _ & _ & Hcont)].
      { rewrite Ec in Hlt. cbn [length] in Hlt. lia. }
      assert (exists a, t !! (k - 1)%nat = Some a) as [a Ha].
      { apply lookup_lt_is_Some. rewrite Ec in Hlt. cbn [length] in Hlt. lia. }
      assert (utf8.isCont (utf8.code a) = true) as Hca.
      { rewrite Forall_forall in Hcont. apply Hcont.
        apply list_elem_of_lookup. exists (k - 1)%nat. exact Ha. }
      rewrite (Hhead a) in Hca; [discriminate |].
      rewrite drop_app_le by lia. rewrite Ec.
      destruct k as [| k']; [lia |]. cbn [drop].
      replace (S k' - 1)%nat with k' in Ha by lia.
      rewrite <- (take_drop_middle t k' a Ha) at 1.
      rewrite drop_app_length'; [reflexivity |].
      rewrite length_take. apply lookup_lt_Some in Ha. lia.
Qed.

(** C10. For a locator file whose first line is [..] followed by a
    newline, resolution succeeds and returns the cache directory joined
    with [..]: the base-name stripping does not reject [..]. (The cache
    directory path is assumed not to begin with white space, which the
    final trim would remove.) *)
Theorem getDesiredImageFile_dotdot (st : State) (f : File) (rest : list byte) :
  fs_fault env (calls st) (CallOpen (DesiredImageLocatorFile config)) = None ->
  disk st !! DesiredImageLocatorFile config = Some f ->
  data f = String.list_byte_of_string ".." ++ x0a :: rest ->
  unicode.IsSpace (firstRune (CacheDirectory config +:+ "/")) = false ->
  fst (getDesiredImageFile env config st) = Ok (CacheDirectory config +:+ "/..").
Proof.
  intros Hf Hd Hdata Hdir.
  rewrite (getDesiredImageFile_line st f ".." rest Hf Hd Hdata).
  2:{ intros H. repeat (apply elem_of_cons in H as [H | H]; [discriminate |]).
      inversion H. }
  cbn [fst]. f_equal.
  change (filepath.Base (".." +:+ newline)) with (".." +:+ newline).
  change "/.." with ("/" +:+ "..").
  apply joined_trim; [discriminate | exact Hdir | reflexivity | reflexivity].
Qed.

(** *** The steps of [DownloadAgent] *)

Lemma resolvesTo_region (st st' : State) (r : string) :
  region st' = region st -> resolvesTo env config st r -> resolvesTo env config st' r.
Proof. unfold resolvesTo. intros ->. exact (fun H => H). Qed.

Lemma firstFree_Some dk name n i x :
  firstFree dk name n i = Some x -> dk !! x = None /\ exists j, x = name j.
Proof.
  revert i. induction n as [| n IH]; simpl; intros i H; [discriminate |].
  destruct (dk !! name i) eqn:E.
  - apply (IH _ H).
  - inversion H; subst x. split; [exact E | exists i; reflexivity].
Qed.

Lemma firstFree_avail dk name n i j :
  (i <= j < i + n)%nat -> dk !! name j = None ->
  exists x, firstFree dk name n i = Some x.
Proof.
  revert i. induction n as [| n IH]; simpl; intros i Hj Hfree; [lia |].
  destruct (dk !! name i) eqn:E; [| eexists; reflexivity].
  apply IH; [| exact Hfree].
  destruct (decide (j = i)) as [-> | Hne]; [congruence | lia].
Qed.

Lemma MkdirAll_post (path : string) (perm : Z) (st : State) :
  post (MkdirAll env path perm) st (fun r st' =>
    r = fs_fault env (calls st) (CallMkdirAll path perm) /\
    region st' = region st /\ disk st' = disk st /\ extends benign st st').
Proof.
  unfold post, MkdirAll, bind, call, ret. simpl.
  repeat split. apply (extends_cons benign _ _ (CallMkdirAll path perm)); [exact I | reflexivity].
Qed.

Lemma TempFile_post (dir pattern : string) (st : State) :
  post (TempFile env dir pattern) st (fun res st' =>
    region st' = region st /\ extends benign st st' /\
    match res with
    | Ok name =>
      disk st !! name = None /\
      disk st' = <[name := {| data := []; mode := Z.ldiff 384 (fs_umask env) |}]> (disk st) /\
      exists h i, name = fs_tempname env h dir pattern i
    | Err _ => disk st' = disk st
    end).
Proof.
  unfold post, TempFile, bind, call, getDisk, setDisk, ret. simpl.
  assert (forall d, extends benign st
            {| region := region st; disk := d;
               calls := CallTempFile dir pattern :: calls st |}) as Hext
    by (intros d; apply (extends_cons benign _ _ (CallTempFile dir pattern));
        [exact I | reflexivity]).
  destruct (fs_fault env (calls st) (CallTempFile dir pattern)); simpl.
  { split; [reflexivity |]. split; [apply Hext | reflexivity]. }
  destruct (firstFree (disk st) (fs_tempname env (calls st) dir pattern) tempAttempts 0)
    as [name |] eqn:E; simpl.
  - apply firstFree_Some in E as (Hnone & j & Hj).
    split; [reflexivity |]. split; [apply Hext |].
    split; [exact Hnone |]. split; [reflexivity |]. eauto.
  - split; [reflexivity |]. split; [apply Hext | reflexivity].
Qed.

Lemma TempFile_ok (dir pattern : string) (st : State) :
  fs_fault env (calls st) (CallTempFile dir pattern) = None ->
  (exists i, (i < tempAttempts)%nat /\
             disk st !! fs_tempname env (calls st) dir pattern i = None) ->
  exists name, fst (TempFile env dir pattern st) = Ok name.
Proof.
  intros Hf (i & Hi & Hfree).
  unfold TempFile, bind, call, getDisk, setDisk, ret. simpl. rewrite Hf.
  destruct (firstFree_avail (disk st) (fs_tempname env (calls st) dir pattern)
              tempAttempts 0 i) as [x Hx]; [lia | exact Hfree |].
  rewrite Hx. exists x. reflexivity.
Qed.

Lemma getPublishedMd5Sum_post (st : State) :
  post (getPublishedMd5Sum env config) st (fun res st' =>
    disk st' = disk st /\ extends benign st st' /\
    forall r manifest bytes,
      resolvesTo env config st r -> serves env config r manifest bytes ->
      resolvesTo env config st' r /\
      res = Ok (strings.TrimSpace (String.string_of_list_byte manifest))).
Proof.
  unfold getPublishedMd5Sum. apply post_bind.
  eapply post_mono; [apply getRegion_post |].
  intros r0 st1 (Hr0 & Hd1 & He1 & _ & Hres1).
  unfold post, Get, ReadAll, bind, call, ret. simpl.
  set (url := AgentRemoteTarballMD5 config r0).
  assert (forall st2, region st2 = region st1 -> disk st2 = disk st1 ->
            (exists new, calls st2 = new ++ calls st1 /\ Forall benign new) ->
            disk st2 = disk st /\ extends benign st st2) as Hframe.
  { intros st2 _ Hd2 He2. split; [congruence |].
    eapply extends_trans; [exact He1 | exact He2]. }
  destruct (getter_Get env (calls st1) url) as [resp | e] eqn:G; simpl.
  - destruct (rerr (Body resp)) as [e |] eqn:R; simpl.
    + destruct (Hframe {| region := region st1; disk := disk st1;
                          calls := CallReadAll :: CallGet url :: calls st1 |})
        as [H1 H2]; [reflexivity | reflexivity | |].
      { exists [CallReadAll; CallGet url]. split; [reflexivity |].
        repeat constructor. }
      split; [exact H1 |]. split; [exact H2 |].
      intros r manifest bytes Hres [Hm _]. destruct (Hres1 r Hres) as [-> Hres'].
      destruct (Hm (calls st1)) as [code Hc]. subst url. rewrite Hc in G.
      inversion G; subst resp. discriminate.
    + destruct (Hframe {| region := region st1; disk := disk st1;
                          calls := CallReadAll :: CallGet url :: calls st1 |})
        as [H1 H2]; [reflexivity | reflexivity | |].
      { exists [CallReadAll; CallGet url]. split; [reflexivity |].
        repeat constructor. }
      split; [exact H1 |]. split; [exact H2 |].
      intros r manifest bytes Hres [Hm _]. destruct (Hres1 r Hres) as [-> Hres'].
      split; [exact Hres' |].
      destruct (Hm (calls st1)) as [code Hc]. subst url. rewrite Hc in G.
      inversion G; subst resp. reflexivity.
  - destruct (Hframe {| region := region st1; disk := disk st1;
                        calls := CallGet url :: calls st1 |})
      as [H1 H2]; [reflexivity | reflexivity | |].
    { exists [CallGet url]. split; [reflexivity |]. repeat constructor. }
    split; [exact H1 |]. split; [exact H2 |].
    intros r manifest bytes Hres [Hm _]. destruct (Hres1 r Hres) as [-> Hres'].
    destruct (Hm (calls st1)) as [code Hc]. subst url. rewrite Hc in G.
    discriminate.
Qed.

Lemma getPublishedTarball_post (st : State) :
  post (getPublishedTarball env config) st (fun res st' =>
    disk st' = disk st /\ extends benign st st' /\
    forall r manifest bytes,
      resolvesTo env config st r -> serves env config r manifest bytes ->
      resolvesTo env config st' r /\
      res = Ok {| rdata := bytes; rerr := None |}).
Proof.
  unfold getPublishedTarball. apply post_bind.
  eapply post_mono; [apply getRegion_post |].
  intros r0 st1 (Hr0 & Hd1 & He1 & _ & Hres1).
  unfold post, Get, bind, call, ret. simpl.
  set (url := AgentRemoteTarball config r0).
  assert (extends benign st {| region := region st1; disk := disk st1;
                               calls := CallGet url :: calls st1 |}) as He.
  { eapply extends_trans; [exact He1 |].
    apply (extends_cons benign _ _ (CallGet url)); [exact I | reflexivity]. }
  assert (forall r manifest bytes,
            resolvesTo env config st r -> serves env config r manifest bytes ->
            resolvesTo env config st1 r /\
            getter_Get env (calls st1) url
            = Ok {| StatusCode := http.StatusOK;
                    Body := {| rdata := bytes; rerr := None |} |}) as Hget.
  { intros r manifest bytes Hres [_ Ht]. destruct (Hres1 r Hres) as [-> Hres'].
    split; [exact Hres' | apply Ht]. }
  destruct (getter_Get env (calls st1) url) as [resp | e] eqn:G; simpl.
  - destruct (StatusCode resp =? http.StatusOK) eqn:S; simpl.
    + split; [exact Hd1 |]. split; [exact He |].
      intros r manifest bytes Hres Hs. destruct (Hget r manifest bytes Hres Hs) as [H1 H2].
      split; [exact H1 |]. inversion H2; subst resp. reflexivity.
    + split; [exact Hd1 |]. split; [exact He |].
      intros r manifest bytes Hres Hs. destruct (Hget r manifest bytes Hres Hs) as [H1 H2].
      inversion H2; subst resp. discriminate.
  - split; [exact Hd1 |]. split; [exact He |].
    intros r manifest bytes Hres Hs. destruct (Hget r manifest bytes Hres Hs) as [H1 H2].
    discriminate.
Qed.

Lemma bind_run {A B : Type} (m : M A) (k : A -> M B) st a st' :
  m st = (a, st') -> bind m k st = k a st'.
Proof. unfold bind. intros ->. reflexivity. Qed.

(** When the copy does not fail, the temporary file receives the whole
    stream, the hash is the MD5 checksum of the same bytes, and what is
    left of [downloadBody] is the comparison and the rename. *)
Lemma downloadBody_copied (sum : string) (bytes : list byte) (t : string)
    (st : State) (r : string) (mode0 : Z) :
  (forall h, fs_fault env h (CallCopy t) = None) ->
  resolvesTo env config st r ->
  disk st !! t = Some {| data := []; mode := mode0 |} ->
  exists st2,
    resolvesTo env config st2 r /\
    disk st2 = <[t := {| data := bytes; mode := mode0 |}]> (disk st) /\
    extends benign st st2 /\
    CallCopy t ∈ calls st2 /\
    downloadBody env config sum {| rdata := bytes; rerr := None |} t st
    = (if negb (String.eqb sum (fmt.Sprintf_x (md5.Sum bytes)))
       then ret (Some (mismatch config r), Some (mismatch config r))
       else (r0 <~ Rename env t (AgentTarball config) ;; ret (r0, None))) st2.
Proof.
  intros Hcopy Hres Ht.
  unfold downloadBody, TeeReader, Copy.
  unfold bind at 1 2 3 4 5. unfold call, setDisk, ret. simpl.
  rewrite Hcopy. simpl.
  set (st1 := {| region := region st;
                 disk := alter (appendTo bytes) t (disk st);
                 calls := CallCopy t :: CallTeeReader :: calls st |}).
  pose proof (getRegion_post st1) as Hp.
  destruct (getRegion env config st1) as [r0 st2] eqn:G.
  apply (post_eq _ _ _ _ _ G) in Hp.
  destruct Hp as (_ & Hd2 & (new & Hnew & Hben) & _ & Hr2).
  destruct (Hr2 r) as [-> Hres2].
  { apply (resolvesTo_region st); [reflexivity | exact Hres]. }
  exists st2. split; [exact Hres2 |]. split; [| split; [| split]].
  - rewrite Hd2. subst st1. simpl.
    rewrite (alter_alt_Some _ _ _ _ Ht). reflexivity.
  - exists (new ++ [CallCopy t; CallTeeReader]). split.
    + rewrite Hnew. subst st1. simpl. rewrite <- app_assoc. reflexivity.
    + apply Forall_app. split; [exact Hben | repeat constructor].
  - rewrite Hnew. apply elem_of_app. right. subst st1. simpl. left.
  - rewrite (bind_run _ _ _ _ _ G). reflexivity.
Qed.

(** The start of a download in which nothing but the rename may fail:
    the directory is made, checksum and artifact are fetched, and a new
    empty temporary file [t] is created. *)
Lemma DownloadAgent_started (st : State) (r : string) (manifest bytes : list byte) :
  (forall h ev, notRename ev -> fs_fault env h ev = None) ->
  resolvesTo env config st r ->
  serves env config r manifest bytes ->
  tempAvailable env config st ->
  exists t st1,
    disk st !! t = None /\
    disk st1 = <[t := {| data := []; mode := Z.ldiff 384 (fs_umask env) |}]> (disk st) /\
    resolvesTo env config st1 r /\
    extends benign st st1 /\
    DownloadAgent env config st
    = (b <~ downloadBody env config
              (strings.TrimSpace (String.string_of_list_byte manifest))
              {| rdata := bytes; rerr := None |} t ;;
       let '(returned, err) := b in
       _ <~ match err with
            | Some _ => _ <~ Remove env t ;; ret tt
            | None => ret tt
            end ;;
       ret returned) st1.
Proof.
  intros Hfs Hres Hserve Htemp. unfold DownloadAgent.
  (* MkdirAll *)
  pose proof (MkdirAll_post (CacheDirectory config) (Z.lor os.ModeDir orwPerm) st) as P0.
  destruct (MkdirAll env (CacheDirectory config) (Z.lor os.ModeDir orwPerm) st)
    as [e0 st0] eqn:R0.
  apply (post_eq _ _ _ _ _ R0) in P0. destruct P0 as (He0 & Hr0 & Hd0 & Hx0).
  rewrite (bind_run _ _ _ _ _ R0). rewrite Hfs in He0 by exact I. subst e0.
  apply (resolvesTo_region st st0 r Hr0) in Hres.
  (* getPublishedMd5Sum *)
  pose proof (getPublishedMd5Sum_post st0) as P1.
  destruct (getPublishedMd5Sum env config st0) as [sum st1] eqn:R1.
  apply (post_eq _ _ _ _ _ R1) in P1. destruct P1 as (Hd1 & Hx1 & Hs1).
  destruct (Hs1 r manifest bytes Hres Hserve) as [Hres1 ->].
  rewrite (bind_run _ _ _ _ _ R1).
  (* getPublishedTarball *)
  pose proof (getPublishedTarball_post st1) as P2.
  destruct (getPublishedTarball env config st1) as [rd st2] eqn:R2.
  apply (post_eq _ _ _ _ _ R2) in P2. destruct P2 as (Hd2 & Hx2 & Hs2).
  destruct (Hs2 r manifest bytes Hres1 Hserve) as [Hres2 ->].
  rewrite (bind_run _ _ _ _ _ R2).
  (* TempFile *)
  pose proof (TempFile_post (CacheDirectory config) "ecs-agent.tar" st2) as P3.
  destruct (TempFile_ok (CacheDirectory config) "ecs-agent.tar" st2) as [t Ht].
  { apply Hfs. exact I. }
  { destruct (Htemp (calls st2)) as (i & Hi & Hfree). exists i.
    split; [exact Hi |]. rewrite Hd2, Hd1, Hd0. exact Hfree. }
  destruct (TempFile env (CacheDirectory config) "ecs-agent.tar" st2)
    as [res st3] eqn:R3.
  simpl in Ht. subst res.
  apply (post_eq _ _ _ _ _ R3) in P3. destruct P3 as (Hr3 & Hx3 & Hnone & Hd3 & _).
  rewrite (bind_run _ _ _ _ _ R3).
  exists t, st3. split; [rewrite <- Hd0, <- Hd1, <- Hd2; exact Hnone |].
  split; [rewrite Hd3, Hd2, Hd1, Hd0; reflexivity |].
  split; [apply (resolvesTo_region st2); assumption |].
  split; [| reflexivity].
  eapply extends_trans; [exact Hx0 |]. eapply extends_trans; [exact Hx1 |].
  eapply extends_trans; [exact Hx2 | exact Hx3].
Qed.

(** C1. With a working filesystem and a store that serves the manifest
    and the artifact, whenever the lower-case hexadecimal MD5 digest of
    the streamed bytes equals the trimmed manifest body, [DownloadAgent]
    returns [nil]; afterwards the agent tarball holds exactly the
    streamed bytes and the rest of the disk is as before: the temporary
    file [t] the stream was copied to has been renamed onto the tarball
    path by the last call made. *)
Theorem DownloadAgent_verified (st : State) (r : string)
    (manifest bytes : list byte) :
  noFault env ->
  resolvesTo env config st r ->
  serves env config r manifest bytes ->
  tempAvailable env config st ->
  fmt.Sprintf_x (md5.Sum bytes)
  = strings.TrimSpace (String.string_of_list_byte manifest) ->
  exists st' t,
    DownloadAgent env config st = (None, st') /\
    data <$> disk st' !! AgentTarball config = Some bytes /\
    disk st'
    = <[AgentTarball config :=
          {| data := bytes; mode := Z.ldiff 384 (fs_umask env) |}]> (disk st) /\
    disk st !! t = None /\
    CallCopy t ∈ calls st' /\
    head (calls st') = Some (CallRename t (AgentTarball config)).
Proof.
  intros Hfs Hres Hserve Htemp Hsum.
  destruct (DownloadAgent_started st r manifest bytes) as
    (t & st1 & Hnone & Hd1 & Hres1 & Hx1 & Hrun); try assumption.
  { intros h ev _. apply Hfs. }
  destruct (downloadBody_copied
              (strings.TrimSpace (String.string_of_list_byte manifest))
              bytes t st1 r (Z.ldiff 384 (fs_umask env)))
    as (st2 & Hres2 & Hd2 & Hx2 & Hin2 & Hbody); [| exact Hres1 | |].
  { intros h. apply Hfs. }
  { rewrite Hd1. apply lookup_insert_eq. }
  rewrite Hsum, String.eqb_refl in Hbody. simpl in Hbody.
  rewrite Hd1, insert_insert_eq in Hd2.
  assert (disk st2 !! t
          = Some {| data := bytes; mode := Z.ldiff 384 (fs_umask env) |}) as Ht2
    by (rewrite Hd2; apply lookup_insert_eq).
  set (st3 := {| region := region st2;
                 disk := <[AgentTarball config :=
                             {| data := bytes; mode := Z.ldiff 384 (fs_umask env) |}]>
                           (delete t (disk st2));
                 calls := CallRename t (AgentTarball config) :: calls st2 |}).
  assert (DownloadAgent env config st = (None, st3)) as Hfinal.
  { rewrite Hrun. unfold bind at 1. rewrite Hbody.
    unfold Rename, bind, call, getDisk, setDisk, ret. simpl.
    rewrite Hfs, Ht2. reflexivity. }
  assert (disk st3
          = <[AgentTarball config :=
                {| data := bytes; mode := Z.ldiff 384 (fs_umask env) |}]> (disk st))
    as Hd3.
  { subst st3. simpl. rewrite Hd2, delete_insert_eq, (delete_id _ _ Hnone).
    reflexivity. }
  exists st3, t. split; [exact Hfinal |].
  split; [rewrite Hd3, lookup_insert_eq; reflexivity |].
  split; [exact Hd3 |]. split; [exact Hnone |].
  split; [right; exact Hin2 | reflexivity].
Qed.

(** C2. With a working filesystem and a store that serves the manifest
    and the artifact, whenever the digest of the streamed bytes differs
    from the trimmed manifest body, [DownloadAgent] returns the mismatch
    error, which names the artifact URL; the temporary file [t] the
    stream was copied to has been removed by the last call and no longer
    exists, and the disk, the agent tarball included, is as it was. *)
Theorem DownloadAgent_mismatch (st : State) (r : string)
    (manifest bytes : list byte) :
  noFault env ->
  resolvesTo env config st r ->
  serves env config r manifest bytes ->
  tempAvailable env config st ->
  fmt.Sprintf_x (md5.Sum bytes)
  <> strings.TrimSpace (String.string_of_list_byte manifest) ->
  exists st' t,
    DownloadAgent env config st
    = (Some (errorString ("mismatched md5sum while downloading "
                          +:+ AgentRemoteTarball config r)), st') /\
    CallCopy t ∈ calls st' /\
    head (calls st') = Some (CallRemove t) /\
    disk st' !! t = None /\
    disk st' !! AgentTarball config = disk st !! AgentTarball config /\
    disk st' = disk st.
Proof.
  intros Hfs Hres Hserve Htemp Hsum.
  destruct (DownloadAgent_started st r manifest bytes) as
    (t & st1 & Hnone & Hd1 & Hres1 & Hx1 & Hrun); try assumption.
  { intros h ev _. apply Hfs. }
  destruct (downloadBody_copied
              (strings.TrimSpace (String.string_of_list_byte manifest))
              bytes t st1 r (Z.ldiff 384 (fs_umask env)))
    as (st2 & Hres2 & Hd2 & Hx2 & Hin2 & Hbody); [| exact Hres1 | |].
  { intros h. apply Hfs. }
  { rewrite Hd1. apply lookup_insert_eq. }
  assert (String.eqb (strings.TrimSpace (String.string_of_list_byte manifest))
                     (fmt.Sprintf_x (md5.Sum bytes)) = false) as Hneq
    by (apply String.eqb_neq; congruence).
  rewrite Hneq in Hbody. simpl in Hbody.
  rewrite Hd1, insert_insert_eq in Hd2.
  assert (disk st2 !! t
          = Some {| data := bytes; mode := Z.ldiff 384 (fs_umask env) |}) as Ht2
    by (rewrite Hd2; apply lookup_insert_eq).
  set (st3 := {| region := region st2; disk := delete t (disk st2);
                 calls := CallRemove t :: calls st2 |}).
  assert (DownloadAgent env config st = (Some (mismatch config r), st3)) as Hfinal.
  { rewrite Hrun. unfold bind at 1. rewrite Hbody.
    unfold Remove, bind, call, getDisk, setDisk, ret. simpl.
    rewrite Hfs, Ht2. reflexivity. }
  assert (disk st3 = disk st) as Hd3.
  { subst st3. simpl. rewrite Hd2, delete_insert_eq. apply delete_id, Hnone. }
  exists st3, t. split; [exact Hfinal |].
  split; [right; exact Hin2 |]. split; [reflexivity |].
  split; [rewrite Hd3; exact Hnone |]. split; [rewrite Hd3; reflexivity | exact Hd3].
Qed.

(** C5. When the checksums match and the final rename fails, nothing
    else failing, [DownloadAgent] returns the error [e] of that rename;
    the temporary file [t] stays on the disk with the whole stream in it
    (no [Remove] is called), and nothing else on the disk changes: a
    tarball that was there is still there, byte for byte. *)
Theorem DownloadAgent_rename_fails (st : State) (r : string)
    (manifest bytes : list byte) :
  (forall h ev, notRename ev -> fs_fault env h ev = None) ->
  (forall h oldpath,
      fs_fault env h (CallRename oldpath (AgentTarball config)) <> None) ->
  resolvesTo env config st r ->
  serves env config r manifest bytes ->
  tempAvailable env config st ->
  fmt.Sprintf_x (md5.Sum bytes)
  = strings.TrimSpace (String.string_of_list_byte manifest) ->
  exists st' t e h,
    DownloadAgent env config st = (Some e, st') /\
    calls st' = CallRename t (AgentTarball config) :: h /\
    fs_fault env h (CallRename t (AgentTarball config)) = Some e /\
    disk st !! t = None /\
    disk st' = <[t := {| data := bytes; mode := Z.ldiff 384 (fs_umask env) |}]> (disk st) /\
    data <$> disk st' !! t = Some bytes /\
    (forall f, disk st !! AgentTarball config = Some f ->
               disk st' !! AgentTarball config = Some f) /\
    extends notRemove st st'.
Proof.
  intros Hfs Hren Hres Hserve Htemp Hsum.
  destruct (DownloadAgent_started st r manifest bytes) as
    (t & st1 & Hnone & Hd1 & Hres1 & Hx1 & Hrun); try assumption.
  destruct (downloadBody_copied
              (strings.TrimSpace (String.string_of_list_byte manifest))
              bytes t st1 r (Z.ldiff 384 (fs_umask env)))
    as (st2 & Hres2 & Hd2 & Hx2 & Hin2 & Hbody); [| exact Hres1 | |].
  { intros h. apply Hfs. exact I. }
  { rewrite Hd1. apply lookup_insert_eq. }
  rewrite Hsum, String.eqb_refl in Hbody. simpl in Hbody.
  rewrite Hd1, insert_insert_eq in Hd2.
  destruct (fs_fault env (calls st2) (CallRename t (AgentTarball config)))
    as [e |] eqn:F; [| exfalso; exact (Hren _ _ F)].
  set (st3 := {| region := region st2; disk := disk st2;
                 calls := CallRename t (AgentTarball config) :: calls st2 |}).
  assert (DownloadAgent env config st = (Some e, st3)) as Hfinal.
  { rewrite Hrun. unfold bind at 1. rewrite Hbody.
    unfold Rename, bind, call, getDisk, setDisk, ret. simpl.
    rewrite F. reflexivity. }
  exists st3, t, e, (calls st2). split; [exact Hfinal |].
  split; [reflexivity |]. split; [exact F |]. split; [exact Hnone |].
  split; [exact Hd2 |].
  split; [subst st3; simpl; rewrite Hd2, lookup_insert_eq; reflexivity |].
  split.
  - intros f Hf. subst st3. simpl. rewrite Hd2, lookup_insert_ne; [exact Hf |].
    intros ->. congruence.
  - apply (extends_impl benign notRemove); [apply benign_notRemove |].
    eapply extends_trans; [exact Hx1 |]. eapply extends_trans; [exact Hx2 |].
    apply (extends_cons benign _ _ (CallRename t (AgentTarball config)));
      [exact I | reflexivity].
Qed.

(** A transport error of the manifest request is returned as it is, and
    the manifest request is the last call made: the artifact is not
    requested. *)
Lemma DownloadAgent_manifest_transport_error (st : State) (r : string) (e : error) :
  fs_fault env (calls st)
           (CallMkdirAll (CacheDirectory config) (Z.lor os.ModeDir orwPerm)) = None ->
  resolvesTo env config st r ->
  (forall h, getter_Get env h (AgentRemoteTarballMD5 config r) = Err e) ->
  exists st',
    DownloadAgent env config st = (Some e, st') /\
    disk st' = disk st /\
    calls st'
    = CallGet (AgentRemoteTarballMD5 config r)
      :: (if String.eqb (region st) "" then [CallRegion] else [])
      ++ CallMkdirAll (CacheDirectory config) (Z.lor os.ModeDir orwPerm) :: calls st.
Proof.
  intros Hmk Hres Hget.
  unfold DownloadAgent, MkdirAll, getPublishedMd5Sum, getRegion, metadata_call, Get,
    bind, call, getField, setRegion, ret.
  cbn [calls disk region]. rewrite Hmk. cbn [calls disk region].
  destruct Hres as [[Hr Hne] | [Hr Hmeta]].
  - assert (String.eqb (region st) "" = false) as ->
      by (apply String.eqb_neq; congruence).
    cbn [negb calls disk region]. rewrite Hr, Hget.
    eexists. split; [reflexivity |]. split; reflexivity.
  - rewrite Hr. cbn [String.eqb negb calls disk region app].
    rewrite (Hmeta (CallMkdirAll (CacheDirectory config) (Z.lor os.ModeDir orwPerm)
                    :: calls st)).
    rewrite Hget. eexists. split; [reflexivity |]. split; reflexivity.
Qed.

(** *** What a download leaves alone *)

Lemma Copy_frame (dst : string) (src : teeReader) (st : State) :
  post (Copy env dst src) st (fun _ st' =>
    region st' = region st /\ extends benign st st' /\
    forall k, k <> dst -> disk st' !! k = disk st !! k).
Proof.
  unfold post, Copy, bind, call, setDisk, ret. simpl.
  destruct (fs_fault env (calls st) (CallCopy dst)); simpl;
    (split; [reflexivity |]; split;
     [apply (extends_cons benign _ _ (CallCopy dst)); [exact I | reflexivity] |];
     intros k Hk; apply lookup_alter_ne; congruence).
Qed.

Lemma Rename_frame (oldpath newpath : string) (st : State) :
  post (Rename env oldpath newpath) st (fun _ st' =>
    region st' = region st /\ extends benign st st' /\
    forall k, k <> oldpath -> k <> newpath -> disk st' !! k = disk st !! k).
Proof.
  unfold post, Rename, bind, call, getDisk, setDisk, ret. simpl.
  assert (forall d, extends benign st
            {| region := region st; disk := d;
               calls := CallRename oldpath newpath :: calls st |}) as Hext
    by (intros d; apply (extends_cons benign _ _ (CallRename oldpath newpath));
        [exact I | reflexivity]).
  destruct (fs_fault env (calls st) (CallRename oldpath newpath)); simpl.
  { split; [reflexivity |]. split; [apply Hext | reflexivity]. }
  destruct (disk st !! oldpath); simpl.
  - split; [reflexivity |]. split; [apply Hext |]. intros k Ho Hn.
    rewrite lookup_insert_ne, lookup_delete_ne; congruence.
  - split; [reflexivity |]. split; [apply Hext | reflexivity].
Qed.

Lemma Remove_frame (name : string) (st : State) :
  post (Remove env name) st (fun _ st' =>
    region st' = region st /\ extends notWriteFile st st' /\
    forall k, k <> name -> disk st' !! k = disk st !! k).
Proof.
  unfold post, Remove, bind, call, getDisk, setDisk, ret. simpl.
  assert (forall d, extends notWriteFile st
            {| region := region st; disk := d;
               calls := CallRemove name :: calls st |}) as Hext
    by (intros d; apply (extends_cons notWriteFile _ _ (CallRemove name));
        [exact I | reflexivity]).
  destruct (fs_fault env (calls st) (CallRemove name)); simpl.
  { split; [reflexivity |]. split; [apply Hext | reflexivity]. }
  destruct (disk st !! name); simpl.
  - split; [reflexivity |]. split; [apply Hext |]. intros k Hk.
    apply lookup_delete_ne. congruence.
  - split; [reflexivity |]. split; [apply Hext | reflexivity].
Qed.

(** Whatever happens, [downloadBody] touches only the temporary file
    and the agent tarball. *)
Lemma downloadBody_frame (sum : string) (reader : Reader) (t : string) (st : State) :
  post (downloadBody env config sum reader t) st (fun _ st' =>
    extends benign st st' /\
    forall k, k <> t -> k <> AgentTarball config -> disk st' !! k = disk st !! k).
Proof.
  unfold downloadBody. apply post_bind.
  unfold post at 1, TeeReader, bind at 1, call, ret. simpl.
  set (st0 := {| region := region st; disk := disk st;
                 calls := CallTeeReader :: calls st |}).
  assert (extends benign st st0) as Hx0
    by (apply (extends_cons benign _ _ CallTeeReader); [exact I | reflexivity]).
  apply post_bind. eapply post_mono; [apply Copy_frame |].
  intros [[n err] h] st1 (_ & Hx1 & Hd1).
  destruct err as [e |].
  { apply post_ret. split; [eapply extends_trans; eassumption |].
    intros k Hk _. apply Hd1. exact Hk. }
  apply post_bind. eapply post_mono; [apply getRegion_post |].
  intros r0 st2 (_ & Hd2 & Hx2 & _).
  destruct (negb (String.eqb sum (fmt.Sprintf_x (md5.digestSum h)))).
  { apply post_ret. split.
    - eapply extends_trans; [exact Hx0 |]. eapply extends_trans; eassumption.
    - intros k Hk _. rewrite Hd2. apply Hd1. exact Hk. }
  apply post_bind. eapply post_mono; [apply Rename_frame |].
  intros r1 st3 (_ & Hx3 & Hd3). apply post_ret. split.
  - eapply extends_trans; [exact Hx0 |]. eapply extends_trans; [exact Hx1 |].
    eapply extends_trans; eassumption.
  - intros k Hk Ha. rewrite (Hd3 k Hk Ha), Hd2. apply Hd1. exact Hk.
Qed.

(** Whatever happens, [DownloadAgent] leaves alone every file other than
    the agent tarball and the temporary file, and never calls
    [WriteFile]. *)
Lemma DownloadAgent_frame (k : string) (st : State) :
  k <> AgentTarball config ->
  (forall h i, fs_tempname env h (CacheDirectory config) "ecs-agent.tar" i <> k) ->
  post (DownloadAgent env config) st (fun _ st' =>
    disk st' !! k = disk st !! k /\ extends notWriteFile st st').
Proof.
  intros Hk Htmp. unfold DownloadAgent.
  assert (forall a b, extends benign a b -> extends notWriteFile a b) as Hw
    by (intros a b; apply extends_impl, benign_notWriteFile).
  apply post_bind. eapply post_mono; [apply MkdirAll_post |].
  intros e0 st0 (_ & _ & Hd0 & Hx0). apply Hw in Hx0.
  destruct e0 as [e |].
  { apply post_ret. split; [rewrite Hd0; reflexivity | exact Hx0]. }
  apply post_bind. eapply post_mono; [apply getPublishedMd5Sum_post |].
  intros r1 st1 (Hd1 & Hx1 & _). apply Hw in Hx1.
  assert (extends notWriteFile st st1) as Hy1 by (eapply extends_trans; eassumption).
  destruct r1 as [sum | e].
  2:{ apply post_ret. split; [rewrite Hd1, Hd0; reflexivity | exact Hy1]. }
  apply post_bind. eapply post_mono; [apply getPublishedTarball_post |].
  intros r2 st2 (Hd2 & Hx2 & _). apply Hw in Hx2.
  assert (extends notWriteFile st st2) as Hy2 by (eapply extends_trans; eassumption).
  destruct r2 as [reader | e].
  2:{ apply post_ret. split; [rewrite Hd2, Hd1, Hd0; reflexivity | exact Hy2]. }
  apply post_bind. eapply post_mono; [apply TempFile_post |].
  intros r3 st3 (_ & Hx3 & H3). apply Hw in Hx3.
  assert (extends notWriteFile st st3) as Hy3 by (eapply extends_trans; eassumption).
  destruct r3 as [t | e].
  2:{ apply post_ret. split; [rewrite H3, Hd2, Hd1, Hd0; reflexivity | exact Hy3]. }
  destruct H3 as (_ & Hd3 & h & i & Ht).
  assert (k <> t) as Hkt by (intros ->; apply (Htmp h i); symmetry; exact Ht).
  assert (disk st3 !! k = disk st !! k) as Hk3.
  { rewrite Hd3, lookup_insert_ne by congruence. rewrite Hd2, Hd1, Hd0. reflexivity. }
  apply post_bind. eapply post_mono; [apply downloadBody_frame |].
  intros [returned err] st4 (Hx4 & Hd4). apply Hw in Hx4.
  assert (extends notWriteFile st st4) as Hy4 by (eapply extends_trans; eassumption).
  assert (disk st4 !! k = disk st !! k) as Hk4 by (rewrite (Hd4 k Hkt Hk); exact Hk3).
  apply post_bind. destruct err as [e |].
  - apply post_bind. eapply post_mono; [apply Remove_frame |].
    intros r5 st5 (_ & Hx5 & Hd5). do 2 apply post_ret. split.
    + rewrite (Hd5 k Hkt). exact Hk4.
    + eapply extends_trans; eassumption.
  - do 2 apply post_ret. split; assumption.
Qed.

Lemma fileNotEmpty_empty (env' : Env) (name : string) (st : State) :
  disk st !! name = None \/ (exists f, disk st !! name = Some f /\ data f = []) ->
  fst (fileNotEmpty env' name st) = false.
Proof.
  intros H. unfold fileNotEmpty, Stat, bind, call, getDisk, ret. simpl.
  destruct (fs_fault env' (calls st) (CallStat name)); [reflexivity |].
  destruct H as [-> | (f & -> & Hf)]; [reflexivity |]. simpl. rewrite Hf. reflexivity.
Qed.

Lemma owner_only (umask : Z) : Z.land (Z.ldiff orwPerm umask) 63 = 0.
Proof.
  apply Z.bits_inj'. intros n Hn.
  rewrite Z.land_spec, Z.ldiff_spec, Z.bits_0.
  destruct (Z_lt_le_dec n 6) as [Hlt | Hge].
  - assert (n = 0 \/ n = 1 \/ n = 2 \/ n = 3 \/ n = 4 \/ n = 5) as Hc by lia.
    destruct Hc as [-> | [-> | [-> | [-> | [-> | ->]]]]]; reflexivity.
  - replace (Z.testbit 63 n) with false; [apply andb_false_r |].
    symmetry. apply Z.bits_above_log2; [lia |]. simpl. lia.
Qed.

(** What [fileNotEmpty] answers when its stat does not fail. *)
Lemma fileNotEmpty_run (env' : Env) (name : string) (st : State) :
  fs_fault env' (calls st) (CallStat name) = None ->
  fileNotEmpty env' name st
  = (match disk st !! name with
     | Some f => (0 <? Z.of_nat (length (data f)))
     | None => false
     end, logged (CallStat name) st).
Proof.
  intros Hf. unfold fileNotEmpty, Stat, bind, call, getDisk, ret.
  cbn [fst snd calls disk region]. rewrite Hf.
  destruct (disk st !! name); reflexivity.
Qed.

(** What [RecordCachedAgent] does, in any environment. *)
Lemma RecordCachedAgent_run (env' : Env) (st : State) :
  RecordCachedAgent env' config st
  = match fs_fault env' (calls st) (CallWriteFile (CacheState config) [x31] orwPerm) with
    | Some e => (Some e, logged (CallWriteFile (CacheState config) [x31] orwPerm) st)
    | None =>
      (None,
       {| region := region st;
          disk := <[CacheState config :=
                      {| data := [x31];
                         mode := match disk st !! CacheState config with
                                 | Some f => mode f
                                 | None => Z.ldiff orwPerm (fs_umask env')
                                 end |}]> (disk st);
          calls := CallWriteFile (CacheState config) [x31] orwPerm :: calls st |})
    end.
Proof.
  unfold RecordCachedAgent, WriteFile, call, getDisk, setDisk, ret, bind.
  change (String.list_byte_of_string "1") with [x31].
  cbn [calls disk region].
  destruct (fs_fault env' (calls st) (CallWriteFile (CacheState config) [x31] orwPerm));
    reflexivity.
Qed.

(** C9. [DownloadAgent], whatever its outcome and whatever the state
    marker holds, does not call [WriteFile] and leaves the marker as it
    was; so on a cache whose marker is absent or empty [IsAgentCached]
    still answers [false] after it. [RecordCachedAgent] is what writes
    the marker: in every environment it makes the one call [WriteFile]
    of the single byte [1] with permission 0700 to the marker path,
    returns what that call returns and touches no other file; when it
    returns [nil] the marker holds that byte, with no permission bit for
    group or others when the file is new, and from then on
    [IsAgentCached] (its stats not failing) answers [true] exactly when
    the agent tarball is there and not empty. The layout is assumed to
    keep the marker apart from the tarball and from temporary names. *)
Theorem DownloadAgent_leaves_marker (st st' : State) (res : option error) :
  CacheState config <> AgentTarball config ->
  (forall h i,
      fs_tempname env h (CacheDirectory config) "ecs-agent.tar" i
      <> CacheState config) ->
  DownloadAgent env config st = (res, st') ->
  disk st' !! CacheState config = disk st !! CacheState config /\
  extends notWriteFile st st' /\
  (disk st !! CacheState config = None \/
   (exists f, disk st !! CacheState config = Some f /\ data f = []) ->
   forall env', fst (IsAgentCached env' config st') = false) /\
  forall env',
    calls (snd (RecordCachedAgent env' config st'))
    = CallWriteFile (CacheState config) [x31] orwPerm :: calls st' /\
    fst (RecordCachedAgent env' config st')
    = fs_fault env' (calls st') (CallWriteFile (CacheState config) [x31] orwPerm) /\
    (forall k, k <> CacheState config ->
               disk (snd (RecordCachedAgent env' config st')) !! k = disk st' !! k) /\
    (fst (RecordCachedAgent env' config st') = None ->
     data <$> disk (snd (RecordCachedAgent env' config st')) !! CacheState config
     = Some [x31] /\
     (disk st !! CacheState config = None ->
      exists f, disk (snd (RecordCachedAgent env' config st')) !! CacheState config
                = Some f /\ Z.land (mode f) 63 = 0) /\
     forall env'',
       (forall h name, fs_fault env'' h (CallStat name) = None) ->
       fst (IsAgentCached env'' config (snd (RecordCachedAgent env' config st'))) = true
       <-> exists f, disk st' !! AgentTarball config = Some f /\ data f <> []).
Proof.
  intros Hne Htmp Hrun.
  pose proof (DownloadAgent_frame (CacheState config) st Hne Htmp) as Hp.
  apply (post_eq _ _ _ _ _ Hrun) in Hp. destruct Hp as [Hk Hx].
  split; [exact Hk |]. split; [exact Hx |]. split.
  - intros Hmarker env'. unfold IsAgentCached, bind.
    pose proof (fileNotEmpty_empty env' (CacheState config) st') as Hf.
    destruct (fileNotEmpty env' (CacheState config) st') as [b st1].
    cbn [fst] in Hf. rewrite Hf; [reflexivity |]. rewrite Hk. exact Hmarker.
  - intros env'. rewrite RecordCachedAgent_run.
    destruct (fs_fault env' (calls st')
                (CallWriteFile (CacheState config) [x31] orwPerm)) as [e |];
      cbn [fst snd calls disk logged].
    + split; [reflexivity |]. split; [reflexivity |]. split; [reflexivity |].
      discriminate.
    + split; [reflexivity |]. split; [reflexivity |]. split.
      * intros k Hkne. apply lookup_insert_ne. congruence.
      * intros _. rewrite lookup_insert_eq. split; [reflexivity |]. split.
        { intros Hnone. rewrite Hk, Hnone. eexists. split; [reflexivity |].
          cbn [mode]. apply owner_only. }
        intros env'' Hstat. unfold IsAgentCached.
        rewrite (bind_run _ _ _ _ _ (fileNotEmpty_run env'' _ _ (Hstat _ _))).
        cbn [disk]. rewrite lookup_insert_eq.
        cbn [data length Z.of_nat Z.ltb Z.compare].
        change (0 <? Z.of_nat 1) with true. cbn iota.
        rewrite (fileNotEmpty_run env'' _ _ (Hstat _ _)). cbn [fst logged disk].
        rewrite lookup_insert_ne by exact Hne.
        destruct (disk st' !! AgentTarball config) as [f |].
        -- split.
           ++ intros H. exists f. split; [reflexivity |]. intros E.
              rewrite E in H. discriminate.
           ++ intros (f' & Hf & Hdata). inversion Hf; subst f'. apply Z.ltb_lt.
              destruct (data f); [contradiction | cbn [length]; lia].
        -- split; [discriminate |]. intros (f' & Hf & _). discriminate.
Qed.

End Claims.

(** ** The claims at concrete inputs *)

Lemma tempAttempts_pos : (0 < tempAttempts)%nat.
Proof. apply Nat.ltb_lt. vm_compute. reflexivity. Qed.

Lemma newline_not_in (l : list byte) :
  forallb (fun b => negb (Byte.eqb b x0a)) l = true -> x0a ∉ l.
Proof.
  induction l as [| b l IH]; simpl; intros H Hin; [inversion Hin |].
  apply andb_true_iff in H as [Hb Hl].
  apply elem_of_cons in Hin as [<- | Hin]; [discriminate | exact (IH Hl Hin)].
Qed.

Example md5_empty :
  fmt.Sprintf_x (md5.Sum []) = "d41d8cd98f00b204e9800998ecf8427e".
Proof. vm_compute. reflexivity. Qed.

Example md5_abc :
  fmt.Sprintf_x (md5.Sum (String.list_byte_of_string "abc"))
  = "900150983cd24fb0d6963f7d28e17f72".
Proof. vm_compute. reflexivity. Qed.

Example md5_two_blocks :
  fmt.Sprintf_x (md5.Sum (repeat x61 119)) = "8a7bd0732ed6a28ce75f6dabc90e1613".
Proof. vm_compute. reflexivity. Qed.

Example TrimSpace_unicode :
  strings.TrimSpace
    (String "194" (String "160" (" ab c " +:+ String "226" (String "128" (String "128" newline)))))
  = "ab c".
Proof. vm_compute. reflexivity. Qed.

Example Base_examples :
  filepath.Base "" = "." /\ filepath.Base "///" = "/" /\
  filepath.Base "a/b/" = "b" /\ filepath.Base "../../etc/myimage.tar" = "myimage.tar".
Proof. repeat split. Qed.

Lemma example_resolves (code : Z) (manifest bytes : list byte)
    (faulty : event -> option error) (st : State) :
  region st = "" ->
  resolvesTo (exampleEnv code manifest bytes faulty) exampleConfig st "us-west-2".
Proof. intros H. right. split; [exact H | intros h; reflexivity]. Qed.

Lemma example_serves (code : Z) (manifest bytes : list byte)
    (faulty : event -> option error) :
  serves (exampleEnv code manifest bytes faulty) exampleConfig "us-west-2"
         manifest bytes.
Proof. split; intros h; [exists code |]; reflexivity. Qed.

Lemma example_tempAvailable (code : Z) (manifest bytes : list byte)
    (faulty : event -> option error) :
  tempAvailable (exampleEnv code manifest bytes faulty) exampleConfig cachedState.
Proof.
  intros h. exists 0%nat. split; [exact tempAttempts_pos |].
  vm_compute. reflexivity.
Qed.

(** C1 at a concrete input: the artifact [hello-agent], whose manifest
    ends in a newline, replaces a previously cached artifact. *)
Lemma DownloadAgent_verified_witness :
  exists st' t,
    DownloadAgent (exampleEnv 200 helloManifest helloAgent neverFails)
                  exampleConfig cachedState = (None, st') /\
    data <$> disk st' !! AgentTarball exampleConfig = Some helloAgent /\
    disk st' = <[AgentTarball exampleConfig :=
                   {| data := helloAgent; mode := Z.ldiff 384 18 |}]> (disk cachedState) /\
    disk cachedState !! t = None /\
    CallCopy t ∈ calls st' /\
    head (calls st') = Some (CallRename t (AgentTarball exampleConfig)).
Proof.
  apply (DownloadAgent_verified
           (exampleEnv 200 helloManifest helloAgent neverFails) exampleConfig
           cachedState "us-west-2" helloManifest helloAgent).
  - intros h ev. reflexivity.
  - apply example_resolves. reflexivity.
  - apply example_serves.
  - apply example_tempAvailable.
  - vm_compute. reflexivity.
Defined.

(** C2 at a concrete input: the manifest holds the digest of another
    artifact. *)
Lemma DownloadAgent_mismatch_witness :
  exists st' t,
    DownloadAgent (exampleEnv 200 wrongManifest helloAgent neverFails)
                  exampleConfig cachedState
    = (Some (errorString
               ("mismatched md5sum while downloading "
                +:+ AgentRemoteTarball exampleConfig "us-west-2")), st') /\
    CallCopy t ∈ calls st' /\
    head (calls st') = Some (CallRemove t) /\
    disk st' !! t = None /\
    disk st' !! AgentTarball exampleConfig
    = disk cachedState !! AgentTarball exampleConfig /\
    disk st' = disk cachedState.
Proof.
  apply (DownloadAgent_mismatch
           (exampleEnv 200 wrongManifest helloAgent neverFails) exampleConfig
           cachedState "us-west-2" wrongManifest helloAgent).
  - intros h ev. reflexivity.
  - apply example_resolves. reflexivity.
  - apply example_serves.
  - apply example_tempAvailable.
  - vm_compute. discriminate.
Defined.

(** C5 at a concrete input: the rename is refused. *)
Lemma DownloadAgent_rename_fails_witness :
  exists st' t e h,
    DownloadAgent (exampleEnv 200 helloManifest helloAgent renameFails)
                  exampleConfig cachedState = (Some e, st') /\
    calls st' = CallRename t (AgentTarball exampleConfig) :: h /\
    renameFails (CallRename t (AgentTarball exampleConfig)) = Some e /\
    disk cachedState !! t = None /\
    disk st' = <[t := {| data := helloAgent; mode := Z.ldiff 384 18 |}]> (disk cachedState) /\
    data <$> disk st' !! t = Some helloAgent /\
    (forall f, disk cachedState !! AgentTarball exampleConfig = Some f ->
               disk st' !! AgentTarball exampleConfig = Some f) /\
    extends notRemove cachedState st'.
Proof.
  apply (DownloadAgent_rename_fails
           (exampleEnv 200 helloManifest helloAgent renameFails) exampleConfig
           cachedState "us-west-2" helloManifest helloAgent).
  - intros h ev Hev. destruct ev; try reflexivity. destruct Hev.
  - intros h oldpath. discriminate.
  - apply example_resolves. reflexivity.
  - apply example_serves.
  - apply example_tempAvailable.
  - vm_compute. reflexivity.
Defined.

(** C3 at the failing input: the manifest request is answered with
    status 404 and a body that is the digest of the artifact. The status
    is not looked at: the artifact is fetched and promoted, and
    [DownloadAgent] returns [nil]. *)
Theorem DownloadAgent_ignores_manifest_status :
  fst (DownloadAgent (exampleEnv 404 helloManifest helloAgent neverFails)
                     exampleConfig emptyState) = None /\
  data <$> disk (snd (DownloadAgent (exampleEnv 404 helloManifest helloAgent neverFails)
                                    exampleConfig emptyState))
           !! AgentTarball exampleConfig = Some helloAgent /\
  rev (calls (snd (DownloadAgent (exampleEnv 404 helloManifest helloAgent neverFails)
                                 exampleConfig emptyState)))
  = [ CallMkdirAll "/var/cache/ecs" (Z.lor os.ModeDir orwPerm);
      CallRegion;
      CallGet (AgentRemoteTarballMD5 exampleConfig "us-west-2");
      CallReadAll;
      CallGet (AgentRemoteTarball exampleConfig "us-west-2");
      CallTempFile "/var/cache/ecs" "ecs-agent.tar";
      CallTeeReader;
      CallCopy "/var/cache/ecs/ecs-agent.tar0";
      CallRename "/var/cache/ecs/ecs-agent.tar0" "/var/cache/ecs/ecs-agent.tar" ].
Proof. vm_compute. repeat split. Qed.

(** C6 at a concrete input: a first call resolves [us-west-2]; a second
    call, even with a metadata service that would now answer otherwise,
    returns the same string and makes no call. *)
Lemma getRegion_memoised_witness :
  getRegion (exampleEnv 200 helloManifest helloAgent neverFails) exampleConfig
            emptyState
  = ("us-west-2", {| region := "us-west-2"; disk := ∅; calls := [CallRegion] |}) /\
  getRegion emptyRegionEnv exampleConfig
            {| region := "us-west-2"; disk := ∅; calls := [CallRegion] |}
  = ("us-west-2", {| region := "us-west-2"; disk := ∅; calls := [CallRegion] |}).
Proof.
  split; [reflexivity |].
  apply (getRegion_memoised
           (exampleEnv 200 helloManifest helloAgent neverFails) exampleConfig
           emptyState
           {| region := "us-west-2"; disk := ∅; calls := [CallRegion] |}
           "us-west-2").
  - reflexivity.
  - discriminate.
  - reflexivity.
Defined.

(** C6 as stated fails when the metadata service answers with an empty
    region: the second call asks it again and returns another string. *)
Lemma getRegion_empty_region_not_memoised :
  ~ (fst (getRegion emptyRegionEnv exampleConfig
            (snd (getRegion emptyRegionEnv exampleConfig emptyState)))
     = fst (getRegion emptyRegionEnv exampleConfig emptyState) /\
     calls (snd (getRegion emptyRegionEnv exampleConfig
                   (snd (getRegion emptyRegionEnv exampleConfig emptyState))))
     = calls (snd (getRegion emptyRegionEnv exampleConfig emptyState))).
Proof. vm_compute. intros [H _]. discriminate. Qed.

(** C7 at the input of the specification, with a carriage return or a
    no-break space before the newline, and with white space before a
    path that has a directory part. *)
Lemma getDesiredImageFile_basename_witness :
  fst (getDesiredImageFile (exampleEnv 200 [] [] neverFails) exampleConfig
         (locatorState ("../../etc/myimage.tar" +:+ newline +:+ "reserved")))
  = Ok "/var/cache/ecs/myimage.tar" /\
  fst (getDesiredImageFile (exampleEnv 200 [] [] neverFails) exampleConfig
         (locatorState ("../../etc/myimage.tar" +:+ String "013" newline)))
  = Ok "/var/cache/ecs/myimage.tar" /\
  fst (getDesiredImageFile (exampleEnv 200 [] [] neverFails) exampleConfig
         (locatorState ("../../etc/myimage.tar"
                        +:+ String "194" (String "160" newline))))
  = Ok "/var/cache/ecs/myimage.tar" /\
  fst (getDesiredImageFile (exampleEnv 200 [] [] neverFails) exampleConfig
         (locatorState (" a/foo" +:+ newline)))
  = Ok "/var/cache/ecs/foo".
Proof.
  split; [| split; [| split]].
  - destruct (getDesiredImageFile_basename
                (exampleEnv 200 [] [] neverFails) exampleConfig
                (locatorState ("../../etc/myimage.tar" +:+ newline +:+ "reserved"))
                (regularFile ("../../etc/myimage.tar" +:+ newline +:+ "reserved"))
                "" "../../etc/myimage.tar" "" (String.list_byte_of_string "reserved")
                "r"%char) as (Hrun & Hspec & Hbase).
    + reflexivity.
    + reflexivity.
    + reflexivity.
    + apply newline_not_in. reflexivity.
    + reflexivity.
    + reflexivity.
    + reflexivity.
    + reflexivity.
    + reflexivity.
    + reflexivity.
    + discriminate.
    + left. reflexivity.
    + rewrite Hrun, Hspec. reflexivity.
  - destruct (getDesiredImageFile_basename
                (exampleEnv 200 [] [] neverFails) exampleConfig
                (locatorState ("../../etc/myimage.tar" +:+ String "013" newline))
                (regularFile ("../../etc/myimage.tar" +:+ String "013" newline))
                "" "../../etc/myimage.tar" (String "013" "") []
                "r"%char) as (Hrun & Hspec & Hbase).
    + reflexivity.
    + reflexivity.
    + reflexivity.
    + apply newline_not_in. reflexivity.
    + reflexivity.
    + reflexivity.
    + reflexivity.
    + reflexivity.
    + reflexivity.
    + reflexivity.
    + discriminate.
    + left. reflexivity.
    + rewrite Hrun, Hspec. reflexivity.
  - destruct (getDesiredImageFile_basename
                (exampleEnv 200 [] [] neverFails) exampleConfig
                (locatorState ("../../etc/myimage.tar"
                               +:+ String "194" (String "160" newline)))
                (regularFile ("../../etc/myimage.tar"
                              +:+ String "194" (String "160" newline)))
                "" "../../etc/myimage.tar" (String "194" (String "160" "")) []
                "r"%char) as (Hrun & Hspec & Hbase).
    + reflexivity.
    + reflexivity.
    + reflexivity.
    + apply newline_not_in. reflexivity.
    + reflexivity.
    + reflexivity.
    + reflexivity.
    + reflexivity.
    + reflexivity.
    + reflexivity.
    + discriminate.
    + left. reflexivity.
    + rewrite Hrun, Hspec. reflexivity.
  - destruct (getDesiredImageFile_basename
                (exampleEnv 200 [] [] neverFails) exampleConfig
                (locatorState (" a/foo" +:+ newline))
                (regularFile (" a/foo" +:+ newline))
                " " "a/foo" "" []
                "o"%char) as (Hrun & Hspec & Hbase).
    + reflexivity.
    + reflexivity.
    + reflexivity.
    + apply newline_not_in. reflexivity.
    + reflexivity.
    + reflexivity.
    + reflexivity.
    + reflexivity.
    + reflexivity.
    + reflexivity.
    + discriminate.
    + right. right. left.
    + rewrite Hrun, Hspec. reflexivity.
Defined.

(** C7 as stated fails on three kinds of lines. A line that begins
    with white space and has no separator keeps that white space: the
    name is not trimmed before it is joined. A line that ends in a
    separator, and a line of white space only, resolve to the cache
    directory itself: the base name is taken of the line as read, with
    its newline. *)
Lemma getDesiredImageFile_basename_fails :
  (fst (getDesiredImageFile (exampleEnv 200 [] [] neverFails) exampleConfig
          (locatorState (" foo" +:+ newline)))
   = Ok "/var/cache/ecs/ foo" /\
   specDesiredImageFile exampleConfig (" foo" +:+ newline) = "/var/cache/ecs/foo" /\
   fst (getDesiredImageFile (exampleEnv 200 [] [] neverFails) exampleConfig
          (locatorState (" foo" +:+ newline)))
   <> Ok (specDesiredImageFile exampleConfig (" foo" +:+ newline))) /\
  (fst (getDesiredImageFile (exampleEnv 200 [] [] neverFails) exampleConfig
          (locatorState ("images/foo/" +:+ newline)))
   = Ok "/var/cache/ecs/" /\
   specDesiredImageFile exampleConfig ("images/foo/" +:+ newline) = "/var/cache/ecs/foo" /\
   fst (getDesiredImageFile (exampleEnv 200 [] [] neverFails) exampleConfig
          (locatorState ("images/foo/" +:+ newline)))
   <> Ok (specDesiredImageFile exampleConfig ("images/foo/" +:+ newline))) /\
  (fst (getDesiredImageFile (exampleEnv 200 [] [] neverFails) exampleConfig
          (locatorState newline))
   = Ok "/var/cache/ecs/" /\
   specDesiredImageFile exampleConfig newline = "/var/cache/ecs/." /\
   fst (getDesiredImageFile (exampleEnv 200 [] [] neverFails) exampleConfig
          (locatorState newline))
   <> Ok (specDesiredImageFile exampleConfig newline)).
Proof. vm_compute. repeat split; discriminate. Qed.

(** C8 at concrete inputs: no locator file. *)
Lemma LoadDesiredAgent_locator_error_witness :
  exists e,
    getDesiredImageFile (exampleEnv 200 [] [] neverFails) exampleConfig cachedState
    = (Err e, logged (CallOpen (DesiredImageLocatorFile exampleConfig)) cachedState) /\
    LoadDesiredAgent (exampleEnv 200 [] [] neverFails) exampleConfig cachedState
    = (Err e, logged (CallOpen (DesiredImageLocatorFile exampleConfig)) cachedState).
Proof.
  apply (LoadDesiredAgent_locator_error
           (exampleEnv 200 [] [] neverFails) exampleConfig cachedState).
  right. left. vm_compute. reflexivity.
Defined.

(** C9 at a concrete input: a successful download onto a cache without a
    state marker, followed by the recording, after which the agent is
    reported as cached. *)
Lemma DownloadAgent_leaves_marker_witness :
  fst (DownloadAgent (exampleEnv 200 helloManifest helloAgent neverFails)
                     exampleConfig cachedState) = None /\
  disk (snd (DownloadAgent (exampleEnv 200 helloManifest helloAgent neverFails)
                           exampleConfig cachedState))
    !! CacheState exampleConfig = None /\
  (forall env',
      fst (IsAgentCached env' exampleConfig
             (snd (DownloadAgent (exampleEnv 200 helloManifest helloAgent neverFails)
                                 exampleConfig cachedState))) = false) /\
  (forall env',
      calls (snd (RecordCachedAgent env' exampleConfig
                    (snd (DownloadAgent
                            (exampleEnv 200 helloManifest helloAgent neverFails)
                            exampleConfig cachedState))))
      = CallWriteFile (CacheState exampleConfig) [x31] orwPerm
        :: calls (snd (DownloadAgent
                         (exampleEnv 200 helloManifest helloAgent neverFails)
                         exampleConfig cachedState))) /\
  data <$> disk (snd (RecordCachedAgent
                        (exampleEnv 200 helloManifest helloAgent neverFails)
                        exampleConfig
                        (snd (DownloadAgent
                                (exampleEnv 200 helloManifest helloAgent neverFails)
                                exampleConfig cachedState))))
           !! CacheState exampleConfig = Some [x31] /\
  fst (IsAgentCached (exampleEnv 200 helloManifest helloAgent neverFails)
         exampleConfig
         (snd (RecordCachedAgent
                 (exampleEnv 200 helloManifest helloAgent neverFails)
                 exampleConfig
                 (snd (DownloadAgent
                         (exampleEnv 200 helloManifest helloAgent neverFails)
                         exampleConfig cachedState))))) = true.
Proof.
  set (env := exampleEnv 200 helloManifest helloAgent neverFails).
  set (run := DownloadAgent env exampleConfig cachedState).
  destruct (DownloadAgent_leaves_marker env exampleConfig cachedState
              (snd run) (fst run))
    as (Hk & _ & Hcached & Hrecord).
  - discriminate.
  - intros h i. simpl. discriminate.
  - subst run. destruct (DownloadAgent env exampleConfig cachedState). reflexivity.
  - destruct (Hrecord env) as (_ & _ & _ & Hdone).
    destruct Hdone as (Hdata & _ & Hcachedafter); [vm_compute; reflexivity |].
    split; [vm_compute; reflexivity |]. split; [rewrite Hk; vm_compute; reflexivity |].
    split; [apply Hcached; left; vm_compute; reflexivity |].
    split; [intros env'; apply (Hrecord env') |].
    split; [exact Hdata |].
    apply (Hcachedafter env); [intros h name; reflexivity |].
    exists {| data := helloAgent; mode := Z.ldiff 384 18 |}.
    split; [vm_compute; reflexivity | discriminate].
Defined.

(** C10 at a concrete input. *)
Lemma getDesiredImageFile_dotdot_witness :
  fst (getDesiredImageFile (exampleEnv 200 [] [] neverFails) exampleConfig
         (locatorState (".." +:+ newline)))
  = Ok "/var/cache/ecs/..".
Proof.
  apply (getDesiredImageFile_dotdot
           (exampleEnv 200 [] [] neverFails) exampleConfig
           (locatorState (".." +:+ newline)) (regularFile (".." +:+ newline))
           []); reflexivity.
Defined.

(** ** Further properties of the package *)

Section Outcomes.

Variable env : Env.
Variable config : Config.

(** *** The outcomes of a download, in any environment *)

(** A checksum that [getPublishedMd5Sum] returns was served. *)
Lemma getPublishedMd5Sum_served (st : State) :
  post (getPublishedMd5Sum env config) st (fun res st' =>
    disk st' = disk st /\
    forall sum, res = Ok sum -> publishedBy env config sum).
Proof.
  unfold getPublishedMd5Sum. apply post_bind.
  eapply post_mono; [apply getRegion_post |].
  intros r0 st1 (_ & Hd1 & _).
  unfold post, Get, ReadAll, bind, call, ret. cbn [fst snd calls disk region].
  destruct (getter_Get env (calls st1) (AgentRemoteTarballMD5 config r0))
    as [resp | e] eqn:G; cbn [fst snd calls disk region].
  - destruct (rerr (Body resp)) as [e |] eqn:R; cbn [fst snd calls disk region].
    + split; [exact Hd1 | discriminate].
    + split; [exact Hd1 |]. intros sum H. inversion H.
      exists (calls st1), r0, resp. auto.
  - split; [exact Hd1 | discriminate].
Qed.

(** A stream that [getPublishedTarball] returns was served with status
    200. *)
Lemma getPublishedTarball_served (st : State) :
  post (getPublishedTarball env config) st (fun res st' =>
    disk st' = disk st /\
    forall body, res = Ok body -> deliveredBy env config body).
Proof.
  unfold getPublishedTarball. apply post_bind.
  eapply post_mono; [apply getRegion_post |].
  intros r0 st1 (_ & Hd1 & _).
  unfold post, Get, bind, call, ret. cbn [fst snd calls disk region].
  destruct (getter_Get env (calls st1) (AgentRemoteTarball config r0))
    as [resp | e] eqn:G; cbn [fst snd calls disk region].
  - destruct (StatusCode resp =? http.StatusOK) eqn:S; cbn [negb fst snd calls disk region].
    + split; [exact Hd1 |]. intros body H. inversion H.
      exists (calls st1), r0, resp. apply Z.eqb_eq in S. auto.
    + split; [exact Hd1 | discriminate].
  - split; [exact Hd1 | discriminate].
Qed.

Lemma TeeReader_outcome (r : Reader) (w : md5.digest) (st : State) :
  post (TeeReader r w) st (fun t st' =>
    t = {| tee_r := r; tee_w := w |} /\ region st' = region st /\
    disk st' = disk st /\ calls st' = CallTeeReader :: calls st).
Proof. unfold post, TeeReader, bind, call, ret. simpl. auto. Qed.

(** What [Copy] does to the disk: it appends some bytes to the
    destination; when it reports no error these are the whole stream,
    which was read without error and has gone through the hash. *)
Lemma Copy_outcome (dst : string) (src : teeReader) (st : State) :
  post (Copy env dst src) st (fun c st' =>
    exists p, disk st' = alter (appendTo p) dst (disk st) /\
      (snd (fst c) = None ->
       rerr (tee_r src) = None /\ p = rdata (tee_r src) /\
       snd c = md5.Write (tee_w src) (rdata (tee_r src)))).
Proof.
  unfold post, Copy, bind, call, setDisk, ret. simpl.
  destruct (fs_fault env (calls st) (CallCopy dst)) as [e |]; simpl.
  - eexists. split; [reflexivity | discriminate].
  - eexists. split; [reflexivity |]. auto.
Qed.

(** A failed [Rename] changes nothing on the disk; a successful one moves
    the file. *)
Lemma Rename_outcome (oldpath newpath : string) (st : State) :
  post (Rename env oldpath newpath) st (fun r st' =>
    calls st' = CallRename oldpath newpath :: calls st /\
    match r with
    | Some e =>
      disk st' = disk st /\
      (fs_fault env (calls st) (CallRename oldpath newpath) = Some e \/
       disk st !! oldpath = None)
    | None =>
      fs_fault env (calls st) (CallRename oldpath newpath) = None /\
      exists f, disk st !! oldpath = Some f /\
                disk st' = <[newpath := f]> (delete oldpath (disk st))
    end).
Proof.
  unfold post, Rename, bind, call, getDisk, setDisk, ret. simpl.
  destruct (fs_fault env (calls st) (CallRename oldpath newpath)) as [e |]; simpl.
  { split; [reflexivity |]. split; [reflexivity | left; reflexivity]. }
  destruct (disk st !! oldpath) as [f |] eqn:E; simpl.
  - split; [reflexivity |]. split; [reflexivity |]. exists f. split; reflexivity.
  - split; [reflexivity |]. split; [reflexivity | right; reflexivity].
Qed.

(** A failed [Remove] changes nothing on the disk; it fails when the
    call is made to fail or the file is absent. *)
Lemma Remove_outcome (name : string) (st : State) :
  post (Remove env name) st (fun r st' =>
    calls st' = CallRemove name :: calls st /\
    match r with
    | Some _ =>
      disk st' = disk st /\
      (fs_fault env (calls st) (CallRemove name) <> None \/ disk st !! name = None)
    | None =>
      fs_fault env (calls st) (CallRemove name) = None /\
      disk st' = delete name (disk st)
    end).
Proof.
  unfold post, Remove, bind, call, getDisk, setDisk, ret. simpl.
  destruct (fs_fault env (calls st) (CallRemove name)) as [e |] eqn:F; simpl.
  { split; [reflexivity |]. split; [reflexivity |]. left. discriminate. }
  destruct (disk st !! name) as [f |] eqn:E; simpl.
  - split; [reflexivity |]. split; reflexivity.
  - split; [reflexivity |]. split; [reflexivity |]. right. reflexivity.
Qed.

(** The three ways [downloadBody] ends, from a state in which the
    temporary file [t] is new: with an error that the cleanup will see;
    with a failed rename, which it will not; or with the rename done. *)
Lemma downloadBody_outcome (sum : string) (body : Reader) (t : string)
    (st : State) (mode0 : Z) :
  disk st !! t = Some {| data := []; mode := mode0 |} ->
  post (downloadBody env config sum body t) st (fun b st' =>
    (exists e p, b = (Some e, Some e) /\
                 disk st' = <[t := {| data := p; mode := mode0 |}]> (disk st)) \/
    (exists e h, b = (Some e, None) /\
                 calls st' = CallRename t (AgentTarball config) :: h /\
                 fs_fault env h (CallRename t (AgentTarball config)) = Some e /\
                 disk st' = <[t := {| data := rdata body; mode := mode0 |}]> (disk st)) \/
    (b = (None, None) /\ rerr body = None /\
     sum = fmt.Sprintf_x (md5.Sum (rdata body)) /\
     disk st'
     = <[AgentTarball config := {| data := rdata body; mode := mode0 |}]>
         (delete t (disk st)))).
Proof.
  intros Ht. unfold downloadBody. apply post_bind.
  eapply post_mono; [apply TeeReader_outcome |].
  intros tr st0 (-> & _ & Hd0 & _).
  apply post_bind. eapply post_mono; [apply Copy_outcome |].
  intros [[n err] h] st1 (p & Hd1 & Hok). cbn [fst snd tee_r tee_w] in Hok.
  rewrite Hd0 in Hd1.
  rewrite (alter_alt_Some _ _ _ _ Ht) in Hd1. change (appendTo p {| data := []; mode := mode0 |}) with {| data := p; mode := mode0 |} in Hd1.
  destruct err as [e |].
  { apply post_ret. left. exists e, p. split; [reflexivity | exact Hd1]. }
  destruct (Hok eq_refl) as (Hr & -> & ->).
  apply post_bind. eapply post_mono; [apply getRegion_post |].
  intros r0 st2 (_ & Hd2 & _). rewrite Hd1 in Hd2.
  change (md5.digestSum (md5.Write md5.New (rdata body))) with (md5.Sum (rdata body)).
  destruct (String.eqb sum (fmt.Sprintf_x (md5.Sum (rdata body)))) eqn:Q; cbn [negb].
  2:{ apply post_ret. left. eexists _, _. split; [reflexivity | exact Hd2]. }
  apply String.eqb_eq in Q.
  apply post_bind. eapply post_mono; [apply Rename_outcome |].
  intros r st3 (Hc3 & H3). apply post_ret. destruct r as [e |].
  - destruct H3 as (Hd3 & [F | F]).
    2:{ rewrite Hd2, lookup_insert_eq in F. discriminate. }
    right. left. exists e, (calls st2). split; [reflexivity |].
    split; [exact Hc3 |]. split; [exact F | congruence].
  - destruct H3 as (_ & f & Hf & Hd3). right. right.
    split; [reflexivity |]. split; [exact Hr |]. split; [exact Q |].
    rewrite Hd2, lookup_insert_eq in Hf. inversion Hf; subst f.
    rewrite Hd3, Hd2, delete_insert_eq. reflexivity.
Qed.

(** All the ways [DownloadAgent] ends, in any environment. On success
    the disk differs from the one before only at the tarball path, which
    holds a served artifact whose digest is a served checksum. On
    failure the disk is as before, or differs only by one new file: the
    temporary file, left by a rename or a remove that failed. *)
Lemma DownloadAgent_outcomes (st : State) :
  post (DownloadAgent env config) st (fun res st' =>
    match res with
    | None =>
      exists body m,
        disk st' = <[AgentTarball config := {| data := rdata body; mode := m |}]> (disk st) /\
        rerr body = None /\
        deliveredBy env config body /\
        publishedBy env config (fmt.Sprintf_x (md5.Sum (rdata body)))
    | Some e =>
      disk st' = disk st \/
      exists t f h,
        disk st !! t = None /\
        disk st' = <[t := f]> (disk st) /\
        (calls st' = CallRename t (AgentTarball config) :: h /\
         fs_fault env h (CallRename t (AgentTarball config)) = Some e \/
         calls st' = CallRemove t :: h /\ fs_fault env h (CallRemove t) <> None)
    end).
Proof.
  unfold DownloadAgent.
  apply post_bind. eapply post_mono; [apply MkdirAll_post |].
  intros e0 st0 (_ & _ & Hd0 & _). destruct e0 as [e |].
  { apply post_ret. left. exact Hd0. }
  apply post_bind. eapply post_mono; [apply getPublishedMd5Sum_served |].
  intros r1 st1 (Hd1 & Hsum). destruct r1 as [sum | e].
  2:{ apply post_ret. left. congruence. }
  specialize (Hsum sum eq_refl).
  apply post_bind. eapply post_mono; [apply getPublishedTarball_served |].
  intros r2 st2 (Hd2 & Hbody). destruct r2 as [body | e].
  2:{ apply post_ret. left. congruence. }
  specialize (Hbody body eq_refl).
  apply post_bind. eapply post_mono; [apply TempFile_post |].
  intros r3 st3 (_ & _ & H3). destruct r3 as [t | e].
  2:{ apply post_ret. left. congruence. }
  destruct H3 as (Hnone & Hd3 & _).
  assert (disk st2 = disk st) as Hd by congruence. rewrite Hd in Hnone, Hd3.
  set (m := Z.ldiff 384 (fs_umask env)) in *.
  assert (disk st3 !! t = Some {| data := []; mode := m |}) as Ht
    by (rewrite Hd3; apply lookup_insert_eq).
  apply post_bind. eapply post_mono; [apply (downloadBody_outcome _ _ _ _ m Ht) |].
  intros b st4 [(e & p & -> & Hd4) | [(e & h & -> & Hc4 & Hf4 & Hd4) | (-> & Hr & Hs & Hd4)]];
    rewrite Hd3 in Hd4.
  - (* an error the cleanup sees *)
    rewrite insert_insert_eq in Hd4.
    apply post_bind. apply post_bind.
    eapply post_mono; [apply Remove_outcome |].
    intros r5 st5 (Hc5 & H5). do 2 apply post_ret. destruct r5 as [e' |].
    + destruct H5 as (Hd5 & [F | F]).
      * right. exists t, {| data := p; mode := m |}, (calls st4).
        split; [exact Hnone |]. split; [congruence |]. right.
        split; [exact Hc5 | exact F].
      * rewrite Hd4, lookup_insert_eq in F. discriminate.
    + destruct H5 as (_ & Hd5). left.
      rewrite Hd5, Hd4, delete_insert_eq. apply delete_id, Hnone.
  - (* the rename failed *)
    rewrite insert_insert_eq in Hd4.
    apply post_bind. do 2 apply post_ret.
    right. exists t, {| data := rdata body; mode := m |}, h.
    split; [exact Hnone |]. split; [exact Hd4 |]. left. split; assumption.
  - (* promoted *)
    apply post_bind. do 2 apply post_ret.
    exists body, m. split; [| split; [exact Hr |]; split; [exact Hbody |]].
    + rewrite Hd4, delete_insert_eq, (delete_id _ _ Hnone). reflexivity.
    + rewrite <- Hs. exact Hsum.
Qed.


(** X1. Whenever [DownloadAgent] returns [nil], in any environment, the
    agent tarball holds the body of a response that the store gave to an
    artifact request with status 200 and that was read to its end
    without error, and the lower-case hexadecimal MD5 digest of these
    bytes is the trimmed body of a response the store gave to a checksum
    request; nothing else on the disk has changed. *)
Theorem DownloadAgent_success_sound (st st' : State) :
  DownloadAgent env config st = (None, st') ->
  exists body m,
    disk st' = <[AgentTarball config := {| data := rdata body; mode := m |}]> (disk st) /\
    rerr body = None /\
    deliveredBy env config body /\
    publishedBy env config (fmt.Sprintf_x (md5.Sum (rdata body))).
Proof.
  intros Hrun. exact (post_eq _ _ _ _ _ Hrun (DownloadAgent_outcomes st)).
Qed.

(** X2. Whenever [DownloadAgent] returns an error, in any environment,
    the disk is as it was before, or it has exactly one file more: the
    temporary file, which is left behind only when the last call was the
    rename, which failed with the error returned, or the cleanup's
    remove, which failed. *)
Theorem DownloadAgent_failure_disk (st st' : State) (e : error) :
  DownloadAgent env config st = (Some e, st') ->
  disk st' = disk st \/
  exists t f h,
    disk st !! t = None /\
    disk st' = <[t := f]> (disk st) /\
    (calls st' = CallRename t (AgentTarball config) :: h /\
     fs_fault env h (CallRename t (AgentTarball config)) = Some e \/
     calls st' = CallRemove t :: h /\ fs_fault env h (CallRemove t) <> None).
Proof.
  intros Hrun. exact (post_eq _ _ _ _ _ Hrun (DownloadAgent_outcomes st)).
Qed.

(** X3. A download that fails, for whatever reason, damages nothing:
    every file that was on the disk is still there with the same
    content and mode, so that [LoadCachedAgent] still opens the agent
    that was cached before. *)
Theorem DownloadAgent_failure_keeps_cache (st st' : State) (e : error) :
  DownloadAgent env config st = (Some e, st') ->
  (forall k f, disk st !! k = Some f -> disk st' !! k = Some f) /\
  forall env' f,
    disk st !! AgentTarball config = Some f ->
    fs_fault env' (calls st') (CallOpen (AgentTarball config)) = None ->
    fst (LoadCachedAgent env' config st') = Ok {| rdata := data f; rerr := None |}.
Proof.
  intros Hrun.
  assert (forall k f, disk st !! k = Some f -> disk st' !! k = Some f) as Hkeep.
  { intros k f Hk.
    destruct (post_eq _ _ _ _ _ Hrun (DownloadAgent_outcomes st))
      as [-> | (t & g & h & Hnone & -> & _)]; [exact Hk |].
    rewrite lookup_insert_ne; [exact Hk |]. intros ->. congruence. }
  split; [exact Hkeep |]. intros env' f Hf Hopen.
  unfold LoadCachedAgent, Open, bind, call, getDisk, ret.
  cbn [fst snd calls disk region]. rewrite Hopen, (Hkeep _ _ Hf). reflexivity.
Qed.

(** X4. Download and load compose: after a [DownloadAgent] that returned
    [nil], [LoadCachedAgent] (when its open does not fail) returns
    exactly a stream that the store delivered with status 200 and whose
    digest the store published. *)
Theorem DownloadAgent_then_LoadCachedAgent (env' : Env) (st st' : State) :
  DownloadAgent env config st = (None, st') ->
  fs_fault env' (calls st') (CallOpen (AgentTarball config)) = None ->
  exists body,
    fst (LoadCachedAgent env' config st') = Ok body /\
    rerr body = None /\
    deliveredBy env config body /\
    publishedBy env config (fmt.Sprintf_x (md5.Sum (rdata body))).
Proof.
  intros Hrun Hopen.
  destruct (post_eq _ _ _ _ _ Hrun (DownloadAgent_outcomes st))
    as (body & m & Hd & Hr & Hdel & Hpub).
  exists body. split; [| auto].
  unfold LoadCachedAgent, Open, bind, call, getDisk, ret.
  cbn [fst snd calls disk region]. rewrite Hopen, Hd, lookup_insert_eq.
  cbn [fst data]. destruct body as [d r]. cbn [rerr rdata] in *. rewrite Hr. reflexivity.
Qed.

(** *** The form of the digest *)

Lemma hexDigits_lower (c : byte) :
  isLowerHex (fmt.hexDigit (Z.shiftr (md5.byteZ c) 4)) = true /\
  isLowerHex (fmt.hexDigit (Z.land (md5.byteZ c) 15)) = true.
Proof. destruct c; split; vm_compute; reflexivity. Qed.

Lemma Sprintf_x_lower (b : list byte) :
  String.length (fmt.Sprintf_x b) = (2 * length b)%nat /\
  forallb isLowerHex (String.list_ascii_of_string (fmt.Sprintf_x b)) = true.
Proof.
  induction b as [| c b [IH1 IH2]]; [split; reflexivity |].
  destruct (hexDigits_lower c) as [H1 H2].
  cbn [fmt.Sprintf_x String.length String.list_ascii_of_string forallb length].
  rewrite IH1, H1, H2, IH2. split; [lia | reflexivity].
Qed.

Lemma putLE_length (k : nat) (n : Z) : length (md5.putLE k n) = k.
Proof.
  revert n. induction k as [| k IH]; intros n; [reflexivity |].
  cbn [md5.putLE length]. rewrite IH. reflexivity.
Qed.

Lemma Sum_length (p : list byte) : length (md5.Sum p) = md5.Size.
Proof.
  unfold md5.Sum.
  destruct (md5.blocks _ md5.init _) as [[[a b] c] d].
  rewrite !length_app, !putLE_length. reflexivity.
Qed.

(** The digest string that is compared with the manifest is always 32
    lower-case hexadecimal digits. *)
Lemma digest_hex32 (p : list byte) : hex32 (fmt.Sprintf_x (md5.Sum p)) = true.
Proof.
  unfold hex32. destruct (Sprintf_x_lower (md5.Sum p)) as [H1 H2].
  rewrite H1, H2, Sum_length. reflexivity.
Qed.

(** X5. The manifest must be the bare digest: a download can only
    succeed when a checksum response trims to exactly 32 lower-case
    hexadecimal digits. When nothing the store answers to checksum
    requests has that form (an upper-case digest, or the usual
    [md5sum] line with a file name), [DownloadAgent] returns an error
    whatever the artifact is. *)
Theorem DownloadAgent_manifest_form (st : State) :
  (forall sum, publishedBy env config sum -> hex32 sum = false) ->
  fst (DownloadAgent env config st) <> None.
Proof.
  intros Hform Hnone.
  destruct (DownloadAgent env config st) as [res st'] eqn:Hrun.
  cbn [fst] in Hnone. subst res.
  destruct (post_eq _ _ _ _ _ Hrun (DownloadAgent_outcomes st))
    as (body & m & _ & _ & _ & Hpub).
  apply Hform in Hpub. rewrite digest_hex32 in Hpub. discriminate.
Qed.

(** *** Runs with a store that answers *)

Lemma getRegion_run (st : State) (r : string) :
  resolvesTo env config st r ->
  exists st1,
    getRegion env config st = (r, st1) /\
    resolvesTo env config st1 r /\ disk st1 = disk st /\ extends benign st st1.
Proof.
  intros Hres. pose proof (getRegion_post env config st) as Hp.
  destruct (getRegion env config st) as [r0 st1] eqn:G.
  apply (post_eq _ _ _ _ _ G) in Hp. destruct Hp as (_ & Hd & Hx & _ & Hr).
  destruct (Hr r Hres) as [-> Hres1]. exists st1. auto.
Qed.

Lemma getPublishedMd5Sum_run (st : State) (r : string) (manifest : list byte) :
  resolvesTo env config st r ->
  servesManifest env config r manifest ->
  exists st1,
    getPublishedMd5Sum env config st
    = (Ok (strings.TrimSpace (String.string_of_list_byte manifest)), st1) /\
    resolvesTo env config st1 r /\ disk st1 = disk st /\ extends benign st st1.
Proof.
  intros Hres Hm. destruct (getRegion_run st r Hres) as (st0 & G & Hres0 & Hd0 & Hx0).
  destruct (Hm (calls st0)) as [code Hget].
  exists {| region := region st0; disk := disk st0;
            calls := CallReadAll :: CallGet (AgentRemoteTarballMD5 config r) :: calls st0 |}.
  split; [| split; [| split]].
  - unfold getPublishedMd5Sum. rewrite (bind_run _ _ _ _ _ G).
    unfold Get, ReadAll, bind, call, ret. cbn [fst snd calls disk region].
    rewrite Hget. reflexivity.
  - apply (resolvesTo_region env config st0); [reflexivity | exact Hres0].
  - exact Hd0.
  - eapply extends_trans; [exact Hx0 |].
    exists [CallReadAll; CallGet (AgentRemoteTarballMD5 config r)].
    split; [reflexivity | repeat constructor].
Qed.

Lemma getPublishedTarball_run (st : State) (r : string) (code : Z) (body : Reader) :
  resolvesTo env config st r ->
  servesArtifact env config r code body ->
  exists st1,
    getPublishedTarball env config st
    = (if negb (code =? http.StatusOK)
       then Err (errorString ("unexpected response code " +:+ fmt.Sprintf_d code))
       else Ok body, st1) /\
    resolvesTo env config st1 r /\ disk st1 = disk st /\ extends benign st st1 /\
    head (calls st1) = Some (CallGet (AgentRemoteTarball config r)).
Proof.
  intros Hres Ha. destruct (getRegion_run st r Hres) as (st0 & G & Hres0 & Hd0 & Hx0).
  exists {| region := region st0; disk := disk st0;
            calls := CallGet (AgentRemoteTarball config r) :: calls st0 |}.
  split; [| split; [| split; [| split]]].
  - unfold getPublishedTarball. rewrite (bind_run _ _ _ _ _ G).
    unfold Get, bind, call, ret. cbn [fst snd calls disk region].
    rewrite (Ha (calls st0)). cbn [StatusCode Body].
    destruct (negb (code =? http.StatusOK)); reflexivity.
  - apply (resolvesTo_region env config st0); [reflexivity | exact Hres0].
  - exact Hd0.
  - eapply extends_trans; [exact Hx0 |].
    apply (extends_cons benign _ _ (CallGet (AgentRemoteTarball config r)));
      [exact I | reflexivity].
  - reflexivity.
Qed.

Lemma MkdirAll_run (path : string) (perm : Z) (st : State) :
  MkdirAll env path perm st
  = (fs_fault env (calls st) (CallMkdirAll path perm), logged (CallMkdirAll path perm) st).
Proof. reflexivity. Qed.

(** X6. When the store answers the artifact request with a status other
    than 200, [DownloadAgent] returns the error [unexpected response
    code <status>]; the artifact request is the last call made, so no
    temporary file is created and the disk is as it was. *)
Theorem DownloadAgent_artifact_status (st : State) (r : string)
    (manifest : list byte) (code : Z) (body : Reader) :
  fs_fault env (calls st)
           (CallMkdirAll (CacheDirectory config) (Z.lor os.ModeDir orwPerm)) = None ->
  resolvesTo env config st r ->
  servesManifest env config r manifest ->
  servesArtifact env config r code body ->
  code <> http.StatusOK ->
  exists st',
    DownloadAgent env config st
    = (Some (errorString ("unexpected response code " +:+ fmt.Sprintf_d code)), st') /\
    head (calls st') = Some (CallGet (AgentRemoteTarball config r)) /\
    disk st' = disk st.
Proof.
  intros Hmk Hres Hm Ha Hcode.
  set (st0 := logged (CallMkdirAll (CacheDirectory config) (Z.lor os.ModeDir orwPerm)) st).
  destruct (getPublishedMd5Sum_run st0 r manifest) as (st1 & R1 & Hres1 & Hd1 & _);
    [apply (resolvesTo_region env config st); [reflexivity | exact Hres] | exact Hm |].
  destruct (getPublishedTarball_run st1 r code body Hres1 Ha)
    as (st2 & R2 & _ & Hd2 & _ & Hhead).
  apply Z.eqb_neq in Hcode. rewrite Hcode in R2. cbn [negb] in R2.
  exists st2. split; [| split; [exact Hhead | rewrite Hd2, Hd1; reflexivity]].
  unfold DownloadAgent.
  rewrite (bind_run _ _ _ _ _ (MkdirAll_run _ _ st)), Hmk.
  fold st0. rewrite (bind_run _ _ _ _ _ R1), (bind_run _ _ _ _ _ R2). reflexivity.
Qed.

(** The start of a download with a store that answers both requests,
    the artifact with status 200: a new empty temporary file [t] is
    created, and what is left is the copy, the check and the cleanup. *)
Lemma DownloadAgent_opened (st : State) (r : string) (manifest : list byte)
    (body : Reader) :
  fs_fault env (calls st)
           (CallMkdirAll (CacheDirectory config) (Z.lor os.ModeDir orwPerm)) = None ->
  (forall h, fs_fault env h (CallTempFile (CacheDirectory config) "ecs-agent.tar") = None) ->
  resolvesTo env config st r ->
  servesManifest env config r manifest ->
  servesArtifact env config r http.StatusOK body ->
  tempAvailable env config st ->
  exists t st1,
    disk st !! t = None /\
    disk st1 = <[t := {| data := []; mode := Z.ldiff 384 (fs_umask env) |}]> (disk st) /\
    resolvesTo env config st1 r /\
    extends benign st st1 /\
    (exists h i, t = fs_tempname env h (CacheDirectory config) "ecs-agent.tar" i) /\
    DownloadAgent env config st
    = (b <~ downloadBody env config
              (strings.TrimSpace (String.string_of_list_byte manifest)) body t ;;
       let '(returned, err) := b in
       _ <~ match err with
            | Some _ => _ <~ Remove env t ;; ret tt
            | None => ret tt
            end ;;
       ret returned) st1.
Proof.
  intros Hmk Htf Hres Hm Ha Htemp.
  set (st0 := logged (CallMkdirAll (CacheDirectory config) (Z.lor os.ModeDir orwPerm)) st).
  assert (extends benign st st0) as Hx0.
  { apply (extends_cons benign _ _
             (CallMkdirAll (CacheDirectory config) (Z.lor os.ModeDir orwPerm)));
      [exact I | reflexivity]. }
  destruct (getPublishedMd5Sum_run st0 r manifest) as (st1 & R1 & Hres1 & Hd1 & Hx1);
    [apply (resolvesTo_region env config st); [reflexivity | exact Hres] | exact Hm |].
  destruct (getPublishedTarball_run st1 r http.StatusOK body Hres1 Ha)
    as (st2 & R2 & Hres2 & Hd2 & Hx2 & _).
  cbn [Z.eqb http.StatusOK negb] in R2.
  change (negb (http.StatusOK =? http.StatusOK)) with false in R2. cbn iota in R2.
  pose proof (TempFile_post env (CacheDirectory config) "ecs-agent.tar" st2) as P3.
  destruct (TempFile_ok env (CacheDirectory config) "ecs-agent.tar" st2) as [t Ht].
  { apply Htf. }
  { destruct (Htemp (calls st2)) as (i & Hi & Hfree). exists i.
    split; [exact Hi |]. rewrite Hd2, Hd1. exact Hfree. }
  destruct (TempFile env (CacheDirectory config) "ecs-agent.tar" st2)
    as [res st3] eqn:R3.
  cbn [fst] in Ht. subst res.
  apply (post_eq _ _ _ _ _ R3) in P3. destruct P3 as (Hr3 & Hx3 & Hnone & Hd3 & Hname).
  exists t, st3. split; [rewrite Hd2, Hd1 in Hnone; exact Hnone |].
  split; [rewrite Hd3, Hd2, Hd1; reflexivity |].
  split; [apply (resolvesTo_region env config st2); assumption |].
  split; [| split; [exact Hname |]].
  - eapply extends_trans; [exact Hx0 |]. eapply extends_trans; [exact Hx1 |].
    eapply extends_trans; [exact Hx2 | exact Hx3].
  - unfold DownloadAgent.
    rewrite (bind_run _ _ _ _ _ (MkdirAll_run _ _ st)), Hmk.
    fold st0. rewrite (bind_run _ _ _ _ _ R1), (bind_run _ _ _ _ _ R2).
    rewrite (bind_run _ _ _ _ _ R3). reflexivity.
Qed.

(** X7. When the artifact stream breaks off with a read error, the
    filesystem working, [DownloadAgent] returns that error, whatever the
    bytes received and whatever the manifest says; the temporary file
    that received them is removed by the last call, and the disk is as
    it was. *)
Theorem DownloadAgent_stream_error (st : State) (r : string)
    (manifest : list byte) (body : Reader) (e : error) :
  noFault env ->
  resolvesTo env config st r ->
  servesManifest env config r manifest ->
  servesArtifact env config r http.StatusOK body ->
  rerr body = Some e ->
  tempAvailable env config st ->
  exists st' t,
    DownloadAgent env config st = (Some e, st') /\
    disk st !! t = None /\
    CallCopy t ∈ calls st' /\
    head (calls st') = Some (CallRemove t) /\
    disk st' = disk st.
Proof.
  intros Hfs Hres Hm Ha Hr Htemp.
  destruct (DownloadAgent_opened st r manifest body) as
    (t & st1 & Hnone & Hd1 & _ & _ & _ & Hrun); try assumption; try (intros; apply Hfs).
  assert (disk st1 !! t = Some {| data := []; mode := Z.ldiff 384 (fs_umask env) |}) as Ht
    by (rewrite Hd1; apply lookup_insert_eq).
  exists {| region := region st1;
            disk := delete t (alter (appendTo (rdata body)) t (disk st1));
            calls := CallRemove t :: CallCopy t :: CallTeeReader :: calls st1 |}, t.
  split; [| split; [exact Hnone |]; split; [| split; [reflexivity |]]].
  - rewrite Hrun.
    unfold downloadBody, TeeReader, Copy, Remove, bind, call, getDisk, setDisk, ret.
    cbn [fst snd calls disk region tee_r tee_w].
    rewrite Hfs. cbn [fst snd calls disk region tee_r tee_w]. rewrite Hr.
    cbn [fst snd calls disk region]. rewrite Hfs.
    rewrite (alter_alt_Some _ _ _ _ Ht), lookup_insert_eq. reflexivity.
  - cbn [calls]. apply elem_of_cons. right. apply elem_of_cons. left. reflexivity.
  - cbn [disk]. rewrite (alter_alt_Some _ _ _ _ Ht), delete_insert_eq, Hd1, delete_insert_eq.
    apply delete_id, Hnone.
Qed.

(** X8. The cleanup's own failure is swallowed: when the checksums
    differ and the remove of the temporary file fails, nothing else
    failing, [DownloadAgent] still returns the mismatch error, not the
    error of the remove, and the temporary file stays on the disk with
    the whole rejected stream in it. *)
Theorem DownloadAgent_cleanup_fails (st : State) (r : string)
    (manifest bytes : list byte) :
  (forall h ev, notRemove ev -> fs_fault env h ev = None) ->
  (forall h name, fs_fault env h (CallRemove name) <> None) ->
  resolvesTo env config st r ->
  serves env config r manifest bytes ->
  tempAvailable env config st ->
  fmt.Sprintf_x (md5.Sum bytes)
  <> strings.TrimSpace (String.string_of_list_byte manifest) ->
  exists st' t,
    DownloadAgent env config st = (Some (mismatch config r), st') /\
    head (calls st') = Some (CallRemove t) /\
    disk st !! t = None /\
    disk st' = <[t := {| data := bytes; mode := Z.ldiff 384 (fs_umask env) |}]> (disk st).
Proof.
  intros Hfs Hrm Hres [Hm Ha] Htemp Hsum.
  destruct (DownloadAgent_opened st r manifest {| rdata := bytes; rerr := None |}) as
    (t & st1 & Hnone & Hd1 & Hres1 & _ & _ & Hrun); try assumption;
    try (intros; apply Hfs; exact I).
  destruct (downloadBody_copied env config
              (strings.TrimSpace (String.string_of_list_byte manifest))
              bytes t st1 r (Z.ldiff 384 (fs_umask env)))
    as (st2 & _ & Hd2 & _ & _ & Hbody); [| exact Hres1 | |].
  { intros h. apply Hfs. exact I. }
  { rewrite Hd1. apply lookup_insert_eq. }
  assert (String.eqb (strings.TrimSpace (String.string_of_list_byte manifest))
                     (fmt.Sprintf_x (md5.Sum bytes)) = false) as Hneq
    by (apply String.eqb_neq; congruence).
  rewrite Hneq in Hbody. cbn [negb] in Hbody.
  rewrite Hd1, insert_insert_eq in Hd2.
  destruct (fs_fault env (calls st2) (CallRemove t)) as [e' |] eqn:F;
    [| exfalso; exact (Hrm _ _ F)].
  exists {| region := region st2; disk := disk st2; calls := CallRemove t :: calls st2 |}, t.
  split; [| split; [reflexivity |]; split; [exact Hnone | exact Hd2]].
  rewrite Hrun. unfold bind at 1. rewrite Hbody.
  unfold Remove, bind, call, getDisk, setDisk, ret.
  cbn [fst snd calls disk region]. rewrite F. reflexivity.
Qed.

(** A verified download, with the region it leaves resolved. *)
Lemma DownloadAgent_promoted (st : State) (r : string) (manifest bytes : list byte) :
  noFault env ->
  resolvesTo env config st r ->
  serves env config r manifest bytes ->
  tempAvailable env config st ->
  fmt.Sprintf_x (md5.Sum bytes)
  = strings.TrimSpace (String.string_of_list_byte manifest) ->
  exists st',
    DownloadAgent env config st = (None, st') /\
    resolvesTo env config st' r /\
    disk st'
    = <[AgentTarball config :=
          {| data := bytes; mode := Z.ldiff 384 (fs_umask env) |}]> (disk st).
Proof.
  intros Hfs Hres [Hm Ha] Htemp Hsum.
  destruct (DownloadAgent_opened st r manifest {| rdata := bytes; rerr := None |}) as
    (t & st1 & Hnone & Hd1 & Hres1 & _ & _ & Hrun); try assumption;
    try (intros; apply Hfs).
  destruct (downloadBody_copied env config
              (strings.TrimSpace (String.string_of_list_byte manifest))
              bytes t st1 r (Z.ldiff 384 (fs_umask env)))
    as (st2 & Hres2 & Hd2 & _ & _ & Hbody); [| exact Hres1 | |].
  { intros h. apply Hfs. }
  { rewrite Hd1. apply lookup_insert_eq. }
  rewrite Hsum, String.eqb_refl in Hbody. cbn [negb] in Hbody.
  rewrite Hd1, insert_insert_eq in Hd2.
  exists {| region := region st2;
            disk := <[AgentTarball config :=
                        {| data := bytes; mode := Z.ldiff 384 (fs_umask env) |}]>
                      (delete t (disk st2));
            calls := CallRename t (AgentTarball config) :: calls st2 |}.
  split; [| split].
  - rewrite Hrun. unfold bind at 1. rewrite Hbody.
    unfold Rename, bind, call, getDisk, setDisk, ret.
    cbn [fst snd calls disk region]. rewrite Hfs, Hd2, lookup_insert_eq. reflexivity.
  - apply (resolvesTo_region env config st2); [reflexivity | exact Hres2].
  - cbn [disk]. rewrite Hd2, delete_insert_eq, (delete_id _ _ Hnone). reflexivity.
Qed.

(** X9. Downloading is idempotent: with a working filesystem and a store
    that keeps serving the same manifest and artifact, a second
    [DownloadAgent] after a successful one succeeds too and leaves the
    disk exactly as the first one left it, with no stray temporary
    file. The layout is assumed not to draw the tarball path itself as a
    temporary name. *)
Theorem DownloadAgent_twice (st : State) (r : string) (manifest bytes : list byte) :
  noFault env ->
  resolvesTo env config st r ->
  serves env config r manifest bytes ->
  tempAvailable env config st ->
  (forall h i,
      fs_tempname env h (CacheDirectory config) "ecs-agent.tar" i
      <> AgentTarball config) ->
  fmt.Sprintf_x (md5.Sum bytes)
  = strings.TrimSpace (String.string_of_list_byte manifest) ->
  exists st1 st2,
    DownloadAgent env config st = (None, st1) /\
    DownloadAgent env config st1 = (None, st2) /\
    disk st1
    = <[AgentTarball config :=
          {| data := bytes; mode := Z.ldiff 384 (fs_umask env) |}]> (disk st) /\
    disk st2 = disk st1.
Proof.
  intros Hfs Hres Hserve Htemp Hname Hsum.
  destruct (DownloadAgent_promoted st r manifest bytes) as (st1 & R1 & Hres1 & Hd1);
    try assumption.
  destruct (DownloadAgent_promoted st1 r manifest bytes) as (st2 & R2 & _ & Hd2);
    try assumption.
  { intros h. destruct (Htemp h) as (i & Hi & Hfree). exists i.
    split; [exact Hi |]. rewrite Hd1, lookup_insert_ne; [exact Hfree |].
    intros E. exact (Hname h i (eq_sym E)). }
  exists st1, st2. split; [exact R1 |]. split; [exact R2 |].
  split; [exact Hd1 |].
  rewrite Hd2, Hd1. apply insert_insert_eq.
Qed.

(** *** The region of a download *)

Lemma regionKept_refl (r : string) (st : State) : regionKept config r st st.
Proof. exists []. split; [reflexivity |]. split; [constructor | left; auto]. Qed.

(** A call that is not a metadata call and leaves the [region] field
    alone keeps [regionKept]. *)
Lemma regionKept_step (r : string) (st0 st st' : State) (ev : event) :
  regionKept config r st0 st ->
  calls st' = ev :: calls st ->
  region st' = region st ->
  requestsFor config r ev ->
  ev <> CallRegion ->
  regionKept config r st0 st'.
Proof.
  intros (new & Hc & Hf & Hr) Hc' Hr' Hev Hne. exists (ev :: new).
  split; [rewrite Hc', Hc; reflexivity |]. split; [constructor; assumption |].
  assert (metadataCalls (ev :: new) = metadataCalls new) as ->
    by (destruct ev; try reflexivity; contradiction).
  rewrite Hr'. exact Hr.
Qed.

Lemma getRegion_eq (st : State) :
  getRegion env config st
  = if String.eqb (region st) "" then
      let r := match metadata_Region env (calls st) with
               | Ok x => x
               | Err _ => DefaultRegionName config
               end in
      (r, {| region := r; disk := disk st; calls := CallRegion :: calls st |})
    else (region st, st).
Proof.
  unfold getRegion, metadata_call, getField, setRegion, call, bind, ret.
  destruct (String.eqb (region st) ""); reflexivity.
Qed.

Lemma getRegion_kept (r : string) (st0 st : State) :
  resolvesTo env config st0 r -> r <> "" ->
  regionKept config r st0 st ->
  post (getRegion env config) st (fun x st' =>
    x = r /\ regionKept config r st0 st' /\ disk st' = disk st).
Proof.
  intros Hres Hr (new & Hc & Hf & Hk).
  unfold post. rewrite getRegion_eq.
  destruct (String.eqb (region st) "") eqn:E; cbn [fst snd].
  - apply String.eqb_eq in E.
    destruct Hk as [[Hsame Hn] | (_ & Hreg & _)]; [| congruence].
    destruct Hres as [[H0 _] | [H0 Hmeta]]; [congruence |].
    rewrite (Hmeta (calls st)). split; [reflexivity |]. split; [| reflexivity].
    exists (CallRegion :: new). cbn [calls region metadataCalls].
    split; [rewrite Hc; reflexivity |]. split; [constructor; [exact I | exact Hf] |].
    right. rewrite Hn. auto.
  - apply String.eqb_neq in E. split; [| split; [| reflexivity]].
    + destruct Hk as [[Hsame _] | (_ & Hreg & _)]; [| exact Hreg].
      destruct Hres as [[H0 _] | [H0 _]]; congruence.
    + exists new. auto.
Qed.

Lemma getPublishedMd5Sum_kept (r : string) (st0 st : State) :
  resolvesTo env config st0 r -> r <> "" ->
  regionKept config r st0 st ->
  post (getPublishedMd5Sum env config) st (fun _ st' => regionKept config r st0 st').
Proof.
  intros Hres Hr Hk. unfold getPublishedMd5Sum. apply post_bind.
  eapply post_mono; [apply (getRegion_kept r st0 st Hres Hr Hk) |].
  intros x st1 (-> & Hk1 & _).
  unfold post, Get, ReadAll, bind, call, ret. cbn [fst snd calls disk region].
  set (st2 := logged (CallGet (AgentRemoteTarballMD5 config r)) st1).
  assert (regionKept config r st0 st2) as Hk2.
  { apply (regionKept_step r st0 st1 st2 (CallGet (AgentRemoteTarballMD5 config r)));
      [exact Hk1 | reflexivity | reflexivity | left; reflexivity | discriminate]. }
  destruct (getter_Get env (calls st1) (AgentRemoteTarballMD5 config r)) as [resp | e];
    cbn [fst snd calls disk region]; [| exact Hk2].
  assert (regionKept config r st0 (logged CallReadAll st2)) as Hk3.
  { apply (regionKept_step r st0 st2 _ CallReadAll);
      [exact Hk2 | reflexivity | reflexivity | exact I | discriminate]. }
  destruct (rerr (Body resp)); exact Hk3.
Qed.

Lemma getPublishedTarball_kept (r : string) (st0 st : State) :
  resolvesTo env config st0 r -> r <> "" ->
  regionKept config r st0 st ->
  post (getPublishedTarball env config) st (fun _ st' => regionKept config r st0 st').
Proof.
  intros Hres Hr Hk. unfold getPublishedTarball. apply post_bind.
  eapply post_mono; [apply (getRegion_kept r st0 st Hres Hr Hk) |].
  intros x st1 (-> & Hk1 & _).
  unfold post, Get, bind, call, ret. cbn [fst snd calls disk region].
  assert (regionKept config r st0 (logged (CallGet (AgentRemoteTarball config r)) st1))
    as Hk2.
  { apply (regionKept_step r st0 st1 _ (CallGet (AgentRemoteTarball config r)));
      [exact Hk1 | reflexivity | reflexivity | right; reflexivity | discriminate]. }
  destruct (getter_Get env (calls st1) (AgentRemoteTarball config r)) as [resp | e];
    cbn [fst snd]; [| exact Hk2].
  destruct (negb (StatusCode resp =? http.StatusOK)); exact Hk2.
Qed.

Lemma TempFile_kept (r dir pattern : string) (st0 st : State) :
  regionKept config r st0 st ->
  post (TempFile env dir pattern) st (fun _ st' => regionKept config r st0 st').
Proof.
  intros Hk. unfold post, TempFile, bind, call, getDisk, setDisk, ret.
  cbn [fst snd calls disk region].
  destruct (fs_fault env (calls st) (CallTempFile dir pattern));
    [| destruct (firstFree _ _ _ _)];
    cbn [fst snd calls disk region];
    (eapply (regionKept_step r st0 st _ (CallTempFile dir pattern));
     [exact Hk | reflexivity | reflexivity | exact I | discriminate]).
Qed.

Lemma Copy_kept (r dst : string) (src : teeReader) (st0 st : State) :
  regionKept config r st0 st ->
  post (Copy env dst src) st (fun _ st' => regionKept config r st0 st').
Proof.
  intros Hk. unfold post, Copy, bind, call, setDisk, ret.
  cbn [fst snd calls disk region].
  destruct (fs_fault env (calls st) (CallCopy dst)); cbn [fst snd calls disk region];
    (eapply (regionKept_step r st0 st _ (CallCopy dst));
     [exact Hk | reflexivity | reflexivity | exact I | discriminate]).
Qed.

Lemma Rename_kept (r oldpath newpath : string) (st0 st : State) :
  regionKept config r st0 st ->
  post (Rename env oldpath newpath) st (fun _ st' => regionKept config r st0 st').
Proof.
  intros Hk. unfold post, Rename, bind, call, getDisk, setDisk, ret.
  cbn [fst snd calls disk region].
  destruct (fs_fault env (calls st) (CallRename oldpath newpath));
    [| destruct (disk st !! oldpath)];
    cbn [fst snd calls disk region];
    (eapply (regionKept_step r st0 st _ (CallRename oldpath newpath));
     [exact Hk | reflexivity | reflexivity | exact I | discriminate]).
Qed.

Lemma Remove_kept (r name : string) (st0 st : State) :
  regionKept config r st0 st ->
  post (Remove env name) st (fun _ st' => regionKept config r st0 st').
Proof.
  intros Hk. unfold post, Remove, bind, call, getDisk, setDisk, ret.
  cbn [fst snd calls disk region].
  destruct (fs_fault env (calls st) (CallRemove name));
    [| destruct (disk st !! name)];
    cbn [fst snd calls disk region];
    (eapply (regionKept_step r st0 st _ (CallRemove name));
     [exact Hk | reflexivity | reflexivity | exact I | discriminate]).
Qed.

Lemma downloadBody_kept (r sum : string) (body : Reader) (t : string) (st0 st : State) :
  resolvesTo env config st0 r -> r <> "" ->
  regionKept config r st0 st ->
  post (downloadBody env config sum body t) st (fun _ st' => regionKept config r st0 st').
Proof.
  intros Hres Hr Hk. unfold downloadBody. apply post_bind.
  eapply post_mono; [apply TeeReader_outcome |].
  intros tr st1 (_ & Hr1 & _ & Hc1).
  assert (regionKept config r st0 st1) as Hk1.
  { apply (regionKept_step r st0 st st1 CallTeeReader);
      [exact Hk | exact Hc1 | exact Hr1 | exact I | discriminate]. }
  apply post_bind. eapply post_mono; [apply (Copy_kept r _ _ st0 st1 Hk1) |].
  intros [[n err] h] st2 Hk2. destruct err as [e |]; [apply post_ret; exact Hk2 |].
  apply post_bind. eapply post_mono; [apply (getRegion_kept r st0 st2 Hres Hr Hk2) |].
  intros x st3 (_ & Hk3 & _).
  destruct (negb (String.eqb sum (fmt.Sprintf_x (md5.digestSum h))));
    [apply post_ret; exact Hk3 |].
  apply post_bind. eapply post_mono; [apply (Rename_kept r _ _ st0 st3 Hk3) |].
  intros r1 st4 Hk4. apply post_ret. exact Hk4.
Qed.

Lemma DownloadAgent_kept (r : string) (st : State) :
  resolvesTo env config st r -> r <> "" ->
  post (DownloadAgent env config) st (fun _ st' => regionKept config r st st').
Proof.
  intros Hres Hr. unfold DownloadAgent. apply post_bind.
  unfold post at 1. rewrite MkdirAll_run. cbn [fst snd].
  assert (regionKept config r st
            (logged (CallMkdirAll (CacheDirectory config) (Z.lor os.ModeDir orwPerm)) st))
    as Hk0.
  { eapply (regionKept_step r st st); [apply regionKept_refl | reflexivity | reflexivity
                                      | exact I | discriminate]. }
  destruct (fs_fault env (calls st) _) as [e |]; [apply post_ret; exact Hk0 |].
  apply post_bind. eapply post_mono; [apply (getPublishedMd5Sum_kept r st _ Hres Hr Hk0) |].
  intros r1 st1 Hk1. destruct r1 as [sum | e]; [| apply post_ret; exact Hk1].
  apply post_bind. eapply post_mono; [apply (getPublishedTarball_kept r st _ Hres Hr Hk1) |].
  intros r2 st2 Hk2. destruct r2 as [body | e]; [| apply post_ret; exact Hk2].
  apply post_bind. eapply post_mono; [apply (TempFile_kept r _ _ st st2 Hk2) |].
  intros r3 st3 Hk3. destruct r3 as [t | e]; [| apply post_ret; exact Hk3].
  apply post_bind. eapply post_mono; [apply (downloadBody_kept r _ _ _ st st3 Hres Hr Hk3) |].
  intros [returned err] st4 Hk4. apply post_bind. destruct err as [e |].
  - apply post_bind. eapply post_mono; [apply (Remove_kept r _ st st4 Hk4) |].
    intros r5 st5 Hk5. do 2 apply post_ret. exact Hk5.
  - do 2 apply post_ret. exact Hk4.
Qed.

(** X10. A download uses one region. When the downloader's region
    resolves to a non-empty [r], every request [DownloadAgent] makes is
    for the checksum or the artifact of [r], and the metadata service is
    asked at most once during the whole call; it is not asked at all,
    and the [region] field is not touched, when the field was already
    set. *)
Theorem DownloadAgent_one_region (st st' : State) (res : option error) (r : string) :
  resolvesTo env config st r -> r <> "" ->
  DownloadAgent env config st = (res, st') ->
  exists new,
    calls st' = new ++ calls st /\
    Forall (requestsFor config r) new /\
    (metadataCalls new <= 1)%nat /\
    (region st <> "" -> metadataCalls new = 0%nat /\ region st' = region st).
Proof.
  intros Hres Hr Hrun.
  destruct (post_eq _ _ _ _ _ Hrun (DownloadAgent_kept r st Hres Hr))
    as (new & Hc & Hf & Hk).
  exists new. split; [exact Hc |]. split; [exact Hf |].
  destruct Hk as [[Hsame Hn] | (H0 & _ & Hn)].
  - split; [lia | auto].
  - split; [lia |]. intros H. contradiction.
Qed.

(** X11. A downloader made when no session could be created has its
    region preset to the default, which keeps it away from the metadata
    service: [getRegion] returns the default without any call, and a
    [DownloadAgent] on it never asks the metadata service, sends every
    request to the default region, and leaves the region as it is. The
    default region is assumed not to be the empty string. *)
Theorem NewDownloader_without_session (e : error) (dk : gmap string File) :
  DefaultRegionName config <> "" ->
  getRegion env config (NewDownloader config (Err e) dk)
  = (DefaultRegionName config, NewDownloader config (Err e) dk) /\
  forall res st',
    DownloadAgent env config (NewDownloader config (Err e) dk) = (res, st') ->
    region st' = DefaultRegionName config /\
    metadataCalls (calls st') = 0%nat /\
    Forall (requestsFor config (DefaultRegionName config)) (calls st').
Proof.
  intros Hdef. set (st := NewDownloader config (Err e) dk).
  assert (region st = DefaultRegionName config) as Hreg by reflexivity.
  split.
  - rewrite getRegion_eq, Hreg.
    destruct (String.eqb (DefaultRegionName config) "") eqn:E; [| reflexivity].
    apply String.eqb_eq in E. contradiction.
  - intros res st' Hrun.
    assert (resolvesTo env config st (DefaultRegionName config)) as Hres
      by (left; split; [exact Hreg | exact Hdef]).
    destruct (post_eq _ _ _ _ _ Hrun (DownloadAgent_kept _ st Hres Hdef))
      as (new & Hc & Hf & Hk).
    change (calls st) with (@nil event) in Hc. rewrite app_nil_r in Hc. subst new.
    destruct Hk as [[Hsame Hn] | (H0 & _ & _)]; [| congruence].
    split; [congruence |]. split; [exact Hn | exact Hf].
Qed.

(** *** The state marker *)

Lemma RecordCachedAgent_disk (st st' : State) :
  RecordCachedAgent env config st = (None, st') ->
  exists m, disk st' = <[CacheState config := {| data := [x31]; mode := m |}]> (disk st).
Proof.
  unfold RecordCachedAgent, WriteFile, bind, call, getDisk, setDisk, ret.
  change (String.list_byte_of_string "1") with [x31].
  cbn [fst snd calls disk region].
  destruct (fs_fault env (calls st) (CallWriteFile (CacheState config) [x31] orwPerm));
    intros H; [discriminate |].
  inversion H. cbn [disk]. eexists. reflexivity.
Qed.

(** X12. Once [RecordCachedAgent] has succeeded, [IsAgentCached] (its
    stats not failing) depends on the tarball alone: it answers [true]
    exactly when the agent tarball exists and is not empty. The layout
    is assumed to keep the marker apart from the tarball. *)
Theorem RecordCachedAgent_then_IsAgentCached (env' : Env) (st st' : State) :
  CacheState config <> AgentTarball config ->
  RecordCachedAgent env config st = (None, st') ->
  (forall h name, fs_fault env' h (CallStat name) = None) ->
  fst (IsAgentCached env' config st') = true <->
  exists f, disk st !! AgentTarball config = Some f /\ data f <> [].
Proof.
  intros Hne Hrec Hstat. destruct (RecordCachedAgent_disk st st' Hrec) as [m Hd].
  unfold IsAgentCached.
  rewrite (bind_run _ _ _ _ _ (fileNotEmpty_run env' _ st' (Hstat _ _))).
  rewrite Hd, lookup_insert_eq. cbn [data length Z.of_nat Z.ltb Z.compare].
  change (0 <? Z.of_nat 1) with true. cbn iota.
  rewrite (fileNotEmpty_run env' _ _ (Hstat _ _)). cbn [fst logged disk].
  rewrite Hd, lookup_insert_ne by exact Hne.
  destruct (disk st !! AgentTarball config) as [f |].
  - split.
    + intros H. exists f. split; [reflexivity |]. intros E. rewrite E in H. discriminate.
    + intros (f' & Hf & Hdata). inversion Hf; subst f'. apply Z.ltb_lt.
      destruct (data f); [contradiction | cbn [length]; lia].
  - split; [discriminate |]. intros (f' & Hf & _). discriminate.
Qed.

(** X13. Download, record and ask compose as follows: after a
    [DownloadAgent] and a [RecordCachedAgent] that both returned [nil],
    the agent tarball holds the body of an artifact response that the
    store delivered, and [IsAgentCached] (its stats not failing) answers
    [true] exactly when that body, the content of the tarball, is not
    empty. An empty artifact whose checksum is published passes the
    integrity check and is yet never reported as cached. *)
Theorem DownloadAgent_RecordCachedAgent_IsAgentCached (env' : Env)
    (st st1 st2 : State) :
  CacheState config <> AgentTarball config ->
  DownloadAgent env config st = (None, st1) ->
  RecordCachedAgent env config st1 = (None, st2) ->
  (forall h name, fs_fault env' h (CallStat name) = None) ->
  exists body,
    deliveredBy env config body /\
    data <$> disk st1 !! AgentTarball config = Some (rdata body) /\
    data <$> disk st2 !! AgentTarball config = Some (rdata body) /\
    fst (IsAgentCached env' config st2) = negb (Nat.eqb (length (rdata body)) 0).
Proof.
  intros Hne Hrun Hrec Hstat.
  destruct (post_eq _ _ _ _ _ Hrun (DownloadAgent_outcomes st))
    as (body & m & Hd1 & _ & Hdel & _).
  destruct (RecordCachedAgent_disk st1 st2 Hrec) as [m2 Hd2].
  exists body. split; [exact Hdel |].
  split; [rewrite Hd1, lookup_insert_eq; reflexivity |].
  split; [rewrite Hd2, lookup_insert_ne by exact Hne;
          rewrite Hd1, lookup_insert_eq; reflexivity |].
  unfold IsAgentCached.
  rewrite (bind_run _ _ _ _ _ (fileNotEmpty_run env' _ st2 (Hstat _ _))).
  rewrite Hd2, lookup_insert_eq. cbn [data length Z.of_nat Z.ltb Z.compare].
  change (0 <? Z.of_nat 1) with true. cbn iota.
  rewrite (fileNotEmpty_run env' _ _ (Hstat _ _)). cbn [fst logged disk].
  rewrite Hd2, lookup_insert_ne by exact Hne. rewrite Hd1, lookup_insert_eq.
  cbn [data]. destruct (rdata body); [reflexivity |].
  cbn [length Nat.eqb negb]. apply Z.ltb_lt. lia.
Qed.

(** *** A checksum that cannot be fetched *)

(** X17. When the checksum request fails, or its body cannot be read to
    the end, [DownloadAgent] returns that error and stops there: the
    calls made are the directory creation, the region resolution if it
    was needed, the checksum request and the read of its body; the
    artifact is not requested, no temporary file is created and the
    disk is as it was. *)
Theorem DownloadAgent_manifest_error (st : State) (r : string) (e : error) :
  fs_fault env (calls st)
           (CallMkdirAll (CacheDirectory config) (Z.lor os.ModeDir orwPerm)) = None ->
  resolvesTo env config st r ->
  (forall h, match getter_Get env h (AgentRemoteTarballMD5 config r) with
             | Err e' => e' = e
             | Ok resp => rerr (Body resp) = Some e
             end) ->
  exists st',
    DownloadAgent env config st = (Some e, st') /\
    extends (manifestOnly config r) st st' /\
    disk st' = disk st.
Proof.
  intros Hmk Hres Hget.
  set (st0 := logged (CallMkdirAll (CacheDirectory config) (Z.lor os.ModeDir orwPerm)) st).
  assert (resolvesTo env config st0 r) as Hres0
    by (apply (resolvesTo_region env config st); [reflexivity | exact Hres]).
  assert (exists st1, getRegion env config st0 = (r, st1) /\ disk st1 = disk st /\
                      extends (manifestOnly config r) st st1) as (st1 & G & Hd1 & Hx1).
  { rewrite getRegion_eq.
    destruct (String.eqb (region st0) "") eqn:E.
    - apply String.eqb_eq in E. destruct Hres0 as [[H1 H2] | [_ Hmeta]]; [congruence |].
      cbn zeta. rewrite (Hmeta (calls st0)). eexists. split; [reflexivity |].
      split; [reflexivity |]. eexists [CallRegion; CallMkdirAll _ _].
      split; [reflexivity | repeat constructor].
    - apply String.eqb_neq in E. destruct Hres0 as [[H1 _] | [H1 _]]; [| contradiction].
      rewrite H1. exists st0. split; [reflexivity |]. split; [reflexivity |].
      eexists [CallMkdirAll _ _]. split; [reflexivity | repeat constructor]. }
  assert (forall st2 new, disk st2 = disk st1 -> calls st2 = new ++ calls st1 ->
            Forall (manifestOnly config r) new ->
            extends (manifestOnly config r) st st2 /\ disk st2 = disk st) as Hfin.
  { intros st2 new Hd Hc Hf. split; [| congruence].
    eapply extends_trans; [exact Hx1 |]. exists new. split; assumption. }
  assert (exists st2, getPublishedMd5Sum env config st0 = (Err e, st2) /\
                      extends (manifestOnly config r) st st2 /\ disk st2 = disk st)
    as (st2 & R & Hx2 & Hd2).
  { unfold getPublishedMd5Sum. rewrite (bind_run _ _ _ _ _ G).
    pose proof (Hget (calls st1)) as Hg.
    unfold Get, ReadAll, bind, call, ret. cbn [fst snd calls disk region].
    destruct (getter_Get env (calls st1) (AgentRemoteTarballMD5 config r))
      as [resp | e'].
    - rewrite Hg. eexists. split; [reflexivity |].
      apply (Hfin _ [CallReadAll; CallGet (AgentRemoteTarballMD5 config r)]);
        [reflexivity | reflexivity | repeat constructor].
    - subst e'. eexists. split; [reflexivity |].
      apply (Hfin _ [CallGet (AgentRemoteTarballMD5 config r)]);
        [reflexivity | reflexivity | repeat constructor]. }
  exists st2. split; [| split; assumption].
  unfold DownloadAgent.
  rewrite (bind_run _ _ _ _ _ (MkdirAll_run _ _ st)), Hmk. fold st0.
  rewrite (bind_run _ _ _ _ _ R). reflexivity.
Qed.

End Outcomes.

(** *** The desired image *)

Section DesiredImage.

Variable env : Env.
Variable config : Config.

(** X14. Resolution of the desired image is confined to the cache
    directory, whatever the first line of the locator file holds (any
    bytes, white space and directory components included): the path
    returned is the cache directory, one separator, and a name without
    separator, which is a prefix of the line's last path element (the
    whole of it, or what is left of it once the white space at its end
    is trimmed; possibly nothing). The cache directory path is assumed
    not to begin with white space. *)
Theorem getDesiredImageFile_confined (st : State) (f : File) (content : string)
    (rest : list byte) :
  fs_fault env (calls st) (CallOpen (DesiredImageLocatorFile config)) = None ->
  disk st !! DesiredImageLocatorFile config = Some f ->
  data f = String.list_byte_of_string content ++ x0a :: rest ->
  x0a ∉ String.list_byte_of_string content ->
  unicode.IsSpace (firstRune (CacheDirectory config +:+ "/")) = false ->
  exists name,
    fst (getDesiredImageFile env config st)
    = Ok (CacheDirectory config +:+ "/" +:+ String.string_of_list_ascii name) /\
    (filepath.Separator ∉ name) /\
    exists k, name = take k (lastPart (String.list_ascii_of_string content)).
Proof.
  intros Hf Hd Hdata Hnl Hdir.
  rewrite (getDesiredImageFile_line env config st f content rest Hf Hd Hdata Hnl).
  destruct (joined_confined (CacheDirectory config) content Hdir) as [k Hk].
  exists (take k (lastPart (String.list_ascii_of_string content))).
  split; [cbn [fst]; rewrite Hk; reflexivity |]. split; [| exists k; reflexivity].
  intros H. apply elem_of_take in H as (i & H & _).
  apply (lastPart_no_separator (String.list_ascii_of_string content)).
  apply list_elem_of_lookup. exists i. exact H.
Qed.

(** X15. Only the first line of the locator file counts: two locator
    files that agree up to their first newline resolve to the same
    path, whatever follows the newline, and whatever else differs
    between the two disks. *)
Theorem getDesiredImageFile_first_line (st1 st2 : State) (f1 f2 : File)
    (line rest1 rest2 : list byte) :
  fs_fault env (calls st1) (CallOpen (DesiredImageLocatorFile config)) = None ->
  fs_fault env (calls st2) (CallOpen (DesiredImageLocatorFile config)) = None ->
  disk st1 !! DesiredImageLocatorFile config = Some f1 ->
  disk st2 !! DesiredImageLocatorFile config = Some f2 ->
  data f1 = line ++ x0a :: rest1 ->
  data f2 = line ++ x0a :: rest2 ->
  x0a ∉ line ->
  fst (getDesiredImageFile env config st1) = fst (getDesiredImageFile env config st2).
Proof.
  intros H1 H2 Hd1 Hd2 Hf1 Hf2 Hnl.
  unfold getDesiredImageFile, Open, ReadString, Base, bind, call, getDisk, ret.
  cbn [fst snd calls disk region].
  rewrite H1, H2, Hd1, Hd2. cbn [fst snd rdata rerr].
  rewrite Hf1, Hf2, !(upTo_first _ _ _ Hnl). reflexivity.
Qed.

(** X16. [LoadDesiredAgent] stays in the cache directory: whatever the
    first line of the locator file holds, the one file it opens besides
    the locator file is the cache directory, one separator and a name
    without separator that is a prefix of the line's last path element.
    It makes three calls (the open of the locator file, the base name
    and that open), leaves disk and region as they were, and returns
    the bytes of the regular file at that path when there is one and
    its open does not fail. The cache directory path is assumed not to
    begin with white space. *)
Theorem LoadDesiredAgent_confined (st : State) (f : File) (content : string)
    (rest : list byte) :
  fs_fault env (calls st) (CallOpen (DesiredImageLocatorFile config)) = None ->
  disk st !! DesiredImageLocatorFile config = Some f ->
  data f = String.list_byte_of_string content ++ x0a :: rest ->
  x0a ∉ String.list_byte_of_string content ->
  unicode.IsSpace (firstRune (CacheDirectory config +:+ "/")) = false ->
  exists name,
    (filepath.Separator ∉ name) /\
    (exists k, name = take k (lastPart (String.list_ascii_of_string content))) /\
    calls (snd (LoadDesiredAgent env config st))
    = CallOpen (CacheDirectory config +:+ "/" +:+ String.string_of_list_ascii name)
      :: CallBase (content +:+ newline)
      :: CallOpen (DesiredImageLocatorFile config) :: calls st /\
    disk (snd (LoadDesiredAgent env config st)) = disk st /\
    region (snd (LoadDesiredAgent env config st)) = region st /\
    forall g,
      disk st !! (CacheDirectory config +:+ "/" +:+ String.string_of_list_ascii name)
      = Some g ->
      fs_fault env
        (CallBase (content +:+ newline)
         :: CallOpen (DesiredImageLocatorFile config) :: calls st)
        (CallOpen (CacheDirectory config +:+ "/" +:+ String.string_of_list_ascii name))
      = None ->
      fst (LoadDesiredAgent env config st) = Ok {| rdata := data g; rerr := None |}.
Proof.
  intros Hf Hd Hdata Hnl Hdir.
  pose proof (getDesiredImageFile_line env config st f content rest Hf Hd Hdata Hnl)
    as Hres.
  destruct (joined_confined (CacheDirectory config) content Hdir) as [k Hk].
  rewrite Hk in Hres.
  set (name := take k (lastPart (String.list_ascii_of_string content))) in *.
  set (p := CacheDirectory config +:+ "/" +:+ String.string_of_list_ascii name) in *.
  exists name. split; [| split; [exists k; reflexivity |]].
  { intros H. apply elem_of_take in H as (i & H & _).
    apply (lastPart_no_separator (String.list_ascii_of_string content)).
    apply list_elem_of_lookup. exists i. exact H. }
  unfold LoadDesiredAgent. rewrite (bind_run _ _ _ _ _ Hres).
  unfold Open, bind, call, getDisk, ret. cbn [fst snd calls disk region logged].
  destruct (fs_fault env
              (CallBase (content +:+ newline)
               :: CallOpen (DesiredImageLocatorFile config) :: calls st)
              (CallOpen p)) as [e |] eqn:F.
  - cbn [fst snd calls disk region].
    split; [reflexivity |]. split; [reflexivity |]. split; [reflexivity |].
    intros g _ H. unfold p in *. congruence.
  - destruct (disk st !! p) as [g |] eqn:G; cbn [fst snd calls disk region];
      (split; [reflexivity |]; split; [reflexivity |]; split; [reflexivity |]);
      intros g' Hg _; unfold p in *; [congruence | congruence].
Qed.

End DesiredImage.

(** *** White space around the manifest *)

Lemma dropRunes_spaces (ws x : list ascii) (n : nat) :
  forallb asciiSpace ws = true ->
  strings.dropRunes unicode.IsSpace (length ws + n) (ws ++ x)
  = strings.dropRunes unicode.IsSpace n x.
Proof.
  induction ws as [| c ws IH]; [reflexivity |]. cbn [forallb]. intros H.
  apply andb_true_iff in H as [Hc Hws].
  apply asciiSpace_spec in Hc as (Hc1 & Hc2 & _).
  cbn [length app Nat.add strings.dropRunes].
  rewrite DecodeRune_ascii by exact Hc1. rewrite Hc2.
  cbn [drop]. rewrite drop_0. apply IH. exact Hws.
Qed.

Lemma isLowerHex_not_space (c : ascii) :
  isLowerHex c = true ->
  utf8.code c < 128 /\ unicode.IsSpace (utf8.code c) = false.
Proof.
  destruct c as [[] [] [] [] [] [] [] []]; intros H;
    try (vm_compute in H; discriminate H); split; reflexivity.
Qed.

(** [TrimSpace] takes ASCII white space off both ends of a string of
    hexadecimal digits. *)
Lemma TrimSpace_padded (ws1 d ws2 : string) :
  d <> "" ->
  forallb isLowerHex (String.list_ascii_of_string d) = true ->
  asciiSpaces ws1 = true -> asciiSpaces ws2 = true ->
  strings.TrimSpace (ws1 +:+ d +:+ ws2) = d.
Proof.
  unfold asciiSpaces. intros Hd Hhex H1 H2.
  unfold strings.TrimSpace, strings.TrimFunc. rewrite !list_ascii_app.
  set (x := String.list_ascii_of_string d) in *.
  set (l1 := String.list_ascii_of_string ws1) in *.
  set (l2 := String.list_ascii_of_string ws2) in *.
  assert (x <> []) as Hx by (subst x; destruct d; [contradiction | discriminate]).
  assert (strings.TrimLeftFunc (l1 ++ x ++ l2) unicode.IsSpace = x ++ l2) as ->.
  { unfold strings.TrimLeftFunc. rewrite length_app, dropRunes_spaces by exact H1.
    destruct x as [| c x']; [contradiction |].
    cbn [forallb] in Hhex. apply andb_true_iff in Hhex as [Hc _].
    apply isLowerHex_not_space in Hc as [Hc1 Hc2].
    cbn [app length strings.dropRunes].
    rewrite DecodeRune_ascii by exact Hc1. rewrite Hc2. reflexivity. }
  rewrite TrimRightFunc_trailing; [apply String.string_of_list_ascii_of_string
                                  | exact Hx | | exact H2].
  destruct (rev x) as [| c before] eqn:E.
  { exfalso. apply Hx. rewrite <- (rev_involutive x), E. reflexivity. }
  assert (isLowerHex c = true) as Hc.
  { rewrite forallb_forall in Hhex. apply Hhex, in_rev. rewrite E. left. reflexivity. }
  apply isLowerHex_not_space in Hc as [Hc1 Hc2].
  rewrite DecodeLastRune_ascii by exact Hc1. exact Hc2.
Qed.

Section Padding.

Variable env : Env.
Variable config : Config.

(** X18. The manifest may carry white space around the digest: with a
    working filesystem, a manifest that is the lower-case hexadecimal
    MD5 digest of the artifact with any ASCII white space before and
    after it (spaces, tabs, a carriage return and newline) verifies,
    and the agent tarball receives the artifact. *)
Theorem DownloadAgent_padded_manifest (st : State) (r : string)
    (manifest bytes : list byte) (ws1 ws2 : string) :
  noFault env ->
  resolvesTo env config st r ->
  serves env config r manifest bytes ->
  tempAvailable env config st ->
  asciiSpaces ws1 = true -> asciiSpaces ws2 = true ->
  String.string_of_list_byte manifest
  = ws1 +:+ fmt.Sprintf_x (md5.Sum bytes) +:+ ws2 ->
  exists st',
    DownloadAgent env config st = (None, st') /\
    disk st'
    = <[AgentTarball config :=
          {| data := bytes; mode := Z.ldiff 384 (fs_umask env) |}]> (disk st).
Proof.
  intros Hfs Hres Hserve Htemp H1 H2 Hm.
  destruct (DownloadAgent_promoted env config st r manifest bytes)
    as (st' & Hrun & _ & Hd); try assumption.
  - rewrite Hm. symmetry.
    pose proof (digest_hex32 bytes) as Hhex. unfold hex32 in Hhex.
    apply andb_true_iff in Hhex as [Hlen Hhex]. apply Nat.eqb_eq in Hlen.
    apply TrimSpace_padded; try assumption.
    intros E. rewrite E in Hlen. discriminate.
  - exists st'. split; assumption.
Qed.

End Padding.

(** ** The further properties at concrete inputs *)

Lemma store_resolves (manifest artifact : result Response)
    (faulty : event -> option error) (st : State) :
  region st = "" ->
  resolvesTo (storeEnv manifest artifact faulty) exampleConfig st "us-west-2".
Proof. intros H. right. split; [exact H | intros h; reflexivity]. Qed.

Lemma store_tempAvailable (manifest artifact : result Response)
    (faulty : event -> option error) :
  tempAvailable (storeEnv manifest artifact faulty) exampleConfig cachedState.
Proof.
  intros h. exists 0%nat. split; [exact tempAttempts_pos |].
  vm_compute. reflexivity.
Qed.

Lemma Sprintf_d_not_empty (n : Z) : fmt.Sprintf_d n <> "".
Proof.
  unfold fmt.Sprintf_d. destruct (Z.to_int n) as [d | d]; [| discriminate].
  destruct d; discriminate.
Qed.

Lemma example_tempname (h : list event) (i : nat) :
  "/var/cache/ecs" +:+ "/" +:+ "ecs-agent.tar" +:+ fmt.Sprintf_d (Z.of_nat i)
  <> AgentTarball exampleConfig.
Proof.
  intros H. apply (Sprintf_d_not_empty (Z.of_nat i)).
  remember (fmt.Sprintf_d (Z.of_nat i)) as s eqn:Es. clear Es.
  simpl in H. repeat (injection H as H). exact H.
Qed.

(** X1 at a concrete input: the artifact [hello-agent] and its manifest. *)
Lemma DownloadAgent_success_sound_witness :
  exists body m,
    disk (snd (DownloadAgent (exampleEnv 200 helloManifest helloAgent neverFails)
                             exampleConfig cachedState))
    = <[AgentTarball exampleConfig := {| data := rdata body; mode := m |}]>
        (disk cachedState) /\
    rerr body = None /\
    deliveredBy (exampleEnv 200 helloManifest helloAgent neverFails) exampleConfig body /\
    publishedBy (exampleEnv 200 helloManifest helloAgent neverFails) exampleConfig
                (fmt.Sprintf_x (md5.Sum (rdata body))).
Proof.
  apply (DownloadAgent_success_sound
           (exampleEnv 200 helloManifest helloAgent neverFails) exampleConfig
           cachedState).
  vm_compute. reflexivity.
Defined.

(** X2 at a concrete input: the rename is refused and the temporary
    file is left behind. *)
Lemma DownloadAgent_failure_disk_witness :
  disk (snd (DownloadAgent (exampleEnv 200 helloManifest helloAgent renameFails)
                           exampleConfig cachedState))
  = disk cachedState \/
  exists t f h,
    disk cachedState !! t = None /\
    disk (snd (DownloadAgent (exampleEnv 200 helloManifest helloAgent renameFails)
                             exampleConfig cachedState))
    = <[t := f]> (disk cachedState) /\
    (calls (snd (DownloadAgent (exampleEnv 200 helloManifest helloAgent renameFails)
                               exampleConfig cachedState))
     = CallRename t (AgentTarball exampleConfig) :: h /\
     fs_fault (exampleEnv 200 helloManifest helloAgent renameFails) h
              (CallRename t (AgentTarball exampleConfig))
     = Some (LinkError "rename" "/var/cache/ecs/ecs-agent.tar0"
                       "/var/cache/ecs/ecs-agent.tar" "permission denied") \/
     calls (snd (DownloadAgent (exampleEnv 200 helloManifest helloAgent renameFails)
                               exampleConfig cachedState))
     = CallRemove t :: h /\
     fs_fault (exampleEnv 200 helloManifest helloAgent renameFails) h (CallRemove t)
     <> None).
Proof.
  apply (DownloadAgent_failure_disk
           (exampleEnv 200 helloManifest helloAgent renameFails) exampleConfig
           cachedState).
  vm_compute. reflexivity.
Defined.

(** X3 at a concrete input: a checksum mismatch leaves the cached agent
    in place. *)
Lemma DownloadAgent_failure_keeps_cache_witness :
  (forall k f,
      disk cachedState !! k = Some f ->
      disk (snd (DownloadAgent (exampleEnv 200 wrongManifest helloAgent neverFails)
                               exampleConfig cachedState)) !! k = Some f) /\
  forall env' f,
    disk cachedState !! AgentTarball exampleConfig = Some f ->
    fs_fault env'
      (calls (snd (DownloadAgent (exampleEnv 200 wrongManifest helloAgent neverFails)
                                 exampleConfig cachedState)))
      (CallOpen (AgentTarball exampleConfig)) = None ->
    fst (LoadCachedAgent env' exampleConfig
           (snd (DownloadAgent (exampleEnv 200 wrongManifest helloAgent neverFails)
                               exampleConfig cachedState)))
    = Ok {| rdata := data f; rerr := None |}.
Proof.
  apply (DownloadAgent_failure_keeps_cache
           (exampleEnv 200 wrongManifest helloAgent neverFails) exampleConfig
           cachedState _
           (mismatch exampleConfig "us-west-2")).
  vm_compute. reflexivity.
Defined.

(** X4 at a concrete input. *)
Lemma DownloadAgent_then_LoadCachedAgent_witness :
  exists body,
    fst (LoadCachedAgent (exampleEnv 200 helloManifest helloAgent neverFails)
           exampleConfig
           (snd (DownloadAgent (exampleEnv 200 helloManifest helloAgent neverFails)
                               exampleConfig cachedState)))
    = Ok body /\
    rerr body = None /\
    deliveredBy (exampleEnv 200 helloManifest helloAgent neverFails) exampleConfig body /\
    publishedBy (exampleEnv 200 helloManifest helloAgent neverFails) exampleConfig
                (fmt.Sprintf_x (md5.Sum (rdata body))).
Proof.
  apply (DownloadAgent_then_LoadCachedAgent
           (exampleEnv 200 helloManifest helloAgent neverFails) exampleConfig
           (exampleEnv 200 helloManifest helloAgent neverFails) cachedState).
  - vm_compute. reflexivity.
  - reflexivity.
Defined.

(** X5 at a concrete input: a manifest in the format of [md5sum], with
    the right digest, is rejected. *)
Lemma DownloadAgent_manifest_form_witness :
  fst (DownloadAgent (exampleEnv 200 md5sumManifest helloAgent neverFails)
                     exampleConfig cachedState) <> None.
Proof.
  apply (DownloadAgent_manifest_form
           (exampleEnv 200 md5sumManifest helloAgent neverFails) exampleConfig
           cachedState).
  intros sum (h & r & resp & Hget & _ & ->).
  cbn [getter_Get exampleEnv] in Hget.
  destruct (String.eqb _ _) in Hget; inversion Hget; vm_compute; reflexivity.
Defined.

(** X6 at a concrete input: the artifact request is answered with
    status 503. *)
Lemma DownloadAgent_artifact_status_witness :
  exists st',
    DownloadAgent (storeEnv (okResponse 200 helloManifest)
                            (okResponse 503 (String.list_byte_of_string "Slow Down"))
                            neverFails)
                  exampleConfig cachedState
    = (Some (errorString ("unexpected response code " +:+ fmt.Sprintf_d 503)), st') /\
    head (calls st') = Some (CallGet (AgentRemoteTarball exampleConfig "us-west-2")) /\
    disk st' = disk cachedState.
Proof.
  apply (DownloadAgent_artifact_status
           (storeEnv (okResponse 200 helloManifest)
                     (okResponse 503 (String.list_byte_of_string "Slow Down"))
                     neverFails)
           exampleConfig cachedState "us-west-2" helloManifest 503
           {| rdata := String.list_byte_of_string "Slow Down"; rerr := None |}).
  - reflexivity.
  - apply store_resolves. reflexivity.
  - intros h. exists 200. reflexivity.
  - intros h. reflexivity.
  - discriminate.
Defined.

(** X7 at a concrete input: the stream breaks off after six bytes. *)
Lemma DownloadAgent_stream_error_witness :
  exists st' t,
    DownloadAgent (storeEnv (okResponse 200 helloManifest)
                            (Ok {| StatusCode := 200; Body := brokenStream |})
                            neverFails)
                  exampleConfig cachedState
    = (Some (errorString "unexpected EOF"), st') /\
    disk cachedState !! t = None /\
    CallCopy t ∈ calls st' /\
    head (calls st') = Some (CallRemove t) /\
    disk st' = disk cachedState.
Proof.
  apply (DownloadAgent_stream_error
           (storeEnv (okResponse 200 helloManifest)
                     (Ok {| StatusCode := 200; Body := brokenStream |})
                     neverFails)
           exampleConfig cachedState "us-west-2" helloManifest brokenStream).
  - intros h ev. reflexivity.
  - apply store_resolves. reflexivity.
  - intros h. exists 200. reflexivity.
  - intros h. reflexivity.
  - reflexivity.
  - apply store_tempAvailable.
Defined.

(** X8 at a concrete input: the manifest holds another digest and the
    temporary file cannot be removed. *)
Lemma DownloadAgent_cleanup_fails_witness :
  exists st' t,
    DownloadAgent (exampleEnv 200 wrongManifest helloAgent removeFails)
                  exampleConfig cachedState
    = (Some (mismatch exampleConfig "us-west-2"), st') /\
    head (calls st') = Some (CallRemove t) /\
    disk cachedState !! t = None /\
    disk st' = <[t := {| data := helloAgent; mode := Z.ldiff 384 18 |}]> (disk cachedState).
Proof.
  apply (DownloadAgent_cleanup_fails
           (exampleEnv 200 wrongManifest helloAgent removeFails) exampleConfig
           cachedState "us-west-2" wrongManifest helloAgent).
  - intros h ev Hev. destruct ev; try reflexivity. destruct Hev.
  - intros h name. discriminate.
  - apply example_resolves. reflexivity.
  - apply example_serves.
  - apply example_tempAvailable.
  - vm_compute. discriminate.
Defined.

(** X9 at a concrete input. *)
Lemma DownloadAgent_twice_witness :
  exists st1 st2,
    DownloadAgent (exampleEnv 200 helloManifest helloAgent neverFails)
                  exampleConfig cachedState = (None, st1) /\
    DownloadAgent (exampleEnv 200 helloManifest helloAgent neverFails)
                  exampleConfig st1 = (None, st2) /\
    disk st1
    = <[AgentTarball exampleConfig :=
          {| data := helloAgent; mode := Z.ldiff 384 18 |}]> (disk cachedState) /\
    disk st2 = disk st1.
Proof.
  apply (DownloadAgent_twice
           (exampleEnv 200 helloManifest helloAgent neverFails) exampleConfig
           cachedState "us-west-2" helloManifest helloAgent).
  - intros h ev. reflexivity.
  - apply example_resolves. reflexivity.
  - apply example_serves.
  - apply example_tempAvailable.
  - intros h i. apply (example_tempname h i).
  - vm_compute. reflexivity.
Defined.

(** X10 at a concrete input: a download on a downloader whose region is
    not yet resolved asks the metadata service once. *)
Lemma DownloadAgent_one_region_witness :
  exists new,
    calls (snd (DownloadAgent (exampleEnv 200 helloManifest helloAgent neverFails)
                              exampleConfig cachedState))
    = new ++ calls cachedState /\
    Forall (requestsFor exampleConfig "us-west-2") new /\
    (metadataCalls new <= 1)%nat /\
    (region cachedState <> "" ->
     metadataCalls new = 0%nat /\
     region (snd (DownloadAgent (exampleEnv 200 helloManifest helloAgent neverFails)
                                exampleConfig cachedState))
     = region cachedState).
Proof.
  apply (DownloadAgent_one_region
           (exampleEnv 200 helloManifest helloAgent neverFails) exampleConfig
           cachedState _
           (fst (DownloadAgent (exampleEnv 200 helloManifest helloAgent neverFails)
                               exampleConfig cachedState))
           "us-west-2").
  - apply example_resolves. reflexivity.
  - discriminate.
  - vm_compute. reflexivity.
Defined.

(** X11 at a concrete input: the default region [us-east-1]. *)
Lemma NewDownloader_without_session_witness :
  getRegion emptyRegionEnv exampleConfig
            (NewDownloader exampleConfig (Err (errorString "no credentials")) ∅)
  = (DefaultRegionName exampleConfig,
     NewDownloader exampleConfig (Err (errorString "no credentials")) ∅) /\
  forall res st',
    DownloadAgent emptyRegionEnv exampleConfig
                  (NewDownloader exampleConfig (Err (errorString "no credentials")) ∅)
    = (res, st') ->
    region st' = DefaultRegionName exampleConfig /\
    metadataCalls (calls st') = 0%nat /\
    Forall (requestsFor exampleConfig (DefaultRegionName exampleConfig)) (calls st').
Proof.
  apply (NewDownloader_without_session emptyRegionEnv exampleConfig
           (errorString "no credentials") ∅).
  discriminate.
Defined.

(** X12 at a concrete input: the marker is recorded beside a cached
    agent. *)
Lemma RecordCachedAgent_then_IsAgentCached_witness :
  fst (IsAgentCached (exampleEnv 200 [] [] neverFails) exampleConfig
         (snd (RecordCachedAgent (exampleEnv 200 [] [] neverFails) exampleConfig
                                 cachedState))) = true <->
  exists f, disk cachedState !! AgentTarball exampleConfig = Some f /\ data f <> [].
Proof.
  apply (RecordCachedAgent_then_IsAgentCached
           (exampleEnv 200 [] [] neverFails) exampleConfig
           (exampleEnv 200 [] [] neverFails) cachedState).
  - discriminate.
  - vm_compute. reflexivity.
  - intros h name. reflexivity.
Defined.

(** X13 at a concrete input: the empty artifact, whose digest the
    manifest holds, is downloaded and recorded, and is not reported as
    cached. *)
Lemma DownloadAgent_RecordCachedAgent_IsAgentCached_witness :
  fst (DownloadAgent (exampleEnv 200 wrongManifest [] neverFails)
                     exampleConfig emptyState) = None /\
  fst (IsAgentCached (exampleEnv 200 wrongManifest [] neverFails) exampleConfig
         (snd (RecordCachedAgent (exampleEnv 200 wrongManifest [] neverFails)
                 exampleConfig
                 (snd (DownloadAgent (exampleEnv 200 wrongManifest [] neverFails)
                                     exampleConfig emptyState))))) = false /\
  exists body,
    deliveredBy (exampleEnv 200 wrongManifest [] neverFails) exampleConfig body /\
    data <$> disk (snd (DownloadAgent (exampleEnv 200 wrongManifest [] neverFails)
                                      exampleConfig emptyState))
             !! AgentTarball exampleConfig = Some (rdata body) /\
    data <$> disk (snd (RecordCachedAgent (exampleEnv 200 wrongManifest [] neverFails)
                          exampleConfig
                          (snd (DownloadAgent
                                  (exampleEnv 200 wrongManifest [] neverFails)
                                  exampleConfig emptyState))))
             !! AgentTarball exampleConfig = Some (rdata body) /\
    fst (IsAgentCached (exampleEnv 200 wrongManifest [] neverFails) exampleConfig
           (snd (RecordCachedAgent (exampleEnv 200 wrongManifest [] neverFails)
                   exampleConfig
                   (snd (DownloadAgent (exampleEnv 200 wrongManifest [] neverFails)
                                       exampleConfig emptyState)))))
    = negb (Nat.eqb (length (rdata body)) 0).
Proof.
  split; [vm_compute; reflexivity |]. split; [vm_compute; reflexivity |].
  apply (DownloadAgent_RecordCachedAgent_IsAgentCached
           (exampleEnv 200 wrongManifest [] neverFails) exampleConfig
           (exampleEnv 200 wrongManifest [] neverFails) emptyState).
  - discriminate.
  - vm_compute. reflexivity.
  - vm_compute. reflexivity.
  - intros h name. reflexivity.
Defined.

(** X14 at a concrete input: a line with directory components that ends
    in a no-break space and a carriage return. *)
Lemma getDesiredImageFile_confined_witness :
  fst (getDesiredImageFile (exampleEnv 200 [] [] neverFails) exampleConfig
         (locatorState ("../../etc/my image.tar"
                        +:+ String "194" (String "160" (String "013" newline)))))
  = Ok "/var/cache/ecs/my image.tar" /\
  exists name,
    fst (getDesiredImageFile (exampleEnv 200 [] [] neverFails) exampleConfig
           (locatorState ("../../etc/my image.tar"
                          +:+ String "194" (String "160" (String "013" newline)))))
    = Ok (CacheDirectory exampleConfig +:+ "/" +:+ String.string_of_list_ascii name) /\
    (filepath.Separator ∉ name) /\
    exists k, name = take k (lastPart (String.list_ascii_of_string
                                         ("../../etc/my image.tar"
                                          +:+ String "194" (String "160" (String "013" ""))))).
Proof.
  split; [vm_compute; reflexivity |].
  apply (getDesiredImageFile_confined
           (exampleEnv 200 [] [] neverFails) exampleConfig
           (locatorState ("../../etc/my image.tar"
                          +:+ String "194" (String "160" (String "013" newline))))
           (regularFile ("../../etc/my image.tar"
                         +:+ String "194" (String "160" (String "013" newline))))
           ("../../etc/my image.tar" +:+ String "194" (String "160" (String "013" "")))
           []).
  - reflexivity.
  - reflexivity.
  - reflexivity.
  - apply newline_not_in. reflexivity.
  - reflexivity.
Defined.

(** X15 at a concrete input: what follows the first line differs. *)
Lemma getDesiredImageFile_first_line_witness :
  fst (getDesiredImageFile (exampleEnv 200 [] [] neverFails) exampleConfig
         (locatorState ("myimage.tar" +:+ newline +:+ "reserved")))
  = fst (getDesiredImageFile (exampleEnv 200 [] [] neverFails) exampleConfig
           (imageState ("myimage.tar" +:+ newline +:+ "other" +:+ newline))).
Proof.
  apply (getDesiredImageFile_first_line
           (exampleEnv 200 [] [] neverFails) exampleConfig
           (locatorState ("myimage.tar" +:+ newline +:+ "reserved"))
           (imageState ("myimage.tar" +:+ newline +:+ "other" +:+ newline))
           (regularFile ("myimage.tar" +:+ newline +:+ "reserved"))
           (regularFile ("myimage.tar" +:+ newline +:+ "other" +:+ newline))
           (String.list_byte_of_string "myimage.tar")
           (String.list_byte_of_string "reserved")
           (String.list_byte_of_string ("other" +:+ newline))).
  - reflexivity.
  - reflexivity.
  - reflexivity.
  - vm_compute. reflexivity.
  - reflexivity.
  - reflexivity.
  - apply newline_not_in. reflexivity.
Defined.

(** X16 at a concrete input: the locator file names an image of the
    cache through a path with directory components. *)
Lemma LoadDesiredAgent_confined_witness :
  fst (LoadDesiredAgent (exampleEnv 200 [] [] neverFails) exampleConfig
         (imageState ("../../etc/myimage.tar " +:+ newline)))
  = Ok {| rdata := String.list_byte_of_string "image-bytes"; rerr := None |} /\
  exists name,
    (filepath.Separator ∉ name) /\
    (exists k, name = take k (lastPart (String.list_ascii_of_string
                                          "../../etc/myimage.tar "))) /\
    calls (snd (LoadDesiredAgent (exampleEnv 200 [] [] neverFails) exampleConfig
                  (imageState ("../../etc/myimage.tar " +:+ newline))))
    = CallOpen (CacheDirectory exampleConfig +:+ "/"
                +:+ String.string_of_list_ascii name)
      :: CallBase ("../../etc/myimage.tar " +:+ newline)
      :: CallOpen (DesiredImageLocatorFile exampleConfig)
      :: calls (imageState ("../../etc/myimage.tar " +:+ newline)) /\
    disk (snd (LoadDesiredAgent (exampleEnv 200 [] [] neverFails) exampleConfig
                 (imageState ("../../etc/myimage.tar " +:+ newline))))
    = disk (imageState ("../../etc/myimage.tar " +:+ newline)) /\
    region (snd (LoadDesiredAgent (exampleEnv 200 [] [] neverFails) exampleConfig
                   (imageState ("../../etc/myimage.tar " +:+ newline))))
    = region (imageState ("../../etc/myimage.tar " +:+ newline)) /\
    forall g,
      disk (imageState ("../../etc/myimage.tar " +:+ newline))
        !! (CacheDirectory exampleConfig +:+ "/" +:+ String.string_of_list_ascii name)
      = Some g ->
      fs_fault (exampleEnv 200 [] [] neverFails)
        (CallBase ("../../etc/myimage.tar " +:+ newline)
         :: CallOpen (DesiredImageLocatorFile exampleConfig)
         :: calls (imageState ("../../etc/myimage.tar " +:+ newline)))
        (CallOpen (CacheDirectory exampleConfig +:+ "/"
                   +:+ String.string_of_list_ascii name))
      = None ->
      fst (LoadDesiredAgent (exampleEnv 200 [] [] neverFails) exampleConfig
             (imageState ("../../etc/myimage.tar " +:+ newline)))
      = Ok {| rdata := data g; rerr := None |}.
Proof.
  split; [vm_compute; reflexivity |].
  apply (LoadDesiredAgent_confined
           (exampleEnv 200 [] [] neverFails) exampleConfig
           (imageState ("../../etc/myimage.tar " +:+ newline))
           (regularFile ("../../etc/myimage.tar " +:+ newline))
           "../../etc/myimage.tar " []).
  - reflexivity.
  - vm_compute. reflexivity.
  - reflexivity.
  - apply newline_not_in. reflexivity.
  - reflexivity.
Defined.

(** X17 at a concrete input: the store cannot be reached. *)
Lemma DownloadAgent_manifest_error_witness :
  exists st',
    DownloadAgent emptyRegionEnv exampleConfig presetState
    = (Some (errorString "no route to host"), st') /\
    extends (manifestOnly exampleConfig "us-west-2") presetState st' /\
    disk st' = disk presetState.
Proof.
  apply (DownloadAgent_manifest_error emptyRegionEnv exampleConfig presetState
           "us-west-2" (errorString "no route to host")).
  - reflexivity.
  - left. split; [reflexivity | discriminate].
  - intros h. reflexivity.
Defined.

(** X18 at a concrete input: the digest between two spaces and a
    carriage return and newline. *)
Lemma DownloadAgent_padded_manifest_witness :
  exists st',
    DownloadAgent
      (exampleEnv 200
         (String.list_byte_of_string
            ("  55184970d69063e3bedc39abaf4a2f75" +:+ String "013" newline))
         helloAgent neverFails)
      exampleConfig cachedState = (None, st') /\
    disk st'
    = <[AgentTarball exampleConfig :=
          {| data := helloAgent; mode := Z.ldiff 384 18 |}]> (disk cachedState).
Proof.
  apply (DownloadAgent_padded_manifest
           (exampleEnv 200
              (String.list_byte_of_string
                 ("  55184970d69063e3bedc39abaf4a2f75" +:+ String "013" newline))
              helloAgent neverFails)
           exampleConfig cachedState "us-west-2"
           (String.list_byte_of_string
              ("  55184970d69063e3bedc39abaf4a2f75" +:+ String "013" newline))
           helloAgent "  " (String "013" newline)).
  - intros h ev. reflexivity.
  - apply example_resolves. reflexivity.
  - apply example_serves.
  - apply example_tempAvailable.
  - reflexivity.
  - reflexivity.
  - vm_compute. reflexivity.
Defined.
